(** * Communityhub-server: tenant isolation, membership and invitation lifecycle

    A shallow embedding of the role gate (middleware/requireTenantRole.ts),
    of the membership and invitation handlers of the tenants, tenant
    features and super-admin controllers, and of the tenant file download
    (controllers/tenantUpload.controller.ts), followed by the properties
    of the design document, proved or refuted on the embedding.

    Conventions of the embedding.

    - A MongoDB collection is a list of documents in insertion order;
      [findOne] returns the first document that satisfies the filter.
    - An ObjectId is represented by its hexadecimal string, what
      [String(id)] gives, and documents hold their ids in that form.
      [Types.ObjectId.isValid] and [new Types.ObjectId(s)] belong to the
      bson library, which is not part of the repository: they are the
      parameters [isValid] and [hexOf] (class [Bson]) of every definition
      that uses them.  Where a handler puts a string of the request in a
      filter on an ObjectId path, Mongoose casts it with
      [new Types.ObjectId]: the filter compares with [hexOf s], and a
      string that cannot be cast raises a CastError ([castObjectId]).
    - [Date.now()], [crypto.randomUUID()] and the ids the driver gives to
      inserted documents are inputs of a handler ([Env]); a handler runs
      at one instant [now].
    - Strings are byte strings; [toLowerCase] and [trim] act on ASCII.
    - JSON numbers are integers ([Z]).  A request field of type [any] has
      the type the handler expects, except [tenantId] in body and query
      and [email] in the body, which stay JavaScript values ([jsval]).
    - Documents carry the fields the handlers below read or write;
      timestamps, member custom fields and audit-log writes are left
      out. *)

From Stdlib Require Import String Ascii List ZArith Bool Lia.
Import ListNotations.
Local Open Scope string_scope.
Local Open Scope Z_scope.

Set Implicit Arguments.

(** ** JavaScript strings *)

Module JsString.

(** White space removed by [String.prototype.trim] (ASCII range). *)
Definition isWhite (c : ascii) : bool :=
  let n := nat_of_ascii c in
  ((9 <=? n)%nat && (n <=? 13)%nat) || (n =? 32)%nat.

Fixpoint trimStart (s : string) : string :=
  match s with
  | EmptyString => EmptyString
  | String c r => if isWhite c then trimStart r else s
  end.

Fixpoint trimEnd (s : string) : string :=
  match s with
  | EmptyString => EmptyString
  | String c r =>
      match trimEnd r with
      | EmptyString => if isWhite c then EmptyString else String c EmptyString
      | r' => String c r'
      end
  end.

Definition trim (s : string) : string := trimEnd (trimStart s).

Definition lowerChar (c : ascii) : ascii :=
  let n := nat_of_ascii c in
  if ((65 <=? n)%nat && (n <=? 90)%nat)%bool then ascii_of_nat (n + 32) else c.

Fixpoint toLowerCase (s : string) : string :=
  match s with
  | EmptyString => EmptyString
  | String c r => String (lowerChar c) (toLowerCase r)
  end.

(** [!s] for a string: the empty string is the only falsy one. *)
Definition isEmpty (s : string) : bool :=
  match s with EmptyString => true | _ => false end.

End JsString.
Import JsString.

(** ** JavaScript values reaching the tenant resolver *)

(** The [tenantId] of a body or of a query string is whatever the client
    sent.  [JOther r] is a value that is neither nullish nor a string
    (number, array, object) and [r] is what [String(v)] gives for it. *)
Inductive jsval : Type :=
| JUndefined
| JNull
| JString (s : string)
| JOther (rendered : string).

(** [a ?? b] *)
Definition nullish (a b : jsval) : jsval :=
  match a with
  | JUndefined | JNull => b
  | _ => a
  end.

(** [String(v)] *)
Definition String_ (v : jsval) : string :=
  match v with
  | JUndefined => "undefined"
  | JNull => "null"
  | JString s => s
  | JOther r => r
  end.

(** A route parameter is a string when the route binds it. *)
Definition ofParam (p : option string) : jsval :=
  match p with
  | Some s => JString s
  | None => JUndefined
  end.

(** ** Enumerations of the data model *)

Inductive GlobalRole := SUPER_ADMIN | USER.
Inductive TenantRole := OWNER | ADMIN | MODERATOR | MEMBER.
Inductive MembershipStatus := PENDING | ACTIVE | SUSPENDED | BANNED.

Definition GlobalRole_eqb (a b : GlobalRole) : bool :=
  match a, b with
  | SUPER_ADMIN, SUPER_ADMIN | USER, USER => true
  | _, _ => false
  end.

Definition TenantRole_eqb (a b : TenantRole) : bool :=
  match a, b with
  | OWNER, OWNER | ADMIN, ADMIN | MODERATOR, MODERATOR | MEMBER, MEMBER => true
  | _, _ => false
  end.

Definition MembershipStatus_eqb (a b : MembershipStatus) : bool :=
  match a, b with
  | PENDING, PENDING | ACTIVE, ACTIVE | SUSPENDED, SUSPENDED | BANNED, BANNED => true
  | _, _ => false
  end.

(** [roles.includes(r)] *)
Definition includes (roles : list TenantRole) (r : TenantRole) : bool :=
  existsb (TenantRole_eqb r) roles.

(** ** Documents and the store *)

Record Tenant := mkTenant {
  t_id : string;
  t_name : string;
  t_slug : string;
  t_logoUrl : string;
  t_status : string;
  t_createdBy : string
}.

Record TenantSettings := mkTenantSettings {
  ts_tenantId : string;
  ts_publicSignup : bool;
  ts_approvalRequired : bool
}.

Record User := mkUser {
  u_id : string;
  u_email : string;
  u_fullName : string;
  u_phone : string;
  u_globalRole : GlobalRole
}.

Record Membership := mkMembership {
  m_id : string;
  m_tenantId : string;
  m_userId : string;
  m_role : TenantRole;
  m_status : MembershipStatus
}.

Record MemberProfile := mkMemberProfile {
  mp_tenantId : string;
  mp_userId : string;
  mp_fullName : string;
  mp_phone : string
}.

(** The stored [status] of an invitation is a string, as
    [normalizeInvitationStatus] takes it. *)
Record Invitation := mkInvitation {
  i_id : string;
  i_tenantId : string;
  i_email : string;
  i_phone : string;
  i_role : TenantRole;
  i_status : string;
  i_token : string;
  i_expiresAt : Z;
  i_invitedBy : string;
  i_revokedAt : option Z;
  i_revokedByUserId : option string;
  i_acceptedByUserId : option string;
  i_acceptedAt : option Z
}.

Record FileMetadata := mkFileMetadata {
  meta_tenantId : jsval;
  meta_purpose : string;
  meta_uploadedBy : string
}.

(** A document of [tenant-files.files] together with the bytes of its
    chunks. *)
Record FileDoc := mkFileDoc {
  f_id : string;
  f_filename : string;
  f_contentType : option string;
  f_length : Z;
  f_metadata : option FileMetadata;
  f_content : string
}.

(** [gridfs] is [None] when [mongoose.connection.db] is not set. *)
Record Store := mkStore {
  tenants : list Tenant;
  tenantSettings : list TenantSettings;
  users : list User;
  memberships : list Membership;
  memberProfiles : list MemberProfile;
  invitations : list Invitation;
  gridfs : option (list FileDoc)
}.

Definition set_tenants (l : list Tenant) (s : Store) : Store :=
  mkStore l (tenantSettings s) (users s) (memberships s) (memberProfiles s)
          (invitations s) (gridfs s).
Definition set_users (l : list User) (s : Store) : Store :=
  mkStore (tenants s) (tenantSettings s) l (memberships s) (memberProfiles s)
          (invitations s) (gridfs s).
Definition set_memberships (l : list Membership) (s : Store) : Store :=
  mkStore (tenants s) (tenantSettings s) (users s) l (memberProfiles s)
          (invitations s) (gridfs s).
Definition set_memberProfiles (l : list MemberProfile) (s : Store) : Store :=
  mkStore (tenants s) (tenantSettings s) (users s) (memberships s) l
          (invitations s) (gridfs s).
Definition set_invitations (l : list Invitation) (s : Store) : Store :=
  mkStore (tenants s) (tenantSettings s) (users s) (memberships s)
          (memberProfiles s) l (gridfs s).

(** ** Errors and responses *)

(** [new AppError(message, statusCode, code)] *)
Record AppError := mkAppError {
  message : string;
  statusCode : Z;
  code : string
}.

(** What a handler can throw: an [AppError], a [ZodError], or anything
    else (a driver or library error, named for the reader only). *)
Inductive Exn : Type :=
| ExnApp (e : AppError)
| ExnZod
| ExnOther (name : string).

(** The arguments [fail(res, message, status, code)] is called with. *)
Record FailResponse := mkFail {
  r_message : string;
  r_status : Z;
  r_code : string
}.

(** [errorHandler] of middleware/errorHandler.ts *)
Definition errorHandler (err : Exn) : FailResponse :=
  match err with
  | ExnApp e => mkFail (message e) (statusCode e) (code e)
  | ExnZod => mkFail "Validation failed" 422 "VALIDATION_ERROR"
  | ExnOther _ => mkFail "Internal server error" 500 "INTERNAL_SERVER_ERROR"
  end.

(** ** Handlers as store transformers that may throw *)

Inductive Result (A : Type) : Type :=
| Ok (a : A)
| Throw (e : Exn).
Arguments Ok {A} a.
Arguments Throw {A} e.

(** A throw keeps the writes made before it: there is no transaction. *)
Definition M (A : Type) : Type := Store -> Result A * Store.

Definition ret {A} (a : A) : M A := fun s => (Ok a, s).

Definition bind {A B} (c : M A) (k : A -> M B) : M B :=
  fun s =>
    match c s with
    | (Ok a, s') => k a s'
    | (Throw e, s') => (Throw e, s')
    end.

Definition throw {A} (e : Exn) : M A := fun s => (Throw e, s).

Definition throwApp {A} (msg : string) (st : Z) (cd : string) : M A :=
  throw (ExnApp (mkAppError msg st cd)).

Definition gets {A} (f : Store -> A) : M A := fun s => (Ok (f s), s).

Definition modify (f : Store -> Store) : M unit := fun s => (Ok tt, f s).

Notation "x <- c ;; k" := (bind c (fun x => k))
  (at level 61, c at next level, right associativity).
Notation "c ;;; k" := (bind c (fun _ => k))
  (at level 61, right associativity).

(** ** Collection operations (Mongoose) *)

Section Collections.
Variable A : Type.

(** [Model.findOne(filter)] *)
Definition findOne (p : A -> bool) (l : list A) : option A := find p l.

(** The write of [findOneAndUpdate] / [updateOne] on a match: the first
    matching document is updated in place. *)
Fixpoint updateFirst (p : A -> bool) (f : A -> A) (l : list A) : list A :=
  match l with
  | [] => []
  | x :: r => if p x then f x :: r else x :: updateFirst p f r
  end.

(** [Model.create(doc)] *)
Definition insertDoc (d : A) (l : list A) : list A := l ++ [d].

(** [findOneAndUpdate(filter, update, {upsert: true, new: true})]: the
    document returned and the collection after the call.  [fresh] is the
    document inserted when nothing matches. *)
Definition upsert (p : A -> bool) (f : A -> A) (fresh : A) (l : list A)
  : A * list A :=
  match findOne p l with
  | Some x => (f x, updateFirst p f l)
  | None => (fresh, insertDoc fresh l)
  end.

(** [findOneAndUpdate(filter, update, {new: true})] *)
Definition updateOneNew (p : A -> bool) (f : A -> A) (l : list A)
  : option A * list A :=
  match findOne p l with
  | Some x => (Some (f x), updateFirst p f l)
  | None => (None, l)
  end.

End Collections.

(** ** Requests and the environment of a call *)

(** [req.user], set by the [auth] middleware from the verified token. *)
Record JwtUser := mkJwtUser {
  sub : string;
  globalRole : GlobalRole
}.

Record Params := mkParams {
  p_tenantId : option string;
  p_id : option string;
  p_userId : option string;
  p_slug : option string;
  p_fileId : option string
}.

(** The body fields the handlers below read.  An absent string field is
    the empty string where the handlers read it as [String(x || '')];
    [email] is read as [String(req.body.email)] and stays a JavaScript
    value; an absent or falsy [role], [status], [expiresInDays] is
    [None]. *)
Record Body := mkBody {
  b_tenantId : jsval;
  b_email : jsval;
  b_phone : string;
  b_role : option TenantRole;
  b_status : option MembershipStatus;
  b_expiresInDays : option Z;
  b_inviteToken : string;
  b_fullName : string;
  b_existingTenantId : string;
  b_membershipRole : option TenantRole;
  b_tenantName : string;
  b_tenantSlug : string;
  b_logoUrl : string
}.

Record Request := mkRequest {
  user : option JwtUser;
  params : Params;
  body : Body;
  q_tenantId : jsval
}.

(** [Date.now()], [crypto.randomUUID()], and the [_id] the driver gives to
    the k-th document a call inserts. *)
Record Env := mkEnv {
  now : Z;
  randomUUID : string;
  newObjectId : nat -> string
}.

(** The bson library.  [isValid] is [Types.ObjectId.isValid];
    [new Types.ObjectId(s)] throws exactly on the strings it rejects, and
    [hexOf s] is the hexadecimal string of the ObjectId it builds from an
    accepted [s] (for a string of 24 hexadecimal digits, the same digits
    in lower case). *)
Class Bson := {
  isValid : string -> bool;
  hexOf : string -> string
}.

(** A handler is mounted on a route that binds the parameters it reads;
    [String(req.params.x || '')] otherwise. *)
Definition routeParam (p : option string) : string :=
  match p with
  | Some s => s
  | None => ""
  end.

(** [req.user.sub] needs [req.user]: a TypeError without it. *)
Definition requireUser (req : Request) : M JwtUser :=
  match user req with
  | Some u => ret u
  | None => throw (ExnOther "TypeError")
  end.

(** [new Types.ObjectId(s)], as its hexadecimal string. *)
Definition newTypesObjectId `{Bson} (s : string) : M string :=
  if isValid s then ret (hexOf s) else throw (ExnOther "BSONError").

(** The cast Mongoose applies to a string given where the schema has an
    ObjectId ([_id], [tenantId], [userId]), in a filter or in
    [findById]. *)
Definition castObjectId `{Bson} (s : string) : M string :=
  if isValid s then ret (hexOf s) else throw (ExnOther "CastError").

(** The filter [{ tenantId, userId }] on memberships, once its values are
    ObjectIds: [tenantId] and [userId] are hexadecimal strings of
    ObjectIds, as the stored ones are. *)
Definition membershipOf (tenantId userId : string) (m : Membership) : bool :=
  String.eqb (m_tenantId m) tenantId && String.eqb (m_userId m) userId.

(** The filter [{ tenantId, userId, status: 'ACTIVE' }], on ObjectIds. *)
Definition activeMembershipOf (tenantId userId : string) (m : Membership) : bool :=
  membershipOf tenantId userId m && MembershipStatus_eqb (m_status m) ACTIVE.

(** ** middleware/requireTenantRole.ts *)

Inductive GateOutcome : Type :=
| Next
| Rejected (r : FailResponse).

(** [req.params.tenantId ?? req.params.id ?? req.body?.tenantId ??
     req.query?.tenantId ?? ''] *)
Definition tenantIdRaw (req : Request) : jsval :=
  nullish
    (nullish
       (nullish
          (nullish (ofParam (p_tenantId (params req)))
                   (ofParam (p_id (params req))))
          (b_tenantId (body req)))
       (q_tenantId req))
    (JString "").

(** [String(tenantIdRaw).trim()] *)
Definition tenantIdStr (req : Request) : string :=
  trim (String_ (tenantIdRaw req)).

Definition requireTenantRole `{Bson} (roles : list TenantRole) (req : Request)
  : M GateOutcome :=
  match user req with
  | None => ret (Rejected (mkFail "Unauthorized" 401 "UNAUTHORIZED"))
  | Some u =>
      if GlobalRole_eqb (globalRole u) SUPER_ADMIN then ret Next
      else
        if isEmpty (tenantIdStr req) || negb (isValid (tenantIdStr req)) then
          ret (Rejected (mkFail "Valid tenantId is required" 400 "VALIDATION_ERROR"))
        else
          (* the filter { tenantId: tenantIdStr, userId: req.user.sub,
             status: 'ACTIVE' } is cast before it is run *)
          tenantId <- castObjectId (tenantIdStr req) ;;
          userId <- castObjectId (sub u) ;;
          membership <-
            gets (fun s => findOne (activeMembershipOf tenantId userId)
                                   (memberships s)) ;;
          match membership with
          | None => ret (Rejected (mkFail "Forbidden" 403 "FORBIDDEN"))
          | Some m =>
              if negb (includes roles (m_role m)) then
                ret (Rejected (mkFail "Forbidden" 403 "FORBIDDEN"))
              else ret Next
          end
  end.

(** ** Invitation status, derived at read time

    [normalizeInvitationStatus] is defined, word for word the same, in
    controllers/tenantFeatures.controller.ts and in the tenants
    controller; [now] is its [Date.now()]. *)

Definition normalizeInvitationStatus (status : string) (expiresAt : Z) (now : Z)
  : string :=
  if String.eqb status "REVOKED" then "REVOKED"
  else if String.eqb status "ACCEPTED" then "ACCEPTED"
  else if expiresAt <? now then "EXPIRED"
  else "SENT".

Definition sevenDays : Z := 7 * 24 * 60 * 60 * 1000.

(** What the invitation handlers send back: the document with its
    [status] replaced by the derived one. *)
Definition withDerivedStatus (now : Z) (i : Invitation) : Invitation :=
  mkInvitation (i_id i) (i_tenantId i) (i_email i) (i_phone i) (i_role i)
               (normalizeInvitationStatus (i_status i) (i_expiresAt i) now)
               (i_token i) (i_expiresAt i) (i_invitedBy i) (i_revokedAt i)
               (i_revokedByUserId i) (i_acceptedByUserId i) (i_acceptedAt i).

(** [doc.save()] on an invitation read earlier in the call: the paths
    the handler assigned ([change]) are set on the stored document with
    that [_id]. *)
Definition saveInvitation (id : string) (change : Invitation -> Invitation)
  : M unit :=
  modify (fun s =>
    set_invitations
      (updateFirst (fun x => String.eqb (i_id x) id) change (invitations s)) s).

(** ** controllers/tenantFeatures.controller.ts *)

Module TenantFeatures.

Definition tenantObjectId `{Bson} (tenantId : string) : M string :=
  if negb (isValid tenantId) then throwApp "Invalid tenantId" 400 "VALIDATION_ERROR"
  else ret (hexOf tenantId).

Definition ensureMembership `{Bson} (tenantId userId : string) : M unit :=
  t <- tenantObjectId tenantId ;;
  u <- tenantObjectId userId ;;
  row <- gets (fun s => findOne (activeMembershipOf t u) (memberships s)) ;;
  match row with
  | None => throwApp "Not a tenant member" 403 "FORBIDDEN"
  | Some _ => ret tt
  end.

(** The update [{ role: req.body.role, status: req.body.status || 'ACTIVE' }];
    a key whose value is [undefined] is not part of the update. *)
Definition memberRoleUpdate (b : Body) (m : Membership) : Membership :=
  mkMembership (m_id m) (m_tenantId m) (m_userId m)
               (match b_role b with Some r => r | None => m_role m end)
               (match b_status b with Some st => st | None => ACTIVE end).

Definition updateMemberRole `{Bson} (req : Request) : M (Z * Membership) :=
  (* the filter { tenantId: req.params.tenantId, userId: req.params.userId } *)
  tenantId <- castObjectId (routeParam (p_tenantId (params req))) ;;
  userId <- castObjectId (routeParam (p_userId (params req))) ;;
  fun s =>
    match updateOneNew (membershipOf tenantId userId)
                       (memberRoleUpdate (body req)) (memberships s) with
    | (None, _) => throwApp "Membership not found" 404 "NOT_FOUND" s
    | (Some row, ms) => (Ok (200, row), set_memberships ms s)
    end.

(** The filter of [createInvitation], [tenantId] being an ObjectId:
    [{ tenantId, email, status: { $in: ['SENT', 'PENDING'] },
       expiresAt: { $gte: new Date() } }] *)
Definition outstandingFor (tenantId email : string) (now : Z) (i : Invitation)
  : bool :=
  String.eqb (i_tenantId i) tenantId
  && String.eqb (i_email i) email
  && (String.eqb (i_status i) "SENT" || String.eqb (i_status i) "PENDING")
  && (now <=? i_expiresAt i).

(** [Number(req.body.expiresInDays || 7)], for a body whose
    [expiresInDays] is absent ([None]) or a whole number. *)
Definition ttlDays (b : Body) : Z :=
  match b_expiresInDays b with
  | Some d => if d =? 0 then 7 else d
  | None => 7
  end.

(** [Math.max(1, Math.min(30, ttlDays))] *)
Definition clampedTtl (b : Body) : Z := Z.max 1 (Z.min 30 (ttlDays b)).

Definition createInvitation `{Bson} (env : Env) (req : Request)
  : M (Z * Invitation) :=
  let token := randomUUID env in
  let email := trim (toLowerCase (String_ (b_email (body req)))) in
  (* req.params.tenantId is cast in the filter, and again by the schema
     when the document is created *)
  tenantId <- castObjectId (routeParam (p_tenantId (params req))) ;;
  existing <- gets (fun s => findOne (outstandingFor tenantId email (now env))
                                     (invitations s)) ;;
  match existing with
  | Some _ =>
      throwApp "An active invitation already exists for this email" 409
               "INVITATION_EXISTS"
  | None =>
      let expiresAt := now env + clampedTtl (body req) * (24 * 60 * 60 * 1000) in
      u <- requireUser req ;;
      invitedBy <- tenantObjectId (sub u) ;;
      let row :=
        mkInvitation (newObjectId env 0) tenantId email
                     (trim (b_phone (body req)))
                     (match b_role (body req) with Some r => r | None => MEMBER end)
                     "SENT" token expiresAt invitedBy None None None None in
      modify (fun s => set_invitations (insertDoc row (invitations s)) s) ;;;
      ret (201, withDerivedStatus (now env) row)
  end.

(** The filter [{ _id: req.params.id, tenantId: req.params.tenantId }],
    once both values are cast to ObjectIds. *)
Definition invitationById (id tenantId : string) (i : Invitation) : bool :=
  String.eqb (i_id i) id && String.eqb (i_tenantId i) tenantId.

(** [existing.token = crypto.randomUUID(); existing.status = 'SENT';
     existing.revokedAt = null; existing.revokedByUserId = null;
     existing.expiresAt = new Date(Date.now() + 7 * 24 * 60 * 60 * 1000)] *)
Definition markResent (env : Env) (i : Invitation) : Invitation :=
  mkInvitation (i_id i) (i_tenantId i) (i_email i) (i_phone i) (i_role i)
               "SENT" (randomUUID env) (now env + sevenDays)
               (i_invitedBy i) None None
               (i_acceptedByUserId i) (i_acceptedAt i).

(** [existing.status = 'REVOKED'; existing.revokedByUserId = ...;
     existing.revokedAt = new Date()] *)
Definition markRevoked (by_ : string) (at_ : Z) (i : Invitation) : Invitation :=
  mkInvitation (i_id i) (i_tenantId i) (i_email i) (i_phone i) (i_role i)
               "REVOKED" (i_token i) (i_expiresAt i)
               (i_invitedBy i) (Some at_) (Some by_)
               (i_acceptedByUserId i) (i_acceptedAt i).

Definition resendInvitation `{Bson} (env : Env) (req : Request)
  : M (Z * Invitation) :=
  id <- castObjectId (routeParam (p_id (params req))) ;;
  tenantId <- castObjectId (routeParam (p_tenantId (params req))) ;;
  existing <- gets (fun s => findOne (invitationById id tenantId) (invitations s)) ;;
  match existing with
  | None => throwApp "Invitation not found" 404 "NOT_FOUND"
  | Some e =>
      if String.eqb (i_status e) "ACCEPTED" then
        throwApp "Cannot resend an accepted invitation" 400 "INVALID_STATE"
      else
        saveInvitation (i_id e) (markResent env) ;;;
        ret (200, withDerivedStatus (now env) (markResent env e))
  end.

Definition revokeInvitation `{Bson} (env : Env) (req : Request)
  : M (Z * Invitation) :=
  id <- castObjectId (routeParam (p_id (params req))) ;;
  tenantId <- castObjectId (routeParam (p_tenantId (params req))) ;;
  existing <- gets (fun s => findOne (invitationById id tenantId) (invitations s)) ;;
  match existing with
  | None => throwApp "Invitation not found" 404 "NOT_FOUND"
  | Some e =>
      if String.eqb (i_status e) "ACCEPTED" then
        throwApp "Accepted invitation cannot be revoked" 400 "INVALID_STATE"
      else
        u <- requireUser req ;;
        by_ <- tenantObjectId (sub u) ;;
        saveInvitation (i_id e) (markRevoked by_ (now env)) ;;;
        ret (200, withDerivedStatus (now env) (markRevoked by_ (now env) e))
  end.

End TenantFeatures.

(** ** The tenants controller (joins and the older invitation endpoint) *)

Module Tenants.

Record MembershipView := mkMembershipView {
  v_id : string;
  v_tenantId : string;
  v_role : TenantRole;
  v_status : MembershipStatus
}.

Definition mapMembership (m : Membership) : MembershipView :=
  mkMembershipView (m_id m) (m_tenantId m) (m_role m) (m_status m).

Definition getMembershipRoute (slug : string) (m : Membership) : string :=
  if MembershipStatus_eqb (m_status m) PENDING then "/c/" ++ slug ++ "/pending"
  else if TenantRole_eqb (m_role m) OWNER || TenantRole_eqb (m_role m) ADMIN
          || TenantRole_eqb (m_role m) MODERATOR
       then "/c/" ++ slug ++ "/admin"
       else "/c/" ++ slug.

(** [TenantModel.findById(id)] on a string: the id is cast first. *)
Definition findTenantById `{Bson} (id : string) : M (option Tenant) :=
  _id <- castObjectId id ;;
  gets (fun s => findOne (fun t => String.eqb (t_id t) _id) (tenants s)).

Definition findSettings (tenantId : string) : M (option TenantSettings) :=
  gets (fun s => findOne (fun x => String.eqb (ts_tenantId x) tenantId)
                         (tenantSettings s)).

(** [settings?.approvalRequired ? 'PENDING' : 'ACTIVE'] *)
Definition directJoinStatus (settings : option TenantSettings) : MembershipStatus :=
  match settings with
  | Some x => if ts_approvalRequired x then PENDING else ACTIVE
  | None => ACTIVE
  end.

(** [settings?.publicSignup] as a condition. *)
Definition publicSignup (settings : option TenantSettings) : bool :=
  match settings with
  | Some x => ts_publicSignup x
  | None => false
  end.

Record InviteView := mkInviteView {
  iv_id : string;
  iv_email : string;
  iv_role : TenantRole;
  iv_status : string;
  iv_token : string;
  iv_inviteUrl : string;
  iv_expiresAt : Z
}.

Definition inviteMember `{Bson} (env : Env) (req : Request) : M (Z * InviteView) :=
  tenant <- findTenantById (routeParam (p_tenantId (params req))) ;;
  match tenant with
  | None => throwApp "Tenant not found" 404 "NOT_FOUND"
  | Some tenant =>
      let email := trim (toLowerCase (String_ (b_email (body req)))) in
      let phone := trim (b_phone (body req)) in
      let token := randomUUID env in
      let expiresAt := now env + sevenDays in
      u <- requireUser req ;;
      invitedBy <- newTypesObjectId (sub u) ;;
      let created :=
        mkInvitation (newObjectId env 0) (t_id tenant) email phone
                     (match b_role (body req) with Some r => r | None => MEMBER end)
                     "SENT" token expiresAt invitedBy None None None None in
      modify (fun s => set_invitations (insertDoc created (invitations s)) s) ;;;
      ret (201,
           mkInviteView (i_id created) (i_email created) (i_role created)
             (normalizeInvitationStatus (i_status created) (i_expiresAt created)
                                        (now env))
             (i_token created)
             ("/c/" ++ t_slug tenant ++ "/join?invite=" ++ i_token created)
             (i_expiresAt created))
  end.

Definition joinTenant `{Bson} (env : Env) (req : Request)
  : M (Z * MembershipView) :=
  tenant <- findTenantById (routeParam (p_tenantId (params req))) ;;
  match tenant with
  | None => throwApp "Tenant not found" 404 "NOT_FOUND"
  | Some tenant =>
      settings <- findSettings (t_id tenant) ;;
      let role := MEMBER in
      let status := directJoinStatus settings in
      u <- requireUser req ;;
      userId <- newTypesObjectId (sub u) ;;
      existing <- gets (fun s => findOne (membershipOf (t_id tenant) userId)
                                         (memberships s)) ;;
      match existing with
      | Some e => ret (200, mapMembership e)
      | None =>
          let created :=
            mkMembership (newObjectId env 0) (t_id tenant) userId role status in
          modify (fun s => set_memberships (insertDoc created (memberships s)) s) ;;;
          ret (201, mapMembership created)
      end
  end.

Record JoinResponse := mkJoinResponse {
  jr_membership : MembershipView;
  jr_nextRoute : string;
  jr_pendingApproval : bool
}.

(** The filter [{ tenantId: tenant._id, token: inviteToken }]. *)
Definition invitationByToken (tenantId token : string) (i : Invitation) : bool :=
  String.eqb (i_tenantId i) tenantId && String.eqb (i_token i) token.

(** The update [{ tenantId, userId, role, status }] of the membership
    upsert. *)
Definition setRoleStatus (role : TenantRole) (status : MembershipStatus)
  (m : Membership) : Membership :=
  mkMembership (m_id m) (m_tenantId m) (m_userId m) role status.

Definition upsertMembership (id tenantId userId : string) (role : TenantRole)
  (status : MembershipStatus) : M Membership :=
  fun s =>
    let '(m, ms) :=
      upsert (membershipOf tenantId userId) (setRoleStatus role status)
             (mkMembership id tenantId userId role status) (memberships s) in
    (Ok m, set_memberships ms s).

Definition upsertMemberProfile (tenantId userId fullName phone : string) : M unit :=
  modify (fun s =>
    set_memberProfiles
      (snd (upsert
              (fun p => String.eqb (mp_tenantId p) tenantId
                        && String.eqb (mp_userId p) userId)
              (fun _ => mkMemberProfile tenantId userId fullName phone)
              (mkMemberProfile tenantId userId fullName phone)
              (memberProfiles s))) s).

(** [if (fullName) user.fullName = fullName; if (phone) user.phone = phone;
     await user.save()] *)
Definition saveUserNames (user : User) (fullName phone : string) : M unit :=
  if negb (isEmpty fullName) || negb (isEmpty phone) then
    let user' :=
      mkUser (u_id user) (u_email user)
             (if isEmpty fullName then u_fullName user else fullName)
             (if isEmpty phone then u_phone user else phone)
             (u_globalRole user) in
    modify (fun s =>
      set_users (updateFirst (fun x => String.eqb (u_id x) (u_id user))
                             (fun _ => user') (users s)) s)
  else ret tt.

(** [inviteRow.status = 'ACCEPTED'; inviteRow.acceptedByUserId = userId;
     inviteRow.acceptedAt = new Date()] *)
Definition markAccepted (userId : string) (at_ : Z) (i : Invitation) : Invitation :=
  mkInvitation (i_id i) (i_tenantId i) (i_email i) (i_phone i) (i_role i)
               "ACCEPTED" (i_token i) (i_expiresAt i) (i_invitedBy i)
               (i_revokedAt i) (i_revokedByUserId i) (Some userId) (Some at_).

Definition joinTenantBySlug `{Bson} (env : Env) (req : Request)
  : M (Z * JoinResponse) :=
  match user req with
  | None => throwApp "Unauthorized" 401 "UNAUTHORIZED"
  | Some u =>
    if isEmpty (sub u) then throwApp "Unauthorized" 401 "UNAUTHORIZED" else
    let slug := toLowerCase (routeParam (p_slug (params req))) in
    let inviteToken := trim (b_inviteToken (body req)) in
    let fullName := trim (b_fullName (body req)) in
    let phone := trim (b_phone (body req)) in
    tenant <- gets (fun s => findOne (fun t => String.eqb (t_slug t) slug)
                                     (tenants s)) ;;
    match tenant with
    | None => throwApp "Tenant not found" 404 "NOT_FOUND"
    | Some tenant =>
      userId <- newTypesObjectId (sub u) ;;
      settings <- findSettings (t_id tenant) ;;
      user <- gets (fun s => findOne (fun x => String.eqb (u_id x) userId)
                                     (users s)) ;;
      existingMembership <-
        gets (fun s => findOne (membershipOf (t_id tenant) userId)
                               (memberships s)) ;;
      match user with
      | None => throwApp "User not found" 404 "NOT_FOUND"
      | Some user =>
        if match existingMembership with
           | Some e => MembershipStatus_eqb (m_status e) BANNED
           | None => false
           end
        then throwApp "You are banned from this community" 403 "FORBIDDEN"
        else
          (* the invitation, the role to assign and the status to give *)
          decided <-
            (if negb (isEmpty inviteToken) then
               inviteRow <-
                 gets (fun s => findOne (invitationByToken (t_id tenant) inviteToken)
                                        (invitations s)) ;;
               match inviteRow with
               | None => throwApp "Invitation not found" 404 "NOT_FOUND"
               | Some inviteRow =>
                   let invitationStatus :=
                     normalizeInvitationStatus (i_status inviteRow)
                                               (i_expiresAt inviteRow) (now env) in
                   if negb (String.eqb invitationStatus "SENT") then
                     throwApp ("Invitation is " ++ toLowerCase invitationStatus)
                              400 "INVITATION_INVALID"
                   else if negb (String.eqb (i_email inviteRow)
                                            (toLowerCase (u_email user))) then
                     throwApp "Invitation email does not match your account"
                              403 "FORBIDDEN"
                   else ret (Some inviteRow, i_role inviteRow, ACTIVE)
               end
             else if negb (publicSignup settings) then
               throwApp
                 "Public signup is disabled for this community. An invitation link is required to join."
                 403 "PUBLIC_JOIN_DISABLED"
             else ret (None, MEMBER, directJoinStatus settings)) ;;
          let '(inviteRow, assignedRole, membershipStatus) := decided in
          (match inviteRow with
           | Some _ => ret tt
           | None =>
               if isEmpty (trim fullName) then
                 throwApp "Full name is required" 400 "VALIDATION_ERROR"
               else if isEmpty (trim phone) then
                 throwApp "Phone number is required" 400 "VALIDATION_ERROR"
               else ret tt
           end) ;;;
          membership <-
            upsertMembership (newObjectId env 0) (t_id tenant) userId assignedRole
              (match existingMembership with
               | Some e =>
                   if MembershipStatus_eqb (m_status e) ACTIVE then ACTIVE
                   else membershipStatus
               | None => membershipStatus
               end) ;;
          upsertMemberProfile (t_id tenant) userId fullName phone ;;;
          saveUserNames user fullName phone ;;;
          (match inviteRow with
           | Some inviteRow =>
               saveInvitation (i_id inviteRow) (markAccepted userId (now env))
           | None => ret tt
           end) ;;;
          ret (201,
               mkJoinResponse (mapMembership membership)
                              (getMembershipRoute (t_slug tenant) membership)
                              (MembershipStatus_eqb (m_status membership) PENDING))
      end
    end
  end.

End Tenants.

(** ** The super-admin controller *)

Module Admin.

Definition isSlugChar (c : ascii) : bool :=
  let n := nat_of_ascii c in
  ((97 <=? n)%nat && (n <=? 122)%nat) || ((48 <=? n)%nat && (n <=? 57)%nat)
  || (n =? 45)%nat.

Definition dash : ascii := "-"%char.

(** [.replace(/[^a-z0-9-]/g, '-')] *)
Fixpoint dashOthers (s : string) : string :=
  match s with
  | EmptyString => EmptyString
  | String c r => String (if isSlugChar c then c else dash) (dashOthers r)
  end.

(** [.replace(/-+/g, '-')] *)
Fixpoint collapseDashes (s : string) : string :=
  match s with
  | EmptyString => EmptyString
  | String c r =>
      if Ascii.eqb c dash then
        match collapseDashes r with
        | String d r' => if Ascii.eqb d dash then String d r' else String c (String d r')
        | EmptyString => String c EmptyString
        end
      else String c (collapseDashes r)
  end.

Fixpoint dropLastDash (s : string) : string :=
  match s with
  | EmptyString => EmptyString
  | String c EmptyString => if Ascii.eqb c dash then EmptyString else s
  | String c r => String c (dropLastDash r)
  end.

(** [.replace(/^-|-$/g, '')] *)
Definition stripEdgeDashes (s : string) : string :=
  match s with
  | String c r => if Ascii.eqb c dash then dropLastDash r else dropLastDash s
  | EmptyString => EmptyString
  end.

Definition normalizeSlug (input : string) : string :=
  stripEdgeDashes (collapseDashes (dashOthers (toLowerCase (trim input)))).

Record PromoteResponse := mkPromoteResponse {
  pr_userId : string;
  pr_tenantId : string;
  pr_tenantSlug : string;
  pr_membership : Membership;
  pr_adminRoute : string;
  pr_createdTenant : bool
}.

(** The tenant to promote into: an existing one, or one created from the
    name and slug of the body.  The boolean is [createdTenant];
    [userId] is [new Types.ObjectId(userId)]. *)
Definition resolveTenant `{Bson} (env : Env) (req : Request) (userId : string)
  : M (Tenant * bool) :=
  let existingTenantId := trim (b_existingTenantId (body req)) in
  if negb (isEmpty existingTenantId) then
    if negb (isValid existingTenantId) then
      throwApp "Invalid existingTenantId" 422 "VALIDATION_ERROR"
    else
      tenant <- Tenants.findTenantById existingTenantId ;;
      match tenant with
      | None => throwApp "Tenant not found" 404 "NOT_FOUND"
      | Some t => ret (t, false)
      end
  else
    let tenantName := trim (b_tenantName (body req)) in
    let tenantSlug := normalizeSlug (b_tenantSlug (body req)) in
    let logoUrl := trim (b_logoUrl (body req)) in
    if isEmpty tenantName || isEmpty tenantSlug then
      throwApp "tenantName and tenantSlug are required" 422 "VALIDATION_ERROR"
    else
      slugExists <- gets (fun s => findOne (fun t => String.eqb (t_slug t) tenantSlug)
                                           (tenants s)) ;;
      match slugExists with
      | Some _ => throwApp "Slug already in use" 409 "SLUG_EXISTS"
      | None =>
          let t := mkTenant (newObjectId env 0) tenantName tenantSlug logoUrl
                            "ACTIVE" userId in
          modify (fun s => set_tenants (insertDoc t (tenants s)) s) ;;;
          ret (t, true)
      end.

Definition promoteUserToTenant `{Bson} (env : Env) (req : Request)
  : M (Z * PromoteResponse) :=
  let userId := routeParam (p_userId (params req)) in
  if negb (isValid userId) then throwApp "Invalid userId" 422 "VALIDATION_ERROR"
  else
    (* UserModel.findById(userId) casts the string; the writes below use
       new Types.ObjectId(userId) *)
    let userId := hexOf userId in
    user <- gets (fun s => findOne (fun x => String.eqb (u_id x) userId) (users s)) ;;
    match user with
    | None => throwApp "User not found" 404 "NOT_FOUND"
    | Some user =>
        let membershipRole :=
          match b_membershipRole (body req) with
          | Some ADMIN => ADMIN
          | _ => OWNER
          end in
        resolved <- resolveTenant env req userId ;;
        let '(tenant, createdTenant) := resolved in
        membership <-
          Tenants.upsertMembership (newObjectId env 1) (t_id tenant) userId
                                   membershipRole ACTIVE ;;
        (* the audit entry written here is left out with the audit log *)
        ret (200,
             mkPromoteResponse (u_id user) (t_id tenant) (t_slug tenant) membership
                               ("/c/" ++ t_slug tenant ++ "/admin") createdTenant)
    end.

End Admin.

(** ** controllers/tenantUpload.controller.ts *)

Module TenantUpload.

Definition ensureMembership `{Bson} (tenantId userId : string) : M unit :=
  t <- newTypesObjectId tenantId ;;
  u <- newTypesObjectId userId ;;
  row <- gets (fun s => findOne (activeMembershipOf t u) (memberships s)) ;;
  match row with
  | None => throwApp "Not a tenant member" 403 "FORBIDDEN"
  | Some _ => ret tt
  end.

(** What a successful download puts on the wire. *)
Record Download := mkDownload {
  d_contentType : string;
  d_bytes : string
}.

(** [(fileDoc.metadata || {}).tenantId] *)
Definition metaTenantId (d : FileDoc) : jsval :=
  match f_metadata d with
  | Some m => meta_tenantId m
  | None => JUndefined
  end.

(** [fileDoc.contentType || 'application/octet-stream'] *)
Definition contentTypeHeader (d : FileDoc) : string :=
  match f_contentType d with
  | Some c => if isEmpty c then "application/octet-stream" else c
  | None => "application/octet-stream"
  end.

Definition getTenantFile `{Bson} (req : Request) : M Download :=
  let tenantId := routeParam (p_tenantId (params req)) in
  let fileId := routeParam (p_fileId (params req)) in
  u <- requireUser req ;;
  ensureMembership tenantId (sub u) ;;;
  if isEmpty fileId || negb (isValid fileId) then
    throwApp "Invalid file id" 400 "VALIDATION_ERROR"
  else
    db <- gets gridfs ;;
    match db with
    | None => throwApp "Database not connected" 503 "SERVICE_UNAVAILABLE"
    | Some filesCol =>
        (* filesCol.findOne({ _id: new Types.ObjectId(fileId) }) *)
        match findOne (fun d => String.eqb (f_id d) (hexOf fileId)) filesCol with
        | None => throwApp "File not found" 404 "NOT_FOUND"
        | Some fileDoc =>
            if negb (String.eqb (String_ (metaTenantId fileDoc)) tenantId) then
              throwApp "File not found" 404 "NOT_FOUND"
            else
              ret (mkDownload (contentTypeHeader fileDoc) (f_content fileDoc))
        end
    end.

End TenantUpload.

(** ** Notions used by the statements *)


(** The verdict of the gate once the membership lookup has answered. *)
Definition gateVerdict (roles : list TenantRole) (found : option Membership)
  : GateOutcome :=
  match found with
  | None => Rejected (mkFail "Forbidden" 403 "FORBIDDEN")
  | Some m =>
      if includes roles (m_role m) then Next
      else Rejected (mkFail "Forbidden" 403 "FORBIDDEN")
  end.

(** ** Invariants of the data model *)

Definition memberKey (m : Membership) : string * string :=
  (m_tenantId m, m_userId m).

(** At most one membership per (tenant, user) pair. *)
Definition UniqueMemberships (s : Store) : Prop :=
  NoDup (map memberKey (memberships s)).

(** The two ways a handler may leave the memberships: untouched, or after
    one update-or-create keyed on (tenantId, userId). *)
Definition MembershipsStep (s s' : Store) : Prop :=
  memberships s' = memberships s
  \/ exists id t u r st,
       memberships s'
       = snd (upsert (membershipOf t u) (Tenants.setRoleStatus r st)
                     (mkMembership id t u r st) (memberships s)).

(** The stored statuses the handlers write or filter on. *)
Definition KnownStatus (i : Invitation) : Prop :=
  In (i_status i) ["SENT"; "PENDING"; "ACCEPTED"; "REVOKED"].

(** [new AppError('An active invitation already exists for this email',
    409, 'INVITATION_EXISTS')] *)
Definition invitationExists : Exn :=
  ExnApp (mkAppError "An active invitation already exists for this email" 409
                     "INVITATION_EXISTS").

Definition dayMs : Z := 24 * 60 * 60 * 1000.

(** The email of an invitation request as the handlers store it:
    [String(req.body.email).toLowerCase().trim()]. *)
Definition emailOf (req : Request) : string :=
  trim (toLowerCase (String_ (b_email (body req)))).

(** MongoDB keeps [_id] unique inside a collection. *)
Definition UniqueInvitationIds (s : Store) : Prop :=
  NoDup (map i_id (invitations s)).

(** The ObjectIds a request names on its path and in its token. *)
Definition pathTenantId `{Bson} (req : Request) : string :=
  hexOf (routeParam (p_tenantId (params req))).

Definition pathId `{Bson} (req : Request) : string :=
  hexOf (routeParam (p_id (params req))).

Definition pathUserId `{Bson} (req : Request) : string :=
  hexOf (routeParam (p_userId (params req))).

Definition callerId `{Bson} (u : JwtUser) : string := hexOf (sub u).

(** The filter of resend and revoke for a request, after the cast:
    [{ _id: req.params.id, tenantId: req.params.tenantId }]. *)
Definition invitationByIdOf `{Bson} (req : Request) : Invitation -> bool :=
  TenantFeatures.invitationById (pathId req) (pathTenantId req).

(** What a join by slug needs before it looks at an invitation or at the
    signup policy: an authenticated caller with a well-formed id, whose
    user document exists, and a tenant with the slug of the path. *)
Record JoinContext `{Bson} (req : Request) (s : Store) (u : JwtUser)
  (tenant : Tenant) (usr : User) : Prop := mkJoinContext {
  jc_user : user req = Some u;
  jc_sub : sub u <> "";
  jc_valid : isValid (sub u) = true;
  jc_tenant :
    findOne (fun t => String.eqb (t_slug t)
                        (toLowerCase (routeParam (p_slug (params req)))))
            (tenants s) = Some tenant;
  jc_usr : findOne (fun x => String.eqb (u_id x) (callerId u)) (users s) = Some usr
}.

(** The caller is not banned from the tenant. *)
Definition NotBanned (s : Store) (tenantId userId : string) : Prop :=
  forall e, findOne (membershipOf tenantId userId) (memberships s) = Some e ->
            m_status e <> BANNED.

(** The invite token of a join request, as the handler reads it. *)
Definition inviteTokenOf (req : Request) : string :=
  trim (b_inviteToken (body req)).

(** The order of privilege of the tenant roles, MEMBER lowest.  The sets
    of roles the routes allow, [OWNER; ADMIN] and
    [OWNER; ADMIN; MODERATOR], are upper segments of it. *)
Definition roleRank (r : TenantRole) : nat :=
  match r with
  | MEMBER => 0
  | MODERATOR => 1
  | ADMIN => 2
  | OWNER => 3
  end.

(** The role [r] does not lower a membership: there is none, or its role
    is not above [r]. *)
Definition NotLowered (prior : option Membership) (r : TenantRole) : Prop :=
  match prior with
  | None => True
  | Some e => (roleRank (m_role e) <= roleRank r)%nat
  end.

(** The caller holds an ACTIVE membership in the tenant. *)
Definition ActiveMember (s : Store) (tenantId userId : string) : Prop :=
  exists m, In m (memberships s) /\ activeMembershipOf tenantId userId m = true.

(** [new AppError('File not found', 404, 'NOT_FOUND')] *)
Definition fileNotFound : Exn :=
  ExnApp (mkAppError "File not found" 404 "NOT_FOUND").

(** ** Concrete data for the worked examples *)

Module Sample.

Definition isHexDigit (c : ascii) : bool :=
  let n := nat_of_ascii c in
  ((48 <=? n)%nat && (n <=? 57)%nat) || ((97 <=? n)%nat && (n <=? 102)%nat)
  || ((65 <=? n)%nat && (n <=? 70)%nat).

Fixpoint allHex (s : string) : bool :=
  match s with
  | EmptyString => true
  | String c r => isHexDigit c && allHex r
  end.

(** The 24-digit hexadecimal form of an ObjectId, which every version of
    the bson library accepts. *)
Definition hex24 : Bson :=
  {| isValid := fun s => (String.length s =? 24)%nat && allHex s;
     hexOf := toLowerCase |}.

Definition tenantA : string := "aaaaaaaaaaaaaaaaaaaaaaaa".
Definition tenantB : string := "bbbbbbbbbbbbbbbbbbbbbbbb".
Definition alice : string := "111111111111111111111111".
Definition bob : string := "222222222222222222222222".
Definition fileF : string := "ffffffffffffffffffffffff".

Definition noParams : Params := mkParams None None None None None.

Definition noBody : Body :=
  mkBody JUndefined JUndefined "" None None None "" "" "" None "" "" "".

Definition env0 : Env :=
  mkEnv 1000 "uuid-1" (fun k => match k with O => "0000000000000000000000c0"
                                        | _ => "0000000000000000000000c1" end).

Definition emptyStore : Store := mkStore [] [] [] [] [] [] (Some []).

Definition asUser (id : string) : option JwtUser := Some (mkJwtUser id USER).

(** Alice administers tenant A; Bob has asked to join it and waits. *)
Definition aliceAdminA : Membership := mkMembership "m1" tenantA alice ADMIN ACTIVE.
Definition bobPendingA : Membership := mkMembership "m2" tenantA bob MEMBER PENDING.

Definition storeA : Store :=
  mkStore [mkTenant tenantA "Acme" "acme" "" "ACTIVE" alice]
          [mkTenantSettings tenantA true true]
          [mkUser alice "Alice@Example.com" "Alice" "1" USER;
           mkUser bob "bob@example.com" "Bob" "2" USER]
          [aliceAdminA; bobPendingA]
          []
          []
          (Some [mkFileDoc fileF "resource-1-a.pdf" (Some "application/pdf") 2048
                           (Some (mkFileMetadata (JString tenantB) "resource" bob))
                           "%PDF"]).

(** A request on a path under [/api/tenants/:tenantId] that also names
    tenant B in its body and in its query string. *)
Definition onPathA (who : string) : Request :=
  mkRequest (asUser who) (mkParams (Some tenantA) None None None None)
            (mkBody (JString tenantB) JUndefined "" None None None "" "" "" None "" "" "")
            (JString tenantB).

(** A request on the path of tenant B whose body and query name
    tenant A, where the caller is a member. *)
Definition onPathB (who : string) : Request :=
  mkRequest (asUser who) (mkParams (Some tenantB) None None None None)
            (mkBody (JString tenantA) JUndefined "" None None None "" "" "" None
                    "" "" "")
            (JString tenantA).

(** Tenant A, its identifier written in upper case. *)
Definition onPathUpperA (who : string) : Request :=
  mkRequest (asUser who)
            (mkParams (Some "AAAAAAAAAAAAAAAAAAAAAAAA") None None None None)
            (mkBody JUndefined JUndefined "" None None None "" "" "" None "" "" "")
            JUndefined.

(** The same request with nothing in body and query. *)
Definition onPathA_plain (who : string) : Request :=
  mkRequest (asUser who) (mkParams (Some tenantA) None None None None)
            noBody JUndefined.

(** A request on a path that binds no identifier: the body names the
    tenant. *)
Definition offPath (who : string) (t : jsval) : Request :=
  mkRequest (asUser who) noParams
            (mkBody t JUndefined "" None None None "" "" "" None "" "" "")
            JUndefined.

Definition adminRoles : list TenantRole := [OWNER; ADMIN].

(** Alice asks tenant A for a file that was uploaded to tenant B, and for
    a file that does not exist. *)
Definition download (who fileId : string) : Request :=
  mkRequest (asUser who) (mkParams (Some tenantA) None None None (Some fileId))
            noBody JUndefined.

Definition fileMissing : string := "eeeeeeeeeeeeeeeeeeeeeeee".

(** Tenant A once invited carol; the invitation was revoked. *)
Definition inviteId : string := "cccccccccccccccccccccccc".

Definition revokedInvite : Invitation :=
  mkInvitation inviteId tenantA "carol@example.com" "" MODERATOR "REVOKED"
               "uuid-0" 500 alice (Some 400) (Some alice) None None.

Definition storeInvited : Store :=
  mkStore (tenants storeA) (tenantSettings storeA) (users storeA)
          (memberships storeA) [] [revokedInvite] (gridfs storeA).

Definition onInvitation (who : string) : Request :=
  mkRequest (asUser who) (mkParams (Some tenantA) (Some inviteId) None None None)
            noBody JUndefined.

(** Tenant A requires approval.  Dave joined directly and is PENDING; he
    then receives an invitation as MODERATOR, sent to the lower-case form
    of his registered address. *)
Definition dave : string := "333333333333333333333333".

Definition davePendingA : Membership := mkMembership "m3" tenantA dave MEMBER PENDING.

Definition daveInvite : Invitation :=
  mkInvitation "dddddddddddddddddddddddd" tenantA "dave@example.com" ""
               MODERATOR "SENT" "tok-1" 5000 alice None None None None.

Definition storeJoin : Store :=
  mkStore (tenants storeA) (tenantSettings storeA)
          (users storeA ++ [mkUser dave "Dave@Example.com" "Dave" "3" USER])
          [aliceAdminA; davePendingA]
          []
          [revokedInvite; daveInvite]
          (gridfs storeA).

(** [POST /c/Acme/join] with an invite token, and without one. *)
Definition joinWithToken (who token : string) : Request :=
  mkRequest (asUser who) (mkParams None None None (Some "Acme") None)
            (mkBody JUndefined JUndefined "" None None None token "" "" None "" "" "")
            JUndefined.

Definition joinDirect (who fullName phone : string) : Request :=
  mkRequest (asUser who) (mkParams None None None (Some "Acme") None)
            (mkBody JUndefined JUndefined phone None None None "" fullName "" None "" "" "")
            JUndefined.

Definition acme : Tenant := mkTenant tenantA "Acme" "acme" "" "ACTIVE" alice.

(** A super-admin promotes a user into a tenant to be created. *)
Definition promote (target name slug : string) : Request :=
  mkRequest (Some (mkJwtUser alice SUPER_ADMIN))
            (mkParams None None (Some target) None None)
            (mkBody JUndefined JUndefined "" None None None "" "" "" None name slug "")
            JUndefined.

(** Tenant B takes newcomers without approval; Bob was suspended there. *)
Definition bobSuspendedB : Membership :=
  mkMembership "m4" tenantB bob MODERATOR SUSPENDED.

Definition storeB : Store :=
  mkStore [mkTenant tenantB "Beta" "beta" "" "ACTIVE" alice]
          [mkTenantSettings tenantB true false]
          (users storeA)
          [bobSuspendedB]
          [] [] (Some []).

Definition joinDirectBeta (who fullName phone : string) : Request :=
  mkRequest (asUser who) (mkParams None None None (Some "beta") None)
            (mkBody JUndefined JUndefined phone None None None "" fullName "" None "" "" "")
            JUndefined.

(** Alice invites an address to tenant A, with a requested lifetime. *)
Definition invite (email : string) (days : option Z) : Request :=
  mkRequest (asUser alice) (mkParams (Some tenantA) None None None None)
            (mkBody JUndefined (JString email) "" (Some MODERATOR) None days "" "" "" None
                    "" "" "")
            JUndefined.

(** Alice changes Bob's role and says nothing of his status. *)
Definition roleOnly (who target : string) (r : TenantRole) : Request :=
  mkRequest (asUser who) (mkParams (Some tenantA) None (Some target) None None)
            (mkBody JUndefined JUndefined "" (Some r) None None "" "" "" None "" "" "")
            JUndefined.

End Sample.

(** * Further handlers of the same controllers *)

From Stdlib Require Import DecimalString.

(** ** More collection operations *)

Section MoreCollections.
Variable A : Type.

(** The write of [findByIdAndDelete] / [deleteOne]: the first matching
    document is removed. *)
Fixpoint deleteFirst (p : A -> bool) (l : list A) : list A :=
  match l with
  | [] => []
  | x :: r => if p x then r else x :: deleteFirst p r
  end.

(** [Model.deleteMany(filter)] *)
Definition deleteMany (p : A -> bool) (l : list A) : list A :=
  filter (fun x => negb (p x)) l.

End MoreCollections.

(** ** The super-admin controller: deleting a tenant *)

(** What [deleteTenant] sends: [res.status(404).json({ success: false,
    error: { message, code } })] or [res.status(204).send()]. *)
Inductive AdminReply : Type :=
| SentError (status : Z) (message code : string)
| SentEmpty (status : Z).

Module AdminMore.

(** [findByIdAndDelete(req.params.id)] and
    [deleteMany({ tenantId: req.params.id })] cast the string to an
    ObjectId; a string that is no ObjectId makes the first one throw a
    CastError. *)
Definition deleteTenant `{Bson} (req : Request) : M AdminReply :=
  id <- castObjectId (routeParam (p_id (params req))) ;;
  tenant <- gets (fun s => findOne (fun t => String.eqb (t_id t) id) (tenants s)) ;;
  match tenant with
  | None => ret (SentError 404 "Tenant not found" "NOT_FOUND")
  | Some _ =>
      modify (fun s =>
        set_tenants (deleteFirst (fun t => String.eqb (t_id t) id) (tenants s)) s) ;;;
      modify (fun s =>
        set_memberships
          (deleteMany (fun m => String.eqb (m_tenantId m) id) (memberships s)) s) ;;;
      (* the audit entry reads req.user.sub *)
      _ <- requireUser req ;;
      ret (SentEmpty 204)
  end.

End AdminMore.

(** ** The tenants controller: reading a tenant by id *)

Module TenantsMore.

(** The fields of the answer that the tenant record carries. *)
Record TenantView := mkTenantView {
  tv_id : string;
  tv_name : string;
  tv_slug : string;
  tv_status : string;
  tv_logoUrl : string
}.

Definition getTenantById `{Bson} (req : Request) : M (Z * TenantView) :=
  let tenantId := routeParam (p_tenantId (params req)) in
  if negb (isValid tenantId) then throwApp "Invalid tenantId" 400 "VALIDATION_ERROR"
  else
    tenant <- Tenants.findTenantById tenantId ;;
    match tenant with
    | None => throwApp "Tenant not found" 404 "NOT_FOUND"
    | Some tenant =>
        (if match user req with
            | Some u => negb (GlobalRole_eqb (globalRole u) SUPER_ADMIN)
            | None => true
            end
         then
           u <- requireUser req ;;
           userId <- newTypesObjectId (sub u) ;;
           (* the string tenantId is cast in the filter *)
           member <- gets (fun s => findOne (activeMembershipOf (hexOf tenantId) userId)
                                            (memberships s)) ;;
           match member with
           | None => throwApp "Forbidden" 403 "FORBIDDEN"
           | Some _ => ret tt
           end
         else ret tt) ;;;
        ret (200, mkTenantView (t_id tenant) (t_name tenant) (t_slug tenant)
                               (t_status tenant) (t_logoUrl tenant))
    end.

End TenantsMore.

(** ** The tenant features controller: the member's own profile *)

Module TenantFeaturesMore.

Record ProfileView := mkProfileView {
  pv_membershipStatus : MembershipStatus;
  pv_fullName : string;
  pv_phone : string
}.

(** The filter [{ tenantId: req.params.tenantId, userId }] on profiles,
    once [tenantId] is cast to an ObjectId. *)
Definition profileOf (tenantId userId : string) (p : MemberProfile) : bool :=
  String.eqb (mp_tenantId p) tenantId && String.eqb (mp_userId p) userId.

Definition getMyMemberProfile `{Bson} (req : Request) : M (Z * ProfileView) :=
  let tenantId := routeParam (p_tenantId (params req)) in
  u <- requireUser req ;;
  TenantFeatures.ensureMembership tenantId (sub u) ;;;
  userId <- TenantFeatures.tenantObjectId (sub u) ;;
  (* req.params.tenantId, accepted by ensureMembership, is cast in both
     filters *)
  let tenantId := hexOf tenantId in
  profile <- gets (fun s => findOne (profileOf tenantId userId) (memberProfiles s)) ;;
  membership <- gets (fun s => findOne (membershipOf tenantId userId)
                                       (memberships s)) ;;
  ret (200,
       mkProfileView
         (match membership with Some m => m_status m | None => PENDING end)
         (match profile with Some p => mp_fullName p | None => "" end)
         (match profile with Some p => mp_phone p | None => "" end)).

Definition updateMyMemberProfile `{Bson} (req : Request) : M (Z * MemberProfile) :=
  let tenantId := routeParam (p_tenantId (params req)) in
  u <- requireUser req ;;
  TenantFeatures.ensureMembership tenantId (sub u) ;;;
  userId <- TenantFeatures.tenantObjectId (sub u) ;;
  (* req.params.tenantId is cast in the filter and in the update *)
  let tenantId := hexOf tenantId in
  let fullName := trim (b_fullName (body req)) in
  let phone := trim (b_phone (body req)) in
  fun s =>
    let '(profile, ps) :=
      upsert (profileOf tenantId userId)
             (fun _ => mkMemberProfile tenantId userId fullName phone)
             (mkMemberProfile tenantId userId fullName phone)
             (memberProfiles s) in
    (Ok (200, profile), set_memberProfiles ps s).

End TenantFeaturesMore.

(** ** controllers/tenantUpload.controller.ts: the write path *)

(** A file as multer's memory storage puts it on the request. *)
Record UploadedFile := mkUploadedFile {
  uf_buffer : string;
  uf_size : Z;
  uf_mimetype : string;
  uf_originalname : string
}.

Module TenantUploadWrite.

Definition MAX_RESOURCE_SIZE : Z := 20 * 1024 * 1024.
Definition MAX_THUMBNAIL_SIZE : Z := 2 * 1024 * 1024.
Definition MAX_ATTACHMENT_SIZE : Z := 10 * 1024 * 1024.
Definition MAX_POST_MEDIA_SIZE : Z := 5 * 1024 * 1024.

Definition IMAGE_TYPES : list string :=
  ["image/jpeg"; "image/png"; "image/gif"; "image/webp"].

Definition RESOURCE_TYPES : list string :=
  (IMAGE_TYPES ++
   ["application/pdf";
    "application/msword";
    "application/vnd.openxmlformats-officedocument.wordprocessingml.document";
    "application/vnd.ms-excel";
    "application/vnd.openxmlformats-officedocument.spreadsheetml.sheet";
    "text/plain";
    "text/csv"])%list.

Definition ATTACHMENT_TYPES : list string := RESOURCE_TYPES.

(** [types.includes(mimetype)] *)
Definition includesType (types : list string) (t : string) : bool :=
  existsb (String.eqb t) types.

Definition isSafeNameChar (c : ascii) : bool :=
  let n := nat_of_ascii c in
  ((97 <=? n)%nat && (n <=? 122)%nat) || ((65 <=? n)%nat && (n <=? 90)%nat)
  || ((48 <=? n)%nat && (n <=? 57)%nat) || (n =? 46)%nat || (n =? 45)%nat.

(** [.replace(/[^a-zA-Z0-9.-]/g, '_')] *)
Fixpoint safeChars (s : string) : string :=
  match s with
  | EmptyString => EmptyString
  | String c r => String (if isSafeNameChar c then c else "_"%char) (safeChars r)
  end.

(** [file.originalname || fallback] *)
Definition nameOr (fallback : string) (f : UploadedFile) : string :=
  if isEmpty (uf_originalname f) then fallback else uf_originalname f.

(** A number inside a template literal. *)
Definition showNumber (z : Z) : string := NilZero.string_of_int (Z.to_int z).

Record FileTags := mkFileTags {
  tag_tenantId : string;
  tag_purpose : string;
  tag_uploadedBy : string
}.

(** [getBucket()] *)
Definition getBucket : M unit :=
  db <- gets gridfs ;;
  match db with
  | None => throwApp "Database not connected" 503 "SERVICE_UNAVAILABLE"
  | Some _ => ret tt
  end.

(** [streamToGridFS(bucket, buffer, filename, contentType, metadata)]: the
    file document, with the bytes, is added under the id the driver gave
    to the upload stream, which is returned as a string. *)
Definition streamToGridFS (id : string) (buffer filename contentType : string)
  (metadata : FileTags) : M string :=
  modify (fun s =>
    mkStore (tenants s) (tenantSettings s) (users s) (memberships s)
            (memberProfiles s) (invitations s)
            (match gridfs s with
             | Some files =>
                 Some (insertDoc
                         (mkFileDoc id filename (Some contentType)
                            (Z.of_nat (String.length buffer))
                            (Some (mkFileMetadata (JString (tag_tenantId metadata))
                                                  (tag_purpose metadata)
                                                  (tag_uploadedBy metadata)))
                            buffer)
                         files)
             | None => None
             end)) ;;;
  ret id.

Record UploadResult := mkUploadResult {
  ur_fileId : string;
  ur_fileName : string;
  ur_mimeType : string;
  ur_size : Z;
  ur_thumbnailFileId : option string
}.

(** [req.user?.sub ?? ''] *)
Definition uploaderOf (req : Request) : string :=
  match user req with
  | Some u => sub u
  | None => ""
  end.

Definition uploadEventThumbnail (env : Env) (req : Request)
  (file : option UploadedFile) : M (Z * UploadResult) :=
  let tenantId := routeParam (p_tenantId (params req)) in
  match file with
  | None => throwApp "No file uploaded" 400 "VALIDATION_ERROR"
  | Some file =>
      if MAX_THUMBNAIL_SIZE <? uf_size file then
        throwApp "Thumbnail must be 2MB or smaller" 400 "VALIDATION_ERROR"
      else if negb (includesType IMAGE_TYPES (uf_mimetype file)) then
        throwApp "Thumbnail must be JPEG, PNG, GIF, or WebP" 400 "VALIDATION_ERROR"
      else
        getBucket ;;;
        let safeName := safeChars (nameOr "thumb" file) in
        let filename := "event-thumb-" ++ showNumber (now env) ++ "-" ++ safeName in
        fileId <- streamToGridFS (newObjectId env 0) (uf_buffer file) filename
                    (uf_mimetype file)
                    (mkFileTags tenantId "event-thumbnail" (uploaderOf req)) ;;
        ret (201, mkUploadResult fileId (nameOr "thumb" file) (uf_mimetype file)
                                 (uf_size file) None)
  end.

Definition uploadAnnouncementAttachment (env : Env) (req : Request)
  (file : option UploadedFile) : M (Z * UploadResult) :=
  let tenantId := routeParam (p_tenantId (params req)) in
  match file with
  | None => throwApp "No file uploaded" 400 "VALIDATION_ERROR"
  | Some file =>
      if MAX_ATTACHMENT_SIZE <? uf_size file then
        throwApp "Attachment must be 10MB or smaller" 400 "VALIDATION_ERROR"
      else if negb (includesType ATTACHMENT_TYPES (uf_mimetype file)) then
        throwApp "Invalid file type for attachment" 400 "VALIDATION_ERROR"
      else
        getBucket ;;;
        let safeName := safeChars (nameOr "file" file) in
        let filename := "announcement-" ++ showNumber (now env) ++ "-" ++ safeName in
        fileId <- streamToGridFS (newObjectId env 0) (uf_buffer file) filename
                    (uf_mimetype file)
                    (mkFileTags tenantId "announcement-attachment" (uploaderOf req)) ;;
        ret (201, mkUploadResult fileId (nameOr "file" file) (uf_mimetype file)
                                 (uf_size file) None)
  end.

Definition uploadPostMedia (env : Env) (req : Request)
  (file : option UploadedFile) : M (Z * UploadResult) :=
  let tenantId := routeParam (p_tenantId (params req)) in
  match file with
  | None => throwApp "No file uploaded" 400 "VALIDATION_ERROR"
  | Some file =>
      if MAX_POST_MEDIA_SIZE <? uf_size file then
        throwApp "Post media must be 5MB or smaller" 400 "VALIDATION_ERROR"
      else if negb (includesType IMAGE_TYPES (uf_mimetype file)) then
        throwApp "Post media must be JPEG, PNG, GIF, or WebP" 400 "VALIDATION_ERROR"
      else
        getBucket ;;;
        let safeName := safeChars (nameOr "media" file) in
        let filename := "post-media-" ++ showNumber (now env) ++ "-" ++ safeName in
        fileId <- streamToGridFS (newObjectId env 0) (uf_buffer file) filename
                    (uf_mimetype file)
                    (mkFileTags tenantId "post-media" (uploaderOf req)) ;;
        ret (201, mkUploadResult fileId (nameOr "media" file) (uf_mimetype file)
                                 (uf_size file) None)
  end.

(** [files?.file?.[0] ?? req.file] is [file]; [files?.thumbnail?.[0]] is
    [thumbnailFile].  The resource is stored before the thumbnail is
    looked at. *)
Definition uploadResource (env : Env) (req : Request)
  (file thumbnailFile : option UploadedFile) : M (Z * UploadResult) :=
  let tenantId := routeParam (p_tenantId (params req)) in
  match file with
  | None => throwApp "No file uploaded" 400 "VALIDATION_ERROR"
  | Some file =>
      if MAX_RESOURCE_SIZE <? uf_size file then
        throwApp "Resource file must be 20MB or smaller" 400 "VALIDATION_ERROR"
      else if negb (includesType RESOURCE_TYPES (uf_mimetype file)) then
        throwApp "Invalid file type for resource" 400 "VALIDATION_ERROR"
      else
        getBucket ;;;
        let safeName := safeChars (nameOr "file" file) in
        let filename := "resource-" ++ showNumber (now env) ++ "-" ++ safeName in
        let metadata := mkFileTags tenantId "resource" (uploaderOf req) in
        fileId <- streamToGridFS (newObjectId env 0) (uf_buffer file) filename
                    (uf_mimetype file) metadata ;;
        match thumbnailFile with
        | None =>
            ret (201, mkUploadResult fileId (nameOr "file" file) (uf_mimetype file)
                                     (uf_size file) None)
        | Some thumb =>
            if MAX_THUMBNAIL_SIZE <? uf_size thumb then
              throwApp "Thumbnail must be 2MB or smaller" 400 "VALIDATION_ERROR"
            else if negb (includesType IMAGE_TYPES (uf_mimetype thumb)) then
              throwApp "Thumbnail must be JPEG, PNG, GIF, or WebP" 400
                       "VALIDATION_ERROR"
            else
              let thumbName :=
                "resource-thumb-" ++ showNumber (now env) ++ "-"
                ++ safeChars (nameOr "thumb" thumb) in
              thumbId <- streamToGridFS (newObjectId env 1) (uf_buffer thumb)
                           thumbName (uf_mimetype thumb)
                           (mkFileTags tenantId "resource-thumbnail"
                                       (uploaderOf req)) ;;
              ret (201, mkUploadResult fileId (nameOr "file" file)
                                       (uf_mimetype file) (uf_size file)
                                       (Some thumbId))
        end
  end.

End TenantUploadWrite.

(** ** middleware/auth.ts *)

(** [verifyJwt] (utils/jwt.js) is not part of the repository: [None] is a
    throw.  [findAccountStatus] is the read
    [UserModel.findById(sub).select({ status: 1 }).lean()]: it may throw,
    find nothing, or give the stored status. *)
Inductive AccountLookup : Type :=
| LookupThrows
| NoAccount
| Account (status : string).

Class AuthDeps := {
  verifyJwt : string -> option JwtUser;
  findAccountStatus : string -> AccountLookup
}.

Inductive AuthOutcome : Type :=
| AuthNext (u : JwtUser)
| AuthFailed (r : FailResponse).

(** [header.startsWith('Bearer ') ? header.slice(7) : ''] *)
Definition bearerToken (header : string) : string :=
  if String.prefix "Bearer " header
  then String.substring 7 (String.length header - 7) header
  else "".

(** [authorization] is [req.headers.authorization]. *)
Definition auth `{AuthDeps} (authorization : option string) : AuthOutcome :=
  let header := match authorization with Some h => h | None => "" end in
  let token := bearerToken header in
  if isEmpty token then AuthFailed (mkFail "Unauthorized" 401 "UNAUTHORIZED")
  else
    match verifyJwt token with
    | None => AuthFailed (mkFail "Invalid or expired token" 401 "INVALID_TOKEN")
    | Some u =>
        match findAccountStatus (sub u) with
        | LookupThrows =>
            AuthFailed (mkFail "Invalid or expired token" 401 "INVALID_TOKEN")
        | NoAccount => AuthFailed (mkFail "Unauthorized" 401 "UNAUTHORIZED")
        | Account status =>
            if String.eqb status "SUSPENDED" then
              AuthFailed (mkFail "Account suspended" 403 "ACCOUNT_SUSPENDED")
            else if String.eqb status "BANNED" then
              AuthFailed (mkFail "Account banned" 403 "ACCOUNT_BANNED")
            else AuthNext u
        end
    end.

(** ** The routers: a role gate in front of a handler *)

(** What a route answers: the handler's result, or the [fail] response of
    the gate or of [errorHandler].  The gate is an async function that
    is not wrapped in [asyncHandler]: when its query throws, its promise
    rejects and nothing in the route answers ([GateThrew]). *)
Inductive Reply (A : Type) : Type :=
| Handled (a : A)
| Refused (r : FailResponse)
| GateThrew (e : Exn).
Arguments Handled {A} a.
Arguments Refused {A} r.
Arguments GateThrew {A} e.

(** [router.METHOD(path, requireTenantRole(roles), asyncHandler(handler))]:
    the handler runs when the gate calls [next()], and what it throws
    goes to [errorHandler]. *)
Definition guarded `{Bson} (A : Type) (roles : list TenantRole)
  (handler : Request -> M A) (req : Request) : Store -> Reply A * Store :=
  fun s =>
    match requireTenantRole roles req s with
    | (Ok Next, s1) =>
        match handler req s1 with
        | (Ok a, s2) => (Handled a, s2)
        | (Throw e, s2) => (Refused (errorHandler e), s2)
        end
    | (Ok (Rejected r), s1) => (Refused r, s1)
    | (Throw e, s1) => (GateThrew e, s1)
    end.

(** The routes of the tenant features router whose handlers are
    modelled. *)
Module Routes.

Definition managers : list TenantRole := [OWNER; ADMIN].
Definition staff : list TenantRole := [OWNER; ADMIN; MODERATOR].

(** [router.put('/members/:userId', requireTenantRole(['OWNER', 'ADMIN']), ...)] *)
Definition putMember `{Bson} (req : Request) :=
  guarded managers TenantFeatures.updateMemberRole req.

(** [router.post('/invitations', requireTenantRole(['OWNER', 'ADMIN']), ...)] *)
Definition postInvitation `{Bson} (env : Env) (req : Request) :=
  guarded managers (TenantFeatures.createInvitation env) req.

(** [router.put('/invitations/:id/resend', ...)] *)
Definition putResend `{Bson} (env : Env) (req : Request) :=
  guarded managers (TenantFeatures.resendInvitation env) req.

(** [router.put('/invitations/:id/revoke', ...)] *)
Definition putRevoke `{Bson} (env : Env) (req : Request) :=
  guarded managers (TenantFeatures.revokeInvitation env) req.

End Routes.

(** ** Further notions used by the statements *)

(** Every stored invitation email is its own lower-case form. *)
Definition LowerCaseEmails (s : Store) : Prop :=
  Forall (fun i => toLowerCase (i_email i) = i_email i) (invitations s).

Definition profileKey (p : MemberProfile) : string * string :=
  (mp_tenantId p, mp_userId p).

(** At most one profile per (tenant, user) pair. *)
Definition UniqueProfiles (s : Store) : Prop :=
  NoDup (map profileKey (memberProfiles s)).

(** [new AppError('Not a tenant member', 403, 'FORBIDDEN')] *)
Definition notMember : Exn :=
  ExnApp (mkAppError "Not a tenant member" 403 "FORBIDDEN").

(** The three endpoints that take one file, with the limit, the accepted
    types and the purpose tag of each. *)
Inductive UploadKind : Type :=
| EventThumbnail
| AnnouncementAttachment
| PostMedia.

Definition uploadOf (k : UploadKind)
  : Env -> Request -> option UploadedFile -> M (Z * TenantUploadWrite.UploadResult) :=
  match k with
  | EventThumbnail => TenantUploadWrite.uploadEventThumbnail
  | AnnouncementAttachment => TenantUploadWrite.uploadAnnouncementAttachment
  | PostMedia => TenantUploadWrite.uploadPostMedia
  end.

Definition megabytes (n : Z) : Z := n * 1048576.

Definition limitOf (k : UploadKind) : Z :=
  match k with
  | EventThumbnail => megabytes 2
  | AnnouncementAttachment => megabytes 10
  | PostMedia => megabytes 5
  end.

Definition isImageType (t : string) : Prop :=
  t = "image/jpeg" \/ t = "image/png" \/ t = "image/gif" \/ t = "image/webp".

Definition isDocumentType (t : string) : Prop :=
  t = "application/pdf" \/ t = "application/msword"
  \/ t = "application/vnd.openxmlformats-officedocument.wordprocessingml.document"
  \/ t = "application/vnd.ms-excel"
  \/ t = "application/vnd.openxmlformats-officedocument.spreadsheetml.sheet"
  \/ t = "text/plain" \/ t = "text/csv".

Definition acceptedBy (k : UploadKind) (t : string) : Prop :=
  match k with
  | EventThumbnail | PostMedia => isImageType t
  | AnnouncementAttachment => isImageType t \/ isDocumentType t
  end.

Definition purposeOf (k : UploadKind) : string :=
  match k with
  | EventThumbnail => "event-thumbnail"
  | AnnouncementAttachment => "announcement-attachment"
  | PostMedia => "post-media"
  end.

(** [s'] is [s] with the file document [d] added to the bucket and
    nothing else changed. *)
Definition AddsFile (s s' : Store) (d : FileDoc) : Prop :=
  exists files,
    gridfs s = Some files /\ gridfs s' = Some (insertDoc d files)
    /\ tenants s' = tenants s /\ tenantSettings s' = tenantSettings s
    /\ users s' = users s /\ memberships s' = memberships s
    /\ memberProfiles s' = memberProfiles s /\ invitations s' = invitations s.

(** The file document [d] holds the upload [f], tagged with the tenant
    of the path, a purpose and the caller. *)
Definition HoldsUpload (d : FileDoc) (f : UploadedFile) (req : Request)
  (purpose : string) : Prop :=
  f_content d = uf_buffer f
  /\ f_contentType d = Some (uf_mimetype f)
  /\ f_length d = Z.of_nat (String.length (uf_buffer f))
  /\ f_metadata d
     = Some (mkFileMetadata (JString (routeParam (p_tenantId (params req))))
                            purpose (TenantUploadWrite.uploaderOf req)).

(** No stored file has this id yet. *)
Definition FreshFileId (s : Store) (id : string) : Prop :=
  forall files d, gridfs s = Some files -> In d files -> f_id d <> id.

(** The characters a stored file name is made of after the replacement. *)
Definition isStoredNameChar (c : ascii) : bool :=
  TenantUploadWrite.isSafeNameChar c || Ascii.eqb c "_"%char.

Fixpoint allStoredNameChars (s : string) : bool :=
  match s with
  | EmptyString => true
  | String c r => isStoredNameChar c && allStoredNameChars r
  end.

Fixpoint allSafeNameChars (s : string) : bool :=
  match s with
  | EmptyString => true
  | String c r => TenantUploadWrite.isSafeNameChar c && allSafeNameChars r
  end.

(** The tenant a request names on its path. *)
Definition pathTenant (req : Request) : string :=
  routeParam (p_tenantId (params req)).

(** The characters a slug is made of. *)
Fixpoint allSlugChars (s : string) : bool :=
  match s with
  | EmptyString => true
  | String c r => Admin.isSlugChar c && allSlugChars r
  end.

(** Two dashes in a row somewhere in the string. *)
Fixpoint hasDoubleDash (s : string) : bool :=
  match s with
  | String c ((String d _) as r) =>
      (Ascii.eqb c Admin.dash && Ascii.eqb d Admin.dash) || hasDoubleDash r
  | _ => false
  end.

Definition startsWithDash (s : string) : bool :=
  match s with
  | String c _ => Ascii.eqb c Admin.dash
  | EmptyString => false
  end.

Fixpoint endsWithDash (s : string) : bool :=
  match s with
  | EmptyString => false
  | String c EmptyString => Ascii.eqb c Admin.dash
  | String _ r => endsWithDash r
  end.

(** What the promotion answers when the slug is taken. *)
Definition slugExists : Exn :=
  ExnApp (mkAppError "Slug already in use" 409 "SLUG_EXISTS").

(** The role a promotion assigns: ['ADMIN'] when asked for, ['OWNER']
    otherwise. *)
Definition promotedRole (req : Request) : TenantRole :=
  match b_membershipRole (body req) with
  | Some ADMIN => ADMIN
  | _ => OWNER
  end.

(** A promotion that names no existing tenant and gives a name and a
    slug. *)
Record PromotesIntoNewTenant `{Bson} (req : Request) (s : Store) : Prop :=
  mkPromotesIntoNewTenant {
  pn_valid : isValid (routeParam (p_userId (params req))) = true;
  pn_user : exists usr,
      findOne (fun x => String.eqb (u_id x) (pathUserId req)) (users s) = Some usr;
  pn_new : trim (b_existingTenantId (body req)) = "";
  pn_name : trim (b_tenantName (body req)) <> "";
  pn_slug : Admin.normalizeSlug (b_tenantSlug (body req)) <> ""
}.

(** ** Further scenarios *)

Module Scenario.

Import Sample.

(** A super-admin deletes tenant A. *)
Definition deleteA : Request :=
  mkRequest (Some (mkJwtUser alice SUPER_ADMIN))
            (mkParams None (Some tenantA) None None None)
            noBody JUndefined.

(** The same deletion, the id of tenant A written in upper case. *)
Definition deleteUpperA : Request :=
  mkRequest (Some (mkJwtUser alice SUPER_ADMIN))
            (mkParams None (Some "AAAAAAAAAAAAAAAAAAAAAAAA") None None None)
            noBody JUndefined.

(** Tenant A with public signup switched off, and no member but Alice. *)
Definition storeClosed : Store :=
  mkStore (tenants storeA) [mkTenantSettings tenantA false false] (users storeA)
          [aliceAdminA] [] [] (Some []).

(** Dave is banned from tenant A and still holds a valid invitation. *)
Definition daveBannedA : Membership := mkMembership "m3" tenantA dave MEMBER BANNED.

Definition storeBanned : Store :=
  mkStore (tenants storeJoin) (tenantSettings storeJoin) (users storeJoin)
          [aliceAdminA; daveBannedA] [] [daveInvite] (gridfs storeJoin).

(** The role update of [Sample.roleOnly], the id of tenant A written in
    upper case on the path. *)
Definition roleOnlyUpperA (who target : string) (r : TenantRole) : Request :=
  mkRequest (asUser who)
            (mkParams (Some "AAAAAAAAAAAAAAAAAAAAAAAA") None (Some target) None None)
            (mkBody JUndefined JUndefined "" (Some r) None None "" "" "" None "" "" "")
            JUndefined.

(** A time after the expiry of Dave's invitation. *)
Definition envLate : Env := mkEnv 6000 "uuid-2" (newObjectId env0).

(** Alice, an ACTIVE member of tenant A, writes her profile there. *)
Definition editProfile (who fullName phone : string) : Request :=
  mkRequest (asUser who) (mkParams (Some tenantA) None None None None)
            (mkBody JUndefined JUndefined phone None None None "" fullName "" None "" "" "")
            JUndefined.

(** Alice uploads a PNG to tenant A. *)
Definition png : UploadedFile := mkUploadedFile "PNG-bytes" 9 "image/png" "my logo.png".

(** A thumbnail of a type the handler does not take. *)
Definition svg : UploadedFile := mkUploadedFile "<svg/>" 6 "image/svg+xml" "t.svg".

Definition pdf : UploadedFile :=
  mkUploadedFile "%PDF-1" 6 "application/pdf" "rules.pdf".

(** Tenant A and tenant B side by side: Alice is ACTIVE in A, Bob in B. *)
Definition bobActiveB : Membership := mkMembership "m5" tenantB bob MEMBER ACTIVE.

Definition storeAB : Store :=
  mkStore (tenants storeA ++ tenants storeB) (tenantSettings storeA) (users storeA)
          [aliceAdminA; bobActiveB] [] [] (Some []).

(** A download of file [fileId] on the path of tenant [t]. *)
Definition downloadFrom (who t fileId : string) : Request :=
  mkRequest (asUser who) (mkParams (Some t) None None None (Some fileId))
            noBody JUndefined.

(** A token decoder and an account table for the authentication
    middleware: token "t-alice" is Alice's, "t-bob" is Bob's, and Bob's
    account is suspended. *)
Definition authDeps : AuthDeps :=
  {| verifyJwt := fun t =>
       if String.eqb t "t-alice" then Some (mkJwtUser alice USER)
       else if String.eqb t "t-bob" then Some (mkJwtUser bob USER)
       else None;
     findAccountStatus := fun id =>
       if String.eqb id alice then Account "ACTIVE"
       else if String.eqb id bob then Account "SUSPENDED"
       else NoAccount |}.

(** Tenant A with its owner Dave, its admin Alice and a moderator Bob. *)
Definition daveOwnerA : Membership := mkMembership "m6" tenantA dave OWNER ACTIVE.
Definition bobModeratorA : Membership :=
  mkMembership "m7" tenantA bob MODERATOR ACTIVE.

Definition storeStaff : Store :=
  mkStore (tenants storeA) (tenantSettings storeA) (users storeJoin)
          [daveOwnerA; aliceAdminA; bobModeratorA] [] [] (Some []).

(** Alice, on the path of tenant A, names Dave's invitation; the same id
    on the path of tenant B. *)
Definition resendDave : Request :=
  mkRequest (asUser alice)
            (mkParams (Some tenantA) (Some "dddddddddddddddddddddddd") None None None)
            noBody JUndefined.

Definition resendDaveFromB : Request :=
  mkRequest (asUser alice)
            (mkParams (Some tenantB) (Some "dddddddddddddddddddddddd") None None None)
            noBody JUndefined.

(** The same invitation of tenant A, both ids written in upper case. *)
Definition resendDaveUpper : Request :=
  mkRequest (asUser alice)
            (mkParams (Some "AAAAAAAAAAAAAAAAAAAAAAAA")
                      (Some "DDDDDDDDDDDDDDDDDDDDDDDD") None None None)
            noBody JUndefined.

End Scenario.

(** * Properties *)

Unset Implicit Arguments.

(** ** Strings and enumerations *)

Lemma lowerChar_idem (c : ascii) : lowerChar (lowerChar c) = lowerChar c.
Proof.
  destruct c as [[] [] [] [] [] [] [] []]; reflexivity.
Qed.

Lemma toLowerCase_idem (s : string) : toLowerCase (toLowerCase s) = toLowerCase s.
Proof.
  induction s as [|c r IH]; simpl.
  - reflexivity.
  - now rewrite lowerChar_idem, IH.
Qed.

Lemma isEmpty_true (s : string) : isEmpty s = true <-> s = "".
Proof.
  destruct s; simpl; split; intros H; congruence.
Qed.

Lemma TenantRole_eqb_eq (a b : TenantRole) : TenantRole_eqb a b = true <-> a = b.
Proof. destruct a, b; simpl; split; congruence. Qed.

Lemma MembershipStatus_eqb_eq (a b : MembershipStatus) :
  MembershipStatus_eqb a b = true <-> a = b.
Proof. destruct a, b; simpl; split; congruence. Qed.

Lemma includes_In (roles : list TenantRole) (r : TenantRole) :
  includes roles r = true <-> In r roles.
Proof.
  unfold includes. rewrite existsb_exists. split.
  - intros [x [Hin Hx]]. apply TenantRole_eqb_eq in Hx. now subst.
  - intros H. exists r. split; [assumption | now apply TenantRole_eqb_eq].
Qed.

(** ** Collections *)

Section CollectionFacts.
Context {A : Type}.

Lemma findOne_In (p : A -> bool) (l : list A) (x : A) :
  findOne p l = Some x -> In x l /\ p x = true.
Proof. apply find_some. Qed.

Lemma findOne_None (p : A -> bool) (l : list A) :
  findOne p l = None <-> (forall x, In x l -> p x = false).
Proof.
  split.
  - intros H x Hx. exact (find_none p l H x Hx).
  - induction l as [|y r IH]; simpl; intros H.
    + reflexivity.
    + rewrite (H y (or_introl eq_refl)). apply IH.
      intros x Hx. apply H. now right.
Qed.

Lemma findOne_updateFirst (p : A -> bool) (f : A -> A) (l : list A) (x : A) :
  findOne p l = Some x -> p (f x) = true ->
  findOne p (updateFirst p f l) = Some (f x).
Proof.
  induction l as [|y r IH]; simpl; intros H Hf.
  - discriminate.
  - destruct (p y) eqn:Hy.
    + injection H as ->. simpl. now rewrite Hf.
    + simpl. rewrite Hy. now apply IH.
Qed.

Lemma findOne_insertDoc (p : A -> bool) (d : A) (l : list A) :
  findOne p l = None -> p d = true -> findOne p (insertDoc d l) = Some d.
Proof.
  unfold insertDoc.
  induction l as [|y r IH]; simpl; intros H Hd.
  - now rewrite Hd.
  - destruct (p y); [discriminate | now apply IH].
Qed.

Lemma map_updateFirst B (key : A -> B) (p : A -> bool) (f : A -> A) (l : list A) :
  (forall x, key (f x) = key x) ->
  map key (updateFirst p f l) = map key l.
Proof.
  intros Hk. induction l as [|y r IH]; simpl.
  - reflexivity.
  - destruct (p y); simpl; [now rewrite Hk | now rewrite IH].
Qed.

End CollectionFacts.


(** ** Running a handler *)

Lemma bind_ok {A B : Type} (c : M A) (k : A -> M B) (s : Store) (a : A)
  (s' : Store) :
  c s = (Ok a, s') -> bind c k s = k a s'.
Proof. unfold bind. now intros ->. Qed.

Lemma bind_throw {A B : Type} (c : M A) (k : A -> M B) (s : Store) (e : Exn)
  (s' : Store) :
  c s = (Throw e, s') -> bind c k s = (Throw e, s').
Proof. unfold bind. now intros ->. Qed.

Lemma ret_run {A : Type} (a : A) (s : Store) : ret a s = (Ok a, s).
Proof. reflexivity. Qed.

Lemma castObjectId_ok `{Bson} (x : string) (s : Store) :
  isValid x = true -> castObjectId x s = (Ok (hexOf x), s).
Proof. intros Hx. unfold castObjectId. now rewrite Hx. Qed.

Lemma castObjectId_throws `{Bson} (x : string) (s : Store) :
  isValid x = false -> castObjectId x s = (Throw (ExnOther "CastError"), s).
Proof. intros Hx. unfold castObjectId. now rewrite Hx. Qed.

Lemma newTypesObjectId_ok `{Bson} (x : string) (s : Store) :
  isValid x = true -> newTypesObjectId x s = (Ok (hexOf x), s).
Proof. intros Hx. unfold newTypesObjectId. now rewrite Hx. Qed.

Lemma membershipOf_true (t u : string) (m : Membership) :
  membershipOf t u m = true <-> m_tenantId m = t /\ m_userId m = u.
Proof.
  unfold membershipOf. rewrite andb_true_iff, !String.eqb_eq. tauto.
Qed.

Lemma activeMembershipOf_true (t u : string) (m : Membership) :
  activeMembershipOf t u m = true
  <-> m_tenantId m = t /\ m_userId m = u /\ m_status m = ACTIVE.
Proof.
  unfold activeMembershipOf.
  rewrite andb_true_iff, membershipOf_true, MembershipStatus_eqb_eq. tauto.
Qed.

Lemma unique_key_same (l : list Membership) (a b : Membership) :
  NoDup (map memberKey l) -> In a l -> In b l -> memberKey a = memberKey b -> a = b.
Proof.
  induction l as [|x r IH]; simpl; intros Hnd Ha Hb Hk.
  - contradiction.
  - inversion Hnd as [|? ? Hnotin Hnd']; subst.
    destruct Ha as [-> | Ha], Hb as [-> | Hb].
    + reflexivity.
    + exfalso. apply Hnotin. rewrite Hk. now apply in_map.
    + exfalso. apply Hnotin. rewrite <- Hk. now apply in_map.
    + now apply IH.
Qed.

(** * The invitation status is derived at read time *)

(** C4.  The reported status depends on the stored status, the stored
    expiry and the current time only: a stored REVOKED or ACCEPTED is
    reported as it is, whatever the expiry; any other stored status is
    reported EXPIRED when the expiry is strictly before now, and SENT
    otherwise. *)
Theorem normalizeInvitationStatus_cases (status : string) (expiresAt now : Z) :
  (status = "REVOKED" ->
     normalizeInvitationStatus status expiresAt now = "REVOKED")
  /\ (status = "ACCEPTED" ->
     normalizeInvitationStatus status expiresAt now = "ACCEPTED")
  /\ (status <> "REVOKED" -> status <> "ACCEPTED" -> expiresAt < now ->
     normalizeInvitationStatus status expiresAt now = "EXPIRED")
  /\ (status <> "REVOKED" -> status <> "ACCEPTED" -> now <= expiresAt ->
     normalizeInvitationStatus status expiresAt now = "SENT").
Proof.
  unfold normalizeInvitationStatus.
  repeat split.
  - intros ->. reflexivity.
  - intros ->. reflexivity.
  - intros Hr Ha Hlt.
    apply String.eqb_neq in Hr, Ha. rewrite Hr, Ha.
    apply Z.ltb_lt in Hlt. now rewrite Hlt.
  - intros Hr Ha Hle.
    apply String.eqb_neq in Hr, Ha. rewrite Hr, Ha.
    apply Z.ltb_ge in Hle. now rewrite Hle.
Qed.

Lemma normalizeInvitationStatus_cases_witness :
  normalizeInvitationStatus "REVOKED" 5000 1000 = "REVOKED"
  /\ normalizeInvitationStatus "ACCEPTED" 10 1000 = "ACCEPTED"
  /\ normalizeInvitationStatus "SENT" 999 1000 = "EXPIRED"
  /\ normalizeInvitationStatus "SENT" 1000 1000 = "SENT".
Proof.
  split; [| split; [| split]].
  - apply (proj1 (normalizeInvitationStatus_cases "REVOKED" 5000 1000)).
    reflexivity.
  - apply (proj1 (proj2 (normalizeInvitationStatus_cases "ACCEPTED" 10 1000))).
    reflexivity.
  - apply (proj1 (proj2 (proj2 (normalizeInvitationStatus_cases "SENT" 999 1000))));
      [discriminate | discriminate | reflexivity].
  - apply (proj2 (proj2 (proj2 (normalizeInvitationStatus_cases "SENT" 1000 1000))));
      [discriminate | discriminate | discriminate].
Defined.

Lemma derived_accepted_iff (status : string) (expiresAt now : Z) :
  normalizeInvitationStatus status expiresAt now = "ACCEPTED" <-> status = "ACCEPTED".
Proof.
  unfold normalizeInvitationStatus.
  destruct (String.eqb_spec status "REVOKED") as [-> | Hr].
  - split; discriminate.
  - destruct (String.eqb_spec status "ACCEPTED") as [-> | Ha].
    + tauto.
    + destruct (expiresAt <? now); split; intros; congruence.
Qed.

Lemma derived_sent_iff (status : string) (expiresAt now : Z) :
  normalizeInvitationStatus status expiresAt now = "SENT"
  <-> status <> "REVOKED" /\ status <> "ACCEPTED" /\ now <= expiresAt.
Proof.
  unfold normalizeInvitationStatus.
  destruct (String.eqb_spec status "REVOKED") as [-> | Hr].
  - split; [discriminate | intros [H _]; congruence].
  - destruct (String.eqb_spec status "ACCEPTED") as [-> | Ha].
    + split; [discriminate | intros [_ [H _]]; congruence].
    + destruct (Z.ltb_spec expiresAt now).
      * split; [discriminate | intros [_ [_ H']]; lia].
      * split; [intros _; repeat split; assumption | reflexivity].
Qed.

(** * The tenant resolver and the role gate *)




(** The gate, for a caller who is not a super-admin, whose id is an
    ObjectId string, and a well-formed resolved identifier: one read of
    the memberships, made for the ObjectIds the two strings are cast to,
    and no write. *)
Lemma requireTenantRole_lookup `{Bson} (roles : list TenantRole) (req : Request)
  (u : JwtUser) (s : Store) :
  user req = Some u -> globalRole u = USER ->
  isEmpty (tenantIdStr req) = false -> isValid (tenantIdStr req) = true ->
  isValid (sub u) = true ->
  requireTenantRole roles req s
  = (Ok (gateVerdict roles
           (findOne (activeMembershipOf (hexOf (tenantIdStr req)) (callerId u))
                    (memberships s))),
     s).
Proof.
  intros Hu Hg He Hv Hs. unfold requireTenantRole, castObjectId, callerId.
  rewrite Hu, Hg, He, Hv. simpl.
  unfold bind, gets, ret, gateVerdict. rewrite Hs.
  destruct (findOne _ _) as [m|]; [| reflexivity].
  destruct (includes roles (m_role m)); reflexivity.
Qed.


(** The gate never writes, whatever it answers. *)
Lemma gate_keeps_store `{Bson} (roles : list TenantRole) (req : Request) (s : Store) :
  snd (requireTenantRole roles req s) = s.
Proof.
  unfold requireTenantRole, castObjectId.
  destruct (user req) as [u|]; [| reflexivity].
  destruct (GlobalRole_eqb (globalRole u) SUPER_ADMIN); [reflexivity |].
  destruct (isEmpty _ || negb _) eqn:E; [reflexivity |].
  apply orb_false_iff in E. destruct E as [_ E]. apply negb_false_iff in E.
  unfold bind, gets, ret. rewrite E.
  destruct (isValid (sub u)); [| reflexivity].
  destruct (findOne _ (memberships s)) as [m|]; [| reflexivity].
  destruct (negb (includes roles (m_role m))); reflexivity.
Qed.

(** A caller who is not a super-admin passes the gate only on an ACTIVE
    membership, with an allowed role, in the tenant the resolved
    identifier is cast to. *)
Lemma gate_pass_inv `{Bson} (roles : list TenantRole) (req : Request) (u : JwtUser)
  (s : Store) :
  user req = Some u -> globalRole u <> SUPER_ADMIN ->
  fst (requireTenantRole roles req s) = Ok Next ->
  exists m, In m (memberships s)
            /\ m_tenantId m = hexOf (tenantIdStr req) /\ m_userId m = callerId u
            /\ m_status m = ACTIVE /\ In (m_role m) roles.
Proof.
  intros Hu Hg Hnext.
  unfold requireTenantRole, castObjectId, callerId in *. rewrite Hu in Hnext.
  destruct (globalRole u); [congruence |]. simpl in Hnext.
  destruct (isEmpty (tenantIdStr req) || negb (isValid (tenantIdStr req))) eqn:E;
    [discriminate |].
  apply orb_false_iff in E. destruct E as [_ E]. apply negb_false_iff in E.
  unfold bind, gets, ret in Hnext. rewrite E in Hnext.
  destruct (isValid (sub u)); [| discriminate].
  destruct (findOne _ (memberships s)) as [m|] eqn:Hf; [| discriminate].
  destruct (includes roles (m_role m)) eqn:Hi; [| discriminate].
  apply findOne_In in Hf. destruct Hf as [Hin Hp].
  apply activeMembershipOf_true in Hp. destruct Hp as (Ht & Hus & Ha).
  apply includes_In in Hi.
  exists m. auto.
Qed.

(** Without an ACTIVE membership of the caller in that tenant, in an
    allowed role, the gate answers 400 or 403. *)
Lemma gate_refuses `{Bson} (roles : list TenantRole) (req : Request) (u : JwtUser)
  (s : Store) :
  user req = Some u -> globalRole u = USER -> isValid (sub u) = true ->
  (forall m, In m (memberships s) ->
             activeMembershipOf (hexOf (tenantIdStr req)) (callerId u) m = true ->
             ~ In (m_role m) roles) ->
  exists r, requireTenantRole roles req s = (Ok (Rejected r), s)
            /\ (r_status r = 400 \/ r_status r = 403).
Proof.
  intros Hu Hg Hs Hnone.
  destruct (isEmpty (tenantIdStr req) || negb (isValid (tenantIdStr req))) eqn:E.
  { unfold requireTenantRole. rewrite Hu, Hg. cbn [GlobalRole_eqb]. rewrite E.
    eexists. split; [reflexivity | now left]. }
  apply orb_false_iff in E. destruct E as [He Hv]. apply negb_false_iff in Hv.
  rewrite (requireTenantRole_lookup roles req u s Hu Hg He Hv Hs).
  unfold gateVerdict.
  destruct (findOne _ (memberships s)) as [m|] eqn:Hf.
  - destruct (findOne_In _ _ _ Hf) as [Hin Hm].
    replace (includes roles (m_role m)) with false.
    + eexists. split; [reflexivity | now right].
    + symmetry. destruct (includes roles (m_role m)) eqn:Hi; [| reflexivity].
      exfalso. apply (Hnone m Hin Hm). now apply includes_In.
  - eexists. split; [reflexivity | now right].
Qed.




(** C2.  The order of the gate's decisions for an authenticated caller:
    a super-admin passes; otherwise an empty or malformed resolved
    identifier is a 400 VALIDATION_ERROR; otherwise, with no ACTIVE
    membership of the caller in the tenant the identifier denotes (a
    PENDING, SUSPENDED or BANNED one does not count), a 403 FORBIDDEN;
    otherwise the ACTIVE membership passes exactly when its role is
    allowed, and is a 403 when it is not.  In every case the store is left
    as it was.  Tenant and caller are compared as ObjectIds, as the query
    does: the resolved string and the caller's id are cast first (the
    caller's id, for which [auth] found an account, is an ObjectId
    string). *)
Theorem role_gate_decision `{Bson} (roles : list TenantRole) (req : Request)
  (u : JwtUser) (s : Store) :
  user req = Some u ->
  snd (requireTenantRole roles req s) = s
  /\ (globalRole u = SUPER_ADMIN ->
      fst (requireTenantRole roles req s) = Ok Next)
  /\ (globalRole u <> SUPER_ADMIN ->
      tenantIdStr req = "" \/ isValid (tenantIdStr req) = false ->
      fst (requireTenantRole roles req s)
      = Ok (Rejected (mkFail "Valid tenantId is required" 400 "VALIDATION_ERROR")))
  /\ (globalRole u <> SUPER_ADMIN ->
      tenantIdStr req <> "" -> isValid (tenantIdStr req) = true ->
      isValid (sub u) = true ->
      (forall m, In m (memberships s) ->
                 m_tenantId m = hexOf (tenantIdStr req) -> m_userId m = callerId u ->
                 m_status m <> ACTIVE) ->
      fst (requireTenantRole roles req s)
      = Ok (Rejected (mkFail "Forbidden" 403 "FORBIDDEN")))
  /\ (globalRole u <> SUPER_ADMIN ->
      tenantIdStr req <> "" -> isValid (tenantIdStr req) = true ->
      isValid (sub u) = true ->
      UniqueMemberships s ->
      forall m, In m (memberships s) ->
                m_tenantId m = hexOf (tenantIdStr req) -> m_userId m = callerId u ->
                m_status m = ACTIVE ->
                (In (m_role m) roles ->
                 fst (requireTenantRole roles req s) = Ok Next)
                /\ (~ In (m_role m) roles ->
                    fst (requireTenantRole roles req s)
                    = Ok (Rejected (mkFail "Forbidden" 403 "FORBIDDEN"))))
  /\ (globalRole u <> SUPER_ADMIN ->
      fst (requireTenantRole roles req s) = Ok Next ->
      exists m, In m (memberships s)
                /\ m_tenantId m = hexOf (tenantIdStr req) /\ m_userId m = callerId u
                /\ m_status m = ACTIVE /\ In (m_role m) roles).
Proof.
  intros Hu.
  assert (Hsa : globalRole u = SUPER_ADMIN ->
                requireTenantRole roles req s = (Ok Next, s)).
  { intros Hg. unfold requireTenantRole. now rewrite Hu, Hg. }
  assert (Hbad : globalRole u <> SUPER_ADMIN ->
                 tenantIdStr req = "" \/ isValid (tenantIdStr req) = false ->
                 requireTenantRole roles req s
                 = (Ok (Rejected (mkFail "Valid tenantId is required" 400
                                         "VALIDATION_ERROR")), s)).
  { intros Hg Hb. unfold requireTenantRole. rewrite Hu.
    destruct (globalRole u); [congruence |]. simpl.
    destruct Hb as [-> | ->]; [reflexivity |].
    now rewrite orb_true_r. }
  assert (Hlook : globalRole u <> SUPER_ADMIN ->
                  tenantIdStr req <> "" -> isValid (tenantIdStr req) = true ->
                  isValid (sub u) = true ->
                  requireTenantRole roles req s
                  = (Ok (gateVerdict roles
                           (findOne (activeMembershipOf (hexOf (tenantIdStr req))
                                                        (callerId u))
                                    (memberships s))), s)).
  { intros Hg He Hv Hs. apply requireTenantRole_lookup; auto.
    - destruct (globalRole u); congruence.
    - destruct (isEmpty (tenantIdStr req)) eqn:E; [| reflexivity].
      apply isEmpty_true in E. contradiction. }
  split; [apply gate_keeps_store |].
  split; [intros Hg; now rewrite Hsa |].
  split; [intros Hg Hb; now rewrite Hbad |].
  split.
  { intros Hg He Hv Hs Hnone. rewrite Hlook by assumption. simpl.
    replace (findOne (activeMembershipOf (hexOf (tenantIdStr req)) (callerId u))
                     (memberships s))
      with (@None Membership); [reflexivity |].
    symmetry. apply findOne_None. intros m Hm.
    destruct (activeMembershipOf (hexOf (tenantIdStr req)) (callerId u) m) eqn:E;
      [| reflexivity].
    apply activeMembershipOf_true in E. destruct E as [Et [Eu Ea]].
    exfalso. exact (Hnone m Hm Et Eu Ea). }
  split.
  { intros Hg He Hv Hs Huniq m Hm Et Eu Ea.
    rewrite Hlook by assumption. simpl.
    destruct (findOne (activeMembershipOf (hexOf (tenantIdStr req)) (callerId u))
                      (memberships s))
      as [m0|] eqn:Hf.
    - apply findOne_In in Hf. destruct Hf as [Hm0 Hp0].
      apply activeMembershipOf_true in Hp0. destruct Hp0 as [Et0 [Eu0 _]].
      assert (m0 = m) as ->.
      { apply (unique_key_same (memberships s)); auto.
        unfold memberKey. now rewrite Et, Eu, Et0, Eu0. }
      unfold gateVerdict. split; intros Hr.
      + apply includes_In in Hr. now rewrite Hr.
      + destruct (includes roles (m_role m)) eqn:Hi; [| reflexivity].
        apply includes_In in Hi. contradiction.
    - exfalso.
      assert (Hp : activeMembershipOf (hexOf (tenantIdStr req)) (callerId u) m = false)
        by (exact (proj1 (findOne_None _ _) Hf m Hm)).
      assert (Hq : activeMembershipOf (hexOf (tenantIdStr req)) (callerId u) m = true)
        by (apply activeMembershipOf_true; auto).
      congruence. }
  intros Hg Hnext. exact (gate_pass_inv roles req u s Hu Hg Hnext).
Qed.

Lemma role_gate_decision_witness :
  snd (requireTenantRole (H := Sample.hex24) Sample.adminRoles
         (Sample.onPathA Sample.bob) Sample.storeA) = Sample.storeA
  /\ fst (requireTenantRole (H := Sample.hex24) Sample.adminRoles
            (Sample.onPathA Sample.bob) Sample.storeA)
     = Ok (Rejected (mkFail "Forbidden" 403 "FORBIDDEN"))
  /\ fst (requireTenantRole (H := Sample.hex24) Sample.adminRoles
            (Sample.offPath Sample.bob (JString "not-an-id")) Sample.storeA)
     = Ok (Rejected (mkFail "Valid tenantId is required" 400 "VALIDATION_ERROR"))
  /\ fst (requireTenantRole (H := Sample.hex24) Sample.adminRoles
            (Sample.onPathA Sample.alice) Sample.storeA) = Ok Next
  /\ fst (requireTenantRole (H := Sample.hex24) Sample.adminRoles
            (Sample.onPathUpperA Sample.alice) Sample.storeA) = Ok Next.
Proof.
  pose proof (role_gate_decision (H := Sample.hex24) Sample.adminRoles
                (Sample.onPathA Sample.bob) (mkJwtUser Sample.bob USER)
                Sample.storeA eq_refl) as (Hsnd & _ & _ & Hnone & _).
  pose proof (role_gate_decision (H := Sample.hex24) Sample.adminRoles
                (Sample.offPath Sample.bob (JString "not-an-id"))
                (mkJwtUser Sample.bob USER) Sample.storeA eq_refl)
    as (_ & _ & Hbad & _).
  pose proof (role_gate_decision (H := Sample.hex24) Sample.adminRoles
                (Sample.onPathA Sample.alice) (mkJwtUser Sample.alice USER)
                Sample.storeA eq_refl) as (_ & _ & _ & _ & Hrole & _).
  pose proof (role_gate_decision (H := Sample.hex24) Sample.adminRoles
                (Sample.onPathUpperA Sample.alice) (mkJwtUser Sample.alice USER)
                Sample.storeA eq_refl) as (_ & _ & _ & _ & Hupper & _).
  assert (Huniq : UniqueMemberships Sample.storeA).
  { repeat constructor; simpl; intuition discriminate. }
  split; [exact Hsnd |].
  split.
  { apply Hnone; [discriminate | discriminate | reflexivity | reflexivity |].
    intros m [<- | [<- | []]] _ Hu; simpl in *; discriminate. }
  split.
  { apply Hbad; [discriminate | right; reflexivity]. }
  split.
  - refine (proj1 (Hrole _ _ eq_refl eq_refl Huniq Sample.aliceAdminA _
                     eq_refl eq_refl eq_refl) _).
    + discriminate.
    + discriminate.
    + left; reflexivity.
    + right; left; reflexivity.
  - refine (proj1 (Hupper _ _ eq_refl eq_refl Huniq Sample.aliceAdminA _
                     eq_refl eq_refl eq_refl) _).
    + discriminate.
    + discriminate.
    + left; reflexivity.
    + right; left; reflexivity.
Defined.

(** * Tenant file scope *)

Lemma findOne_some_of_In {A : Type} (p : A -> bool) (l : list A) (x : A) :
  In x l -> p x = true -> exists y, findOne p l = Some y.
Proof.
  intros Hin Hp. destruct (findOne p l) as [y|] eqn:E.
  - now exists y.
  - exfalso. pose proof (proj1 (findOne_None p l) E x Hin). congruence.
Qed.

Lemma upload_ensureMembership_ok `{Bson} (s : Store) (t u : string) :
  isValid t = true -> isValid u = true -> ActiveMember s (hexOf t) (hexOf u) ->
  TenantUpload.ensureMembership t u s = (Ok tt, s).
Proof.
  intros Ht Hu [m [Hin Hm]].
  unfold TenantUpload.ensureMembership, newTypesObjectId, bind, gets, ret.
  rewrite Ht, Hu.
  destruct (findOne_some_of_In (activeMembershipOf (hexOf t) (hexOf u))
              (memberships s) m Hin Hm) as [y ->].
  reflexivity.
Qed.

(** C3.  A download by an active member of the requested tenant, of a
    stored file whose tenant tag, as a string, is not the requested
    tenant identifier, throws the 404 NOT_FOUND error of a file that does
    not exist: the same error value, hence the same response, whatever the
    content type, the size and the bytes of the stored file; it is not a
    403, and nothing is written.  The member and the file are looked up
    by ObjectId, the tag is compared with the path string as it is. *)
Theorem cross_tenant_download_not_found `{Bson} (req : Request) (u : JwtUser)
  (s : Store) (files : list FileDoc) (d : FileDoc) :
  user req = Some u ->
  isValid (routeParam (p_tenantId (params req))) = true ->
  isValid (sub u) = true ->
  ActiveMember s (pathTenantId req) (callerId u) ->
  routeParam (p_fileId (params req)) <> "" ->
  isValid (routeParam (p_fileId (params req))) = true ->
  gridfs s = Some files ->
  findOne (fun x => String.eqb (f_id x) (hexOf (routeParam (p_fileId (params req)))))
          files = Some d ->
  String_ (TenantUpload.metaTenantId d) <> routeParam (p_tenantId (params req)) ->
  TenantUpload.getTenantFile req s = (Throw fileNotFound, s)
  /\ errorHandler fileNotFound = mkFail "File not found" 404 "NOT_FOUND"
  /\ r_status (errorHandler fileNotFound) <> 403
  /\ (forall (s0 : Store) (files0 : list FileDoc),
        ActiveMember s0 (pathTenantId req) (callerId u) ->
        gridfs s0 = Some files0 ->
        findOne (fun x => String.eqb (f_id x)
                                     (hexOf (routeParam (p_fileId (params req)))))
                files0 = None ->
        TenantUpload.getTenantFile req s0 = (Throw fileNotFound, s0)).
Proof.
  intros Hu Ht Hs Hmem Hne Hf Hdb Hfind Hdiff.
  assert (Hpre : forall s0,
             ActiveMember s0 (pathTenantId req) (callerId u) ->
             TenantUpload.getTenantFile req s0
             = match gridfs s0 with
               | None => (Throw (ExnApp (mkAppError "Database not connected" 503
                                                    "SERVICE_UNAVAILABLE")), s0)
               | Some filesCol =>
                   match findOne (fun x => String.eqb (f_id x)
                                             (hexOf (routeParam (p_fileId (params req)))))
                                 filesCol with
                   | None => (Throw fileNotFound, s0)
                   | Some fileDoc =>
                       if negb (String.eqb (String_ (TenantUpload.metaTenantId fileDoc))
                                           (routeParam (p_tenantId (params req))))
                       then (Throw fileNotFound, s0)
                       else (Ok (TenantUpload.mkDownload
                                   (TenantUpload.contentTypeHeader fileDoc)
                                   (f_content fileDoc)), s0)
                   end
               end).
  { intros s0 Hm0. unfold TenantUpload.getTenantFile, requireUser.
    rewrite Hu. unfold bind at 1. unfold ret at 1.
    unfold bind at 1.
    rewrite (upload_ensureMembership_ok s0 _ _ Ht Hs Hm0).
    assert (E : isEmpty (routeParam (p_fileId (params req))) = false).
    { destruct (isEmpty _) eqn:E; [| reflexivity].
      apply isEmpty_true in E. contradiction. }
    rewrite E, Hf. simpl. unfold bind, gets.
    destruct (gridfs s0) as [fc|]; [| reflexivity].
    destruct (findOne _ fc) as [fd|]; [| reflexivity].
    destruct (negb _); reflexivity. }
  split.
  { rewrite (Hpre s Hmem), Hdb, Hfind.
    apply String.eqb_neq in Hdiff. now rewrite Hdiff. }
  split; [reflexivity |].
  split; [discriminate |].
  intros s0 files0 Hm0 Hdb0 Hnone.
  now rewrite (Hpre s0 Hm0), Hdb0, Hnone.
Qed.

Lemma cross_tenant_download_not_found_witness :
  TenantUpload.getTenantFile (H := Sample.hex24)
    (Sample.download Sample.alice Sample.fileF) Sample.storeA
  = (Throw fileNotFound, Sample.storeA)
  /\ TenantUpload.getTenantFile (H := Sample.hex24)
       (Sample.download Sample.alice Sample.fileMissing) Sample.storeA
     = (Throw fileNotFound, Sample.storeA).
Proof.
  assert (Hmem : ActiveMember Sample.storeA Sample.tenantA Sample.alice).
  { exists Sample.aliceAdminA. split; [left; reflexivity | reflexivity]. }
  destruct (cross_tenant_download_not_found (H := Sample.hex24)
              (Sample.download Sample.alice Sample.fileF)
              (mkJwtUser Sample.alice USER) Sample.storeA
              (match gridfs Sample.storeA with Some l => l | None => [] end)
              (mkFileDoc Sample.fileF "resource-1-a.pdf" (Some "application/pdf") 2048
                 (Some (mkFileMetadata (JString Sample.tenantB) "resource" Sample.bob))
                 "%PDF")
              eq_refl eq_refl eq_refl Hmem)
    as (Hhit & _ & _ & _).
  - discriminate.
  - reflexivity.
  - reflexivity.
  - reflexivity.
  - discriminate.
  - split; [exact Hhit |]. reflexivity.
Defined.

(** * Saving a document read earlier *)

Lemma findOne_after_save (p : Invitation -> bool) (f : Invitation -> Invitation)
  (l : list Invitation) (e : Invitation) :
  NoDup (map i_id l) ->
  findOne p l = Some e ->
  p (f e) = true ->
  findOne p (updateFirst (fun x => String.eqb (i_id x) (i_id e)) f l) = Some (f e).
Proof.
  induction l as [|x r IH]; simpl; intros Hnd Hfind Hp.
  - discriminate.
  - inversion Hnd as [|? ? Hnotin Hnd']; subst.
    destruct (String.eqb_spec (i_id x) (i_id e)) as [Heq | Hneq].
    + assert (x = e) as ->.
      { destruct (p x) eqn:Hx; [congruence |].
        exfalso. apply Hnotin. rewrite Heq.
        apply in_map. now apply (findOne_In p r e). }
      simpl. now rewrite Hp.
    + destruct (p x) eqn:Hx.
      * injection Hfind as ->. congruence.
      * simpl. rewrite Hx. now apply IH.
Qed.

(** * Resending an invitation *)

(** C8.  For an invitation of the tenant, resend throws INVALID_STATE
    exactly when the derived status is ACCEPTED.  In every other state, a
    revoked or an expired one included, it succeeds: the stored invitation
    gets the new token, status SENT, no revocation fields, and an expiry
    seven days ahead, so that its derived status is SENT (now and until the
    new expiry), which is also what the response reports. *)
Theorem resend_blocked_only_by_acceptance `{Bson} (env : Env) (req : Request)
  (s : Store) (e : Invitation) :
  UniqueInvitationIds s ->
  isValid (routeParam (p_id (params req))) = true ->
  isValid (routeParam (p_tenantId (params req))) = true ->
  findOne (invitationByIdOf req) (invitations s) = Some e ->
  (normalizeInvitationStatus (i_status e) (i_expiresAt e) (now env) = "ACCEPTED"
   <-> fst (TenantFeatures.resendInvitation env req s)
       = Throw (ExnApp (mkAppError "Cannot resend an accepted invitation" 400
                                   "INVALID_STATE")))
  /\ (normalizeInvitationStatus (i_status e) (i_expiresAt e) (now env) <> "ACCEPTED" ->
      exists (sent : Invitation) (s' : Store),
        TenantFeatures.resendInvitation env req s = (Ok (200, sent), s')
        /\ findOne (invitationByIdOf req) (invitations s')
           = Some (TenantFeatures.markResent env e)
        /\ i_token (TenantFeatures.markResent env e) = randomUUID env
        /\ i_status (TenantFeatures.markResent env e) = "SENT"
        /\ i_revokedAt (TenantFeatures.markResent env e) = None
        /\ i_revokedByUserId (TenantFeatures.markResent env e) = None
        /\ i_expiresAt (TenantFeatures.markResent env e) = now env + 604800000
        /\ now env < i_expiresAt (TenantFeatures.markResent env e)
        /\ i_status sent = "SENT"
        /\ (forall t, t <= now env + 604800000 ->
              normalizeInvitationStatus (i_status (TenantFeatures.markResent env e))
                (i_expiresAt (TenantFeatures.markResent env e)) t = "SENT")).
Proof.
  intros Huniq Hid Htid Hfind.
  unfold invitationByIdOf, pathId, pathTenantId in *.
  assert (Hrun : TenantFeatures.resendInvitation env req s
                 = if String.eqb (i_status e) "ACCEPTED"
                   then (Throw (ExnApp (mkAppError "Cannot resend an accepted invitation"
                                                   400 "INVALID_STATE")), s)
                   else (Ok (200, withDerivedStatus (now env)
                                    (TenantFeatures.markResent env e)),
                         set_invitations
                           (updateFirst (fun x => String.eqb (i_id x) (i_id e))
                                        (TenantFeatures.markResent env)
                                        (invitations s)) s)).
  { unfold TenantFeatures.resendInvitation.
    rewrite (bind_ok _ _ _ _ _ (castObjectId_ok _ s Hid)).
    rewrite (bind_ok _ _ _ _ _ (castObjectId_ok _ s Htid)).
    unfold bind, gets. rewrite Hfind.
    destruct (String.eqb (i_status e) "ACCEPTED"); reflexivity. }
  assert (Hsent : forall t, t <= now env + 604800000 ->
            normalizeInvitationStatus "SENT" (now env + sevenDays) t = "SENT").
  { intros t Ht. apply derived_sent_iff.
    repeat split; try discriminate. unfold sevenDays. lia. }
  split.
  - rewrite derived_accepted_iff, Hrun.
    destruct (String.eqb_spec (i_status e) "ACCEPTED") as [Ha | Ha]; simpl.
    + tauto.
    + split; [contradiction | discriminate].
  - intros Hna. rewrite derived_accepted_iff in Hna.
    apply String.eqb_neq in Hna. rewrite Hna in Hrun.
    eexists. eexists. split; [exact Hrun |].
    split.
    { simpl. apply findOne_after_save; [exact Huniq | exact Hfind |].
      pose proof (findOne_In _ _ _ Hfind) as [_ Hp]. exact Hp. }
    repeat split.
    + simpl. unfold sevenDays. lia.
    + simpl. apply Hsent. lia.
    + intros t Ht. simpl. now apply Hsent.
Qed.

Lemma resend_blocked_only_by_acceptance_witness :
  exists sent s',
    TenantFeatures.resendInvitation (H := Sample.hex24) Sample.env0
      (Sample.onInvitation Sample.alice) Sample.storeInvited = (Ok (200, sent), s')
    /\ i_status sent = "SENT"
    /\ findOne (invitationByIdOf (H := Sample.hex24) (Sample.onInvitation Sample.alice))
               (invitations s')
       = Some (TenantFeatures.markResent Sample.env0 Sample.revokedInvite).
Proof.
  assert (Hu : UniqueInvitationIds Sample.storeInvited).
  { repeat constructor. simpl. tauto. }
  destruct (proj2 (resend_blocked_only_by_acceptance (H := Sample.hex24) Sample.env0
                     (Sample.onInvitation Sample.alice) Sample.storeInvited
                     Sample.revokedInvite Hu eq_refl eq_refl eq_refl))
    as (sent & s' & Hrun & Hstored & _ & _ & _ & _ & _ & _ & Hst & _).
  - discriminate.
  - exists sent, s'. split; [exact Hrun |]. split; [exact Hst | exact Hstored].
Defined.

(** * Changing a member's role *)

(** C10.  On an existing membership, an update that carries no status (or
    a falsy one) stores status ACTIVE along with the role: a PENDING,
    SUSPENDED or BANNED member whose role alone is changed comes out
    ACTIVE.  The membership is the one of the tenant and of the user the
    two path strings denote as ObjectIds. *)
Theorem updateMemberRole_without_status_activates `{Bson} (req : Request)
  (s : Store) (m : Membership) :
  b_status (body req) = None ->
  isValid (routeParam (p_tenantId (params req))) = true ->
  isValid (routeParam (p_userId (params req))) = true ->
  findOne (membershipOf (pathTenantId req) (pathUserId req)) (memberships s)
  = Some m ->
  exists (row : Membership) (s' : Store),
    TenantFeatures.updateMemberRole req s = (Ok (200, row), s')
    /\ m_status row = ACTIVE
    /\ (forall r, b_role (body req) = Some r -> m_role row = r)
    /\ m_id row = m_id m /\ m_tenantId row = m_tenantId m /\ m_userId row = m_userId m
    /\ findOne (membershipOf (pathTenantId req) (pathUserId req)) (memberships s')
       = Some row.
Proof.
  intros Hst Htid Huid Hfind. unfold pathTenantId, pathUserId in *.
  unfold TenantFeatures.updateMemberRole.
  rewrite (bind_ok _ _ _ _ _ (castObjectId_ok _ s Htid)).
  rewrite (bind_ok _ _ _ _ _ (castObjectId_ok _ s Huid)).
  unfold updateOneNew. rewrite Hfind.
  eexists. eexists. split; [reflexivity |].
  unfold TenantFeatures.memberRoleUpdate. rewrite Hst. simpl.
  split; [reflexivity |].
  split; [intros r ->; reflexivity |].
  repeat split.
  apply findOne_updateFirst with (x := m); [exact Hfind |].
  pose proof (findOne_In _ _ _ Hfind) as [_ Hp].
  apply membershipOf_true in Hp. apply membershipOf_true. exact Hp.
Qed.

Lemma updateMemberRole_without_status_activates_witness :
  exists row s',
    TenantFeatures.updateMemberRole (H := Sample.hex24)
      (Sample.roleOnly Sample.alice Sample.bob MODERATOR) Sample.storeA
    = (Ok (200, row), s')
    /\ m_status Sample.bobPendingA = PENDING
    /\ m_status row = ACTIVE /\ m_role row = MODERATOR.
Proof.
  destruct (updateMemberRole_without_status_activates (H := Sample.hex24)
              (Sample.roleOnly Sample.alice Sample.bob MODERATOR) Sample.storeA
              Sample.bobPendingA eq_refl eq_refl eq_refl eq_refl)
    as (row & s' & Hrun & Hact & Hrole & _).
  exists row, s'. split; [exact Hrun |]. split; [reflexivity |].
  split; [exact Hact | exact (Hrole MODERATOR eq_refl)].
Defined.

(** * Joining by slug *)

Lemma isEmpty_false (s : string) : s <> "" -> isEmpty s = false.
Proof.
  intros Hs. destruct (isEmpty s) eqn:E; [| reflexivity].
  apply isEmpty_true in E. contradiction.
Qed.

Lemma notBanned_test (s : Store) (t u : string) :
  NotBanned s t u ->
  match findOne (membershipOf t u) (memberships s) with
  | Some e => MembershipStatus_eqb (m_status e) BANNED
  | None => false
  end = false.
Proof.
  intros Hnb. destruct (findOne _ _) as [e|] eqn:E; [| reflexivity].
  specialize (Hnb e E).
  destruct (MembershipStatus_eqb (m_status e) BANNED) eqn:Hb; [| reflexivity].
  apply MembershipStatus_eqb_eq in Hb. contradiction.
Qed.




Lemma upsertMembership_run (id t u : string) (r : TenantRole)
  (st : MembershipStatus) (s : Store) :
  Tenants.upsertMembership id t u r st s
  = (Ok (fst (upsert (membershipOf t u) (Tenants.setRoleStatus r st)
                     (mkMembership id t u r st) (memberships s))),
     set_memberships
       (snd (upsert (membershipOf t u) (Tenants.setRoleStatus r st)
                    (mkMembership id t u r st) (memberships s))) s).
Proof.
  unfold Tenants.upsertMembership. now destruct (upsert _ _ _ _).
Qed.

Lemma upsertMemberProfile_run (t u f p : string) (s : Store) :
  Tenants.upsertMemberProfile t u f p s
  = (Ok tt, snd (Tenants.upsertMemberProfile t u f p s)).
Proof. reflexivity. Qed.

Lemma saveUserNames_run (usr : User) (f p : string) (s : Store) :
  Tenants.saveUserNames usr f p s = (Ok tt, snd (Tenants.saveUserNames usr f p s)).
Proof.
  unfold Tenants.saveUserNames. now destruct (negb _ || negb _).
Qed.

Lemma saveInvitation_run (id : string) (f : Invitation -> Invitation) (s : Store) :
  saveInvitation id f s = (Ok tt, snd (saveInvitation id f s)).
Proof. reflexivity. Qed.

Lemma joinTenantBySlug_invite_run `{Bson} (env : Env) (req : Request) (s : Store)
  (u : JwtUser) (tenant : Tenant) (usr : User) (inv : Invitation) :
  JoinContext req s u tenant usr ->
  NotBanned s (t_id tenant) (callerId u) ->
  inviteTokenOf req <> "" ->
  findOne (Tenants.invitationByToken (t_id tenant) (inviteTokenOf req))
          (invitations s) = Some inv ->
  Tenants.joinTenantBySlug env req s
  = if negb (String.eqb (normalizeInvitationStatus (i_status inv) (i_expiresAt inv)
                                                   (now env)) "SENT")
    then (Throw (ExnApp (mkAppError
                   ("Invitation is "
                    ++ toLowerCase (normalizeInvitationStatus (i_status inv)
                                      (i_expiresAt inv) (now env)))
                   400 "INVITATION_INVALID")), s)
    else if negb (String.eqb (i_email inv) (toLowerCase (u_email usr)))
    then (Throw (ExnApp (mkAppError "Invitation email does not match your account"
                                    403 "FORBIDDEN")), s)
    else
      let mm := upsert (membershipOf (t_id tenant) (callerId u))
                       (Tenants.setRoleStatus (i_role inv) ACTIVE)
                       (mkMembership (newObjectId env 0) (t_id tenant) (callerId u)
                                     (i_role inv) ACTIVE)
                       (memberships s) in
      (Ok (201, Tenants.mkJoinResponse
                  (Tenants.mapMembership (fst mm))
                  (Tenants.getMembershipRoute (t_slug tenant) (fst mm))
                  (MembershipStatus_eqb (m_status (fst mm)) PENDING)),
       snd (saveInvitation (i_id inv) (Tenants.markAccepted (callerId u) (now env))
         (snd (Tenants.saveUserNames usr (trim (b_fullName (body req)))
                                     (trim (b_phone (body req)))
           (snd (Tenants.upsertMemberProfile (t_id tenant) (callerId u)
                   (trim (b_fullName (body req))) (trim (b_phone (body req)))
                   (set_memberships (snd mm) s))))))).
Proof.
  intros [Hu Hsub Hval Hten Husr] Hnb Htok Hinv.
  unfold inviteTokenOf in *.
  unfold Tenants.joinTenantBySlug.
  rewrite Hu, (isEmpty_false _ Hsub).
  unfold bind at 1. unfold gets at 1. rewrite Hten.
  unfold bind at 1. unfold newTypesObjectId at 1. rewrite Hval. unfold ret at 1.
  fold (callerId u).
  unfold bind at 1. unfold Tenants.findSettings at 1. unfold gets at 1.
  unfold bind at 1. unfold gets at 1. rewrite Husr.
  unfold bind at 1. unfold gets at 1.
  rewrite (notBanned_test s _ _ Hnb).
  rewrite (isEmpty_false _ Htok). simpl negb.
  cbv iota.
  unfold bind at 1. unfold bind at 1. unfold gets at 1. rewrite Hinv.
  destruct (negb (String.eqb (normalizeInvitationStatus _ _ _) "SENT")) eqn:Hst.
  { reflexivity. }
  destruct (negb (String.eqb (i_email inv) (toLowerCase (u_email usr)))) eqn:Hem.
  { reflexivity. }
  unfold ret at 1. cbv beta iota.
  assert (Hstatus :
    match findOne (membershipOf (t_id tenant) (callerId u)) (memberships s) with
    | Some e => if MembershipStatus_eqb (m_status e) ACTIVE then ACTIVE else ACTIVE
    | None => ACTIVE
    end = ACTIVE).
  { destruct (findOne (membershipOf (t_id tenant) (callerId u)) (memberships s)) as [e|];
      [destruct (MembershipStatus_eqb (m_status e) ACTIVE) |]; reflexivity. }
  rewrite Hstatus.
  rewrite (bind_ok _ _ _ _ _ (ret_run _ _)).
  rewrite (bind_ok _ _ _ _ _ (upsertMembership_run _ _ _ _ _ _)).
  rewrite (bind_ok _ _ _ _ _ (upsertMemberProfile_run _ _ _ _ _)).
  rewrite (bind_ok _ _ _ _ _ (saveUserNames_run _ _ _ _)).
  rewrite (bind_ok _ _ _ _ _ (saveInvitation_run _ _ _)).
  reflexivity.
Qed.

Lemma upsert_findOne {A : Type} (p : A -> bool) (f : A -> A) (fresh : A)
  (l : list A) :
  (forall x, p x = true -> p (f x) = true) -> p fresh = true ->
  findOne p (snd (upsert p f fresh l)) = Some (fst (upsert p f fresh l)).
Proof.
  intros Hf Hfresh. unfold upsert.
  destruct (findOne p l) as [x|] eqn:E; simpl.
  - apply findOne_updateFirst; [exact E |].
    apply Hf. now apply (findOne_In p l x).
  - now apply findOne_insertDoc.
Qed.

Lemma upsert_membership_found (id t u : string) (r : TenantRole)
  (st : MembershipStatus) (l : list Membership) :
  let mm := upsert (membershipOf t u) (Tenants.setRoleStatus r st)
                   (mkMembership id t u r st) l in
  findOne (membershipOf t u) (snd mm) = Some (fst mm)
  /\ m_role (fst mm) = r /\ m_status (fst mm) = st
  /\ m_tenantId (fst mm) = t /\ m_userId (fst mm) = u.
Proof.
  simpl. split.
  - apply upsert_findOne.
    + intros x Hx. apply membershipOf_true in Hx. now apply membershipOf_true.
    + apply membershipOf_true. now split.
  - unfold upsert. destruct (findOne (membershipOf t u) l) as [x|] eqn:E; simpl.
    + apply findOne_In in E. destruct E as [_ Hx].
      apply membershipOf_true in Hx. tauto.
    + tauto.
Qed.

(** What the later writes of a join leave alone. *)
Lemma join_tail_frames (usr : User) (t u f p id : string)
  (g : Invitation -> Invitation) (ms : list Membership) (s : Store) :
  let s' :=
    snd (saveInvitation id g
      (snd (Tenants.saveUserNames usr f p
        (snd (Tenants.upsertMemberProfile t u f p (set_memberships ms s)))))) in
  tenants s' = tenants s
  /\ tenantSettings s' = tenantSettings s
  /\ memberships s' = ms
  /\ invitations s' = updateFirst (fun x => String.eqb (i_id x) id) g (invitations s)
  /\ (users s' = users s
      \/ exists usr', u_id usr' = u_id usr /\ u_email usr' = u_email usr
           /\ users s' = updateFirst (fun x => String.eqb (u_id x) (u_id usr))
                                     (fun _ => usr') (users s)).
Proof.
  unfold Tenants.saveUserNames.
  destruct (negb (isEmpty f) || negb (isEmpty p)); simpl.
  - repeat split. right.
    exists (mkUser (u_id usr) (u_email usr)
                   (if isEmpty f then u_fullName usr else f)
                   (if isEmpty p then u_phone usr else p) (u_globalRole usr)).
    repeat split.
  - repeat split. now left.
Qed.

Lemma join_tail_direct_frames (usr : User) (t u f p : string)
  (ms : list Membership) (s : Store) :
  let s' :=
    snd (Tenants.saveUserNames usr f p
      (snd (Tenants.upsertMemberProfile t u f p (set_memberships ms s)))) in
  tenants s' = tenants s
  /\ tenantSettings s' = tenantSettings s
  /\ memberships s' = ms
  /\ invitations s' = invitations s.
Proof.
  unfold Tenants.saveUserNames.
  destruct (negb (isEmpty f) || negb (isEmpty p)); simpl; repeat split.
Qed.

Lemma user_still_found (l : list User) (uid : string) (usr : User) (l' : list User) :
  findOne (fun x => String.eqb (u_id x) uid) l = Some usr ->
  (l' = l
   \/ exists usr', u_id usr' = u_id usr /\ u_email usr' = u_email usr
        /\ l' = updateFirst (fun x => String.eqb (u_id x) (u_id usr))
                            (fun _ => usr') l) ->
  exists usr', findOne (fun x => String.eqb (u_id x) uid) l' = Some usr'
               /\ u_email usr' = u_email usr.
Proof.
  intros Hfind [-> | (usr' & Hid & Hem & ->)].
  - now exists usr.
  - exists usr'. split; [| exact Hem].
    pose proof (findOne_In _ _ _ Hfind) as [_ Hp]. apply String.eqb_eq in Hp.
    subst uid.
    apply (findOne_updateFirst (fun x => String.eqb (u_id x) (u_id usr))
                               (fun _ => usr') l usr Hfind).
    apply String.eqb_eq. exact Hid.
Qed.

(** * Accepting an invitation *)

Lemma joinTenantBySlug_banned_run `{Bson} (env : Env) (req : Request) (s : Store)
  (u : JwtUser) (tenant : Tenant) (usr : User) (e : Membership) :
  JoinContext req s u tenant usr ->
  findOne (membershipOf (t_id tenant) (callerId u)) (memberships s) = Some e ->
  m_status e = BANNED ->
  Tenants.joinTenantBySlug env req s
  = (Throw (ExnApp (mkAppError "You are banned from this community" 403
                               "FORBIDDEN")), s).
Proof.
  intros [Hu Hsub Hval Hten Husr] He Hb.
  unfold Tenants.joinTenantBySlug.
  rewrite Hu, (isEmpty_false _ Hsub).
  unfold bind at 1. unfold gets at 1. rewrite Hten.
  unfold bind at 1. unfold newTypesObjectId at 1. rewrite Hval. unfold ret at 1.
  fold (callerId u).
  unfold bind at 1. unfold Tenants.findSettings at 1. unfold gets at 1.
  unfold bind at 1. unfold gets at 1. rewrite Husr.
  unfold bind at 1. unfold gets at 1.
  rewrite He, Hb. reflexivity.
Qed.

(** C5 as stated fails for a caller who is banned from the tenant.  Dave is
    BANNED in tenant A and sends the token of his invitation after it has
    expired: the derived status of the invitation is EXPIRED, not SENT,
    and the call does not throw INVITATION_INVALID; it throws the 403
    FORBIDDEN of the ban guard, which comes before the invitation is
    read. *)
Lemma banned_acceptance_counterexample :
  findOne (Tenants.invitationByToken Sample.tenantA
             (inviteTokenOf (Sample.joinWithToken Sample.dave "tok-1")))
          (invitations Scenario.storeBanned) = Some Sample.daveInvite
  /\ normalizeInvitationStatus (i_status Sample.daveInvite)
       (i_expiresAt Sample.daveInvite) (now Scenario.envLate) = "EXPIRED"
  /\ Tenants.joinTenantBySlug (H := Sample.hex24) Scenario.envLate
       (Sample.joinWithToken Sample.dave "tok-1") Scenario.storeBanned
     = (Throw (ExnApp (mkAppError "You are banned from this community" 403
                                  "FORBIDDEN")), Scenario.storeBanned)
  /\ ~ (exists e,
          fst (Tenants.joinTenantBySlug (H := Sample.hex24) Scenario.envLate
                 (Sample.joinWithToken Sample.dave "tok-1") Scenario.storeBanned)
          = Throw (ExnApp e)
          /\ code e = "INVITATION_INVALID").
Proof.
  split; [reflexivity |]. split; [reflexivity |]. split; [reflexivity |].
  intros (e & He & Hc). vm_compute in He. injection He as <-.
  discriminate Hc.
Qed.

(** C5, amended.  A join by slug that carries the token of an invitation
    of the tenant.  A caller who is BANNED in the tenant gets the 403
    FORBIDDEN of the ban guard, whatever the invitation.  For a caller who
    is not banned there: when the derived status of the invitation is not
    SENT the call throws INVITATION_INVALID; when it is SENT and the
    invitation's email is not the caller's registered email up to letter
    case, it throws FORBIDDEN; it succeeds when the status is SENT and the
    stored email is the lower-case form of the caller's, and only when
    status is SENT and the emails agree up to case.  After a success the
    caller's membership in the tenant has status ACTIVE, whatever the
    approval policy, and it has the invitation's role when the caller had
    no membership there or one whose role was not above the invitation's;
    the invitation is stored ACCEPTED with the caller and the time; and
    the same request made again, at any time, throws INVITATION_INVALID. *)
Theorem accept_invitation `{Bson} (env : Env) (req : Request) (s : Store)
  (u : JwtUser) (tenant : Tenant) (usr : User) (inv : Invitation) :
  JoinContext req s u tenant usr ->
  UniqueInvitationIds s ->
  inviteTokenOf req <> "" ->
  findOne (Tenants.invitationByToken (t_id tenant) (inviteTokenOf req))
          (invitations s) = Some inv ->
  (forall e,
     findOne (membershipOf (t_id tenant) (callerId u)) (memberships s) = Some e ->
     m_status e = BANNED ->
     Tenants.joinTenantBySlug env req s
     = (Throw (ExnApp (mkAppError "You are banned from this community" 403
                                  "FORBIDDEN")), s))
  /\ (NotBanned s (t_id tenant) (callerId u) ->
  (normalizeInvitationStatus (i_status inv) (i_expiresAt inv) (now env) <> "SENT" ->
   Tenants.joinTenantBySlug env req s
   = (Throw (ExnApp (mkAppError
               ("Invitation is "
                ++ toLowerCase (normalizeInvitationStatus (i_status inv)
                                  (i_expiresAt inv) (now env)))
               400 "INVITATION_INVALID")), s))
  /\ (normalizeInvitationStatus (i_status inv) (i_expiresAt inv) (now env) = "SENT" ->
      toLowerCase (i_email inv) <> toLowerCase (u_email usr) ->
      Tenants.joinTenantBySlug env req s
      = (Throw (ExnApp (mkAppError "Invitation email does not match your account"
                                   403 "FORBIDDEN")), s))
  /\ (normalizeInvitationStatus (i_status inv) (i_expiresAt inv) (now env) = "SENT" ->
      i_email inv = toLowerCase (u_email usr) ->
      exists resp s', Tenants.joinTenantBySlug env req s = (Ok resp, s'))
  /\ (forall resp s',
        Tenants.joinTenantBySlug env req s = (Ok resp, s') ->
        normalizeInvitationStatus (i_status inv) (i_expiresAt inv) (now env) = "SENT"
        /\ toLowerCase (i_email inv) = toLowerCase (u_email usr)
        /\ (exists m,
              findOne (membershipOf (t_id tenant) (callerId u)) (memberships s') = Some m
              /\ m_status m = ACTIVE
              /\ (NotLowered (findOne (membershipOf (t_id tenant) (callerId u))
                                      (memberships s)) (i_role inv) ->
                  m_role m = i_role inv)
              /\ Tenants.jr_membership (snd resp) = Tenants.mapMembership m)
        /\ (exists inv',
              findOne (Tenants.invitationByToken (t_id tenant) (inviteTokenOf req))
                      (invitations s') = Some inv'
              /\ i_id inv' = i_id inv
              /\ i_status inv' = "ACCEPTED"
              /\ i_acceptedByUserId inv' = Some (callerId u)
              /\ i_acceptedAt inv' = Some (now env))
        /\ (forall env',
              Tenants.joinTenantBySlug env' req s'
              = (Throw (ExnApp (mkAppError "Invitation is accepted" 400
                                           "INVITATION_INVALID")), s')))).
Proof.
  intros Hctx Huniq Htok Hinv.
  split.
  { intros e He Hb.
    exact (joinTenantBySlug_banned_run env req s u tenant usr e Hctx He Hb). }
  intros Hnb.
  pose proof (joinTenantBySlug_invite_run env req s u tenant usr inv
                Hctx Hnb Htok Hinv) as Hrun.
  cbv zeta in Hrun.
  pose proof (join_tail_frames usr (t_id tenant) (callerId u)
                (trim (b_fullName (body req))) (trim (b_phone (body req)))
                (i_id inv) (Tenants.markAccepted (callerId u) (now env))
                (snd (upsert (membershipOf (t_id tenant) (callerId u))
                             (Tenants.setRoleStatus (i_role inv) ACTIVE)
                             (mkMembership (newObjectId env 0) (t_id tenant) (callerId u)
                                           (i_role inv) ACTIVE) (memberships s))) s)
    as Hframes.
  cbv zeta in Hframes.
  pose proof (upsert_membership_found (newObjectId env 0) (t_id tenant) (callerId u)
                (i_role inv) ACTIVE (memberships s)) as Hmm.
  cbv zeta in Hmm.
  set (derived := normalizeInvitationStatus (i_status inv) (i_expiresAt inv) (now env))
    in *.
  set (mm := upsert (membershipOf (t_id tenant) (callerId u))
                    (Tenants.setRoleStatus (i_role inv) ACTIVE)
                    (mkMembership (newObjectId env 0) (t_id tenant) (callerId u)
                                  (i_role inv) ACTIVE) (memberships s)) in *.
  set (sfin := snd (saveInvitation (i_id inv) (Tenants.markAccepted (callerId u) (now env))
                      _)) in *.
  clearbody sfin mm.
  split.
  { intros Hd. rewrite Hrun. apply String.eqb_neq in Hd. now rewrite Hd. }
  split.
  { intros Hd Hem. rewrite Hrun, Hd. simpl negb. cbv iota.
    destruct (String.eqb_spec (i_email inv) (toLowerCase (u_email usr))) as [E | E].
    - exfalso. apply Hem. rewrite E. apply toLowerCase_idem.
    - reflexivity. }
  split.
  { intros Hd Hem. rewrite Hrun, Hd. simpl negb. cbv iota.
    apply String.eqb_eq in Hem. rewrite Hem. simpl negb. cbv iota.
    eexists. eexists. reflexivity. }
  intros resp s' Hok. rewrite Hrun in Hok.
  destruct (String.eqb_spec derived "SENT") as [Hd | Hd]; simpl negb in Hok;
    cbv iota in Hok; [| discriminate].
  destruct (String.eqb_spec (i_email inv) (toLowerCase (u_email usr))) as [Hem | Hem];
    simpl negb in Hok; cbv iota in Hok; [| discriminate].
  injection Hok as <- <-.
  destruct Hframes as (Ften & Fset & Fmem & Finv & Fusr).
  destruct Hmm as (Mfind & Mrole & Mst & _ & _).
  assert (Ifind :
    findOne (Tenants.invitationByToken (t_id tenant) (inviteTokenOf req))
            (updateFirst (fun x => String.eqb (i_id x) (i_id inv))
                         (Tenants.markAccepted (callerId u) (now env)) (invitations s))
    = Some (Tenants.markAccepted (callerId u) (now env) inv)).
  { apply findOne_after_save; [exact Huniq | exact Hinv |].
    pose proof (findOne_In _ _ _ Hinv) as [_ Hp]. exact Hp. }
  split; [exact Hd |].
  split; [rewrite Hem; apply toLowerCase_idem |].
  split.
  { exists (fst mm). rewrite Fmem.
    split; [exact Mfind |]. split; [exact Mst |].
    split; [intros _; exact Mrole | reflexivity]. }
  split.
  { exists (Tenants.markAccepted (callerId u) (now env) inv).
    rewrite Finv. repeat split. exact Ifind. }
  intros env'.
  destruct Hctx as [Hu Hsub Hval Hten Husr].
  destruct (user_still_found (users s) (callerId u) usr _ Husr Fusr) as (usr' & Husr' & _).
  rewrite (joinTenantBySlug_invite_run env' req _ u tenant usr'
             (Tenants.markAccepted (callerId u) (now env) inv)).
  - reflexivity.
  - constructor; try assumption. now rewrite Ften.
  - intros e He. rewrite Fmem, Mfind in He. injection He as <-.
    rewrite Mst. discriminate.
  - exact Htok.
  - rewrite Finv. exact Ifind.
Qed.

Lemma accept_invitation_witness :
  (exists resp s',
    Tenants.joinTenantBySlug (H := Sample.hex24) Sample.env0
      (Sample.joinWithToken Sample.dave "tok-1") Sample.storeJoin = (Ok resp, s')
    /\ (exists m,
          findOne (membershipOf Sample.tenantA Sample.dave) (memberships s') = Some m
          /\ m_role m = MODERATOR /\ m_status m = ACTIVE)
    /\ Tenants.joinTenantBySlug (H := Sample.hex24) Sample.env0
         (Sample.joinWithToken Sample.dave "tok-1") s'
       = (Throw (ExnApp (mkAppError "Invitation is accepted" 400
                                    "INVITATION_INVALID")), s'))
  /\ Tenants.joinTenantBySlug (H := Sample.hex24) Sample.env0
       (Sample.joinWithToken Sample.dave "tok-1") Scenario.storeBanned
     = (Throw (ExnApp (mkAppError "You are banned from this community" 403
                                  "FORBIDDEN")), Scenario.storeBanned).
Proof.
  assert (Hctx : JoinContext (H := Sample.hex24)
                   (Sample.joinWithToken Sample.dave "tok-1") Sample.storeJoin
                   (mkJwtUser Sample.dave USER) Sample.acme
                   (mkUser Sample.dave "Dave@Example.com" "Dave" "3" USER)).
  { constructor; try reflexivity. discriminate. }
  assert (Hctxb : JoinContext (H := Sample.hex24)
                    (Sample.joinWithToken Sample.dave "tok-1") Scenario.storeBanned
                    (mkJwtUser Sample.dave USER) Sample.acme
                    (mkUser Sample.dave "Dave@Example.com" "Dave" "3" USER)).
  { constructor; try reflexivity. discriminate. }
  assert (Hnb : NotBanned Sample.storeJoin Sample.tenantA Sample.dave).
  { intros e He. injection He as <-. discriminate. }
  assert (Huniq : UniqueInvitationIds Sample.storeJoin).
  { repeat constructor; simpl; intuition discriminate. }
  assert (Huniqb : UniqueInvitationIds Scenario.storeBanned).
  { repeat constructor; simpl; intuition discriminate. }
  assert (Htok : inviteTokenOf (Sample.joinWithToken Sample.dave "tok-1") <> "")
    by discriminate.
  split.
  - destruct (proj2 (accept_invitation (H := Sample.hex24) Sample.env0
                (Sample.joinWithToken Sample.dave "tok-1") Sample.storeJoin
                (mkJwtUser Sample.dave USER) Sample.acme
                (mkUser Sample.dave "Dave@Example.com" "Dave" "3" USER)
                Sample.daveInvite Hctx Huniq Htok eq_refl) Hnb)
      as (_ & _ & Hsucc & Honly).
    destruct (Hsucc eq_refl eq_refl) as (resp & s' & Hrun).
    destruct (Honly resp s' Hrun) as (_ & _ & (m & Hm & Hs & Hr & _) & _ & Hagain).
    exists resp, s'. split; [exact Hrun |]. split.
    + exists m. split; [exact Hm |]. split; [| exact Hs].
      apply Hr. simpl. apply le_0_n.
    + exact (Hagain Sample.env0).
  - exact (proj1 (accept_invitation (H := Sample.hex24) Sample.env0
                    (Sample.joinWithToken Sample.dave "tok-1") Scenario.storeBanned
                    (mkJwtUser Sample.dave USER) Sample.acme
                    (mkUser Sample.dave "Dave@Example.com" "Dave" "3" USER)
                    Sample.daveInvite Hctxb Huniqb Htok eq_refl)
             Scenario.daveBannedA eq_refl eq_refl).
Defined.

(** * Direct joins *)

Lemma joinTenant_run `{Bson} (env : Env) (req : Request) (s : Store)
  (u : JwtUser) (tenant : Tenant) :
  user req = Some u -> isValid (sub u) = true ->
  isValid (routeParam (p_tenantId (params req))) = true ->
  findOne (fun t => String.eqb (t_id t) (pathTenantId req)) (tenants s)
  = Some tenant ->
  Tenants.joinTenant env req s
  = match findOne (membershipOf (t_id tenant) (callerId u)) (memberships s) with
    | Some e => (Ok (200, Tenants.mapMembership e), s)
    | None =>
        let created :=
          mkMembership (newObjectId env 0) (t_id tenant) (callerId u) MEMBER
            (Tenants.directJoinStatus
               (findOne (fun x => String.eqb (ts_tenantId x) (t_id tenant))
                        (tenantSettings s))) in
        (Ok (201, Tenants.mapMembership created),
         set_memberships (insertDoc created (memberships s)) s)
    end.
Proof.
  intros Hu Hv Hp Ht. unfold pathTenantId in Ht.
  unfold Tenants.joinTenant, Tenants.findTenantById, Tenants.findSettings,
    requireUser, newTypesObjectId, castObjectId.
  unfold bind, gets, ret, modify. rewrite Hp, Ht, Hu, Hv. fold (callerId u).
  destruct (findOne (membershipOf (t_id tenant) (callerId u)) (memberships s));
    reflexivity.
Qed.

(** The part of the join rule that [joinTenant] keeps: a first join
    creates a MEMBER, PENDING under an approval policy and ACTIVE without
    one; a repeated join returns the membership as it is and writes
    nothing. *)
Lemma joinTenant_policy `{Bson} (env : Env) (req : Request) (s : Store)
  (u : JwtUser) (tenant : Tenant) :
  user req = Some u -> isValid (sub u) = true ->
  isValid (routeParam (p_tenantId (params req))) = true ->
  findOne (fun t => String.eqb (t_id t) (pathTenantId req)) (tenants s)
  = Some tenant ->
  (forall e, findOne (membershipOf (t_id tenant) (callerId u)) (memberships s) = Some e ->
     Tenants.joinTenant env req s = (Ok (200, Tenants.mapMembership e), s))
  /\ (findOne (membershipOf (t_id tenant) (callerId u)) (memberships s) = None ->
      exists m s',
        Tenants.joinTenant env req s = (Ok (201, Tenants.mapMembership m), s')
        /\ findOne (membershipOf (t_id tenant) (callerId u)) (memberships s') = Some m
        /\ m_role m = MEMBER
        /\ (forall st, findOne (fun x => String.eqb (ts_tenantId x) (t_id tenant))
                               (tenantSettings s) = Some st ->
                       m_status m = if ts_approvalRequired st then PENDING else ACTIVE)
        /\ (findOne (fun x => String.eqb (ts_tenantId x) (t_id tenant))
                    (tenantSettings s) = None -> m_status m = ACTIVE)).
Proof.
  intros Hu Hv Hp Ht.
  pose proof (joinTenant_run env req s u tenant Hu Hv Hp Ht) as Hrun.
  split.
  - intros e He. now rewrite Hrun, He.
  - intros Hn. rewrite Hn in Hrun. cbv zeta in Hrun.
    eexists. eexists. split; [exact Hrun |].
    split.
    { simpl. apply findOne_insertDoc; [exact Hn |].
      apply membershipOf_true. now split. }
    split; [reflexivity |].
    split.
    + intros st ->. reflexivity.
    + intros ->. reflexivity.
Qed.

Lemma joinTenantBySlug_direct_run `{Bson} (env : Env) (req : Request) (s : Store)
  (u : JwtUser) (tenant : Tenant) (usr : User) :
  JoinContext req s u tenant usr ->
  NotBanned s (t_id tenant) (callerId u) ->
  inviteTokenOf req = "" ->
  Tenants.publicSignup
    (findOne (fun x => String.eqb (ts_tenantId x) (t_id tenant)) (tenantSettings s))
  = true ->
  trim (trim (b_fullName (body req))) <> "" ->
  trim (trim (b_phone (body req))) <> "" ->
  Tenants.joinTenantBySlug env req s
  = let policy :=
      Tenants.directJoinStatus
        (findOne (fun x => String.eqb (ts_tenantId x) (t_id tenant))
                 (tenantSettings s)) in
    let status :=
      match findOne (membershipOf (t_id tenant) (callerId u)) (memberships s) with
      | Some e => if MembershipStatus_eqb (m_status e) ACTIVE then ACTIVE else policy
      | None => policy
      end in
    let mm := upsert (membershipOf (t_id tenant) (callerId u))
                     (Tenants.setRoleStatus MEMBER status)
                     (mkMembership (newObjectId env 0) (t_id tenant) (callerId u)
                                   MEMBER status)
                     (memberships s) in
    (Ok (201, Tenants.mkJoinResponse
                (Tenants.mapMembership (fst mm))
                (Tenants.getMembershipRoute (t_slug tenant) (fst mm))
                (MembershipStatus_eqb (m_status (fst mm)) PENDING)),
     snd (Tenants.saveUserNames usr (trim (b_fullName (body req)))
                                (trim (b_phone (body req)))
       (snd (Tenants.upsertMemberProfile (t_id tenant) (callerId u)
               (trim (b_fullName (body req))) (trim (b_phone (body req)))
               (set_memberships (snd mm) s))))).
Proof.
  intros [Hu Hsub Hval Hten Husr] Hnb Htok Hpub Hname Hphone.
  unfold inviteTokenOf in *.
  unfold Tenants.joinTenantBySlug.
  rewrite Hu, (isEmpty_false _ Hsub).
  unfold bind at 1. unfold gets at 1. rewrite Hten.
  unfold bind at 1. unfold newTypesObjectId at 1. rewrite Hval. unfold ret at 1.
  fold (callerId u).
  unfold bind at 1. unfold Tenants.findSettings at 1. unfold gets at 1.
  unfold bind at 1. unfold gets at 1. rewrite Husr.
  unfold bind at 1. unfold gets at 1.
  rewrite (notBanned_test s _ _ Hnb).
  rewrite Htok. simpl isEmpty. simpl negb. cbv iota.
  rewrite Hpub. simpl negb. cbv iota.
  rewrite (bind_ok _ _ _ _ _ (ret_run _ _)). cbv beta iota.
  rewrite (isEmpty_false _ Hname), (isEmpty_false _ Hphone).
  rewrite (bind_ok _ _ _ _ _ (ret_run _ _)).
  rewrite (bind_ok _ _ _ _ _ (upsertMembership_run _ _ _ _ _ _)).
  rewrite (bind_ok _ _ _ _ _ (upsertMemberProfile_run _ _ _ _ _)).
  rewrite (bind_ok _ _ _ _ _ (saveUserNames_run _ _ _ _)).
  rewrite (bind_ok _ _ _ _ _ (ret_run _ _)).
  reflexivity.
Qed.

(** What a repeated direct join by slug does to a membership that exists:
    the role is set to MEMBER, and a status other than ACTIVE is replaced
    by the one the approval policy gives to a newcomer. *)
Lemma joinTenantBySlug_rejoin_overwrites `{Bson} (env : Env) (req : Request)
  (s : Store) (u : JwtUser) (tenant : Tenant) (usr : User) (e : Membership) :
  JoinContext req s u tenant usr ->
  NotBanned s (t_id tenant) (callerId u) ->
  inviteTokenOf req = "" ->
  Tenants.publicSignup
    (findOne (fun x => String.eqb (ts_tenantId x) (t_id tenant)) (tenantSettings s))
  = true ->
  trim (trim (b_fullName (body req))) <> "" ->
  trim (trim (b_phone (body req))) <> "" ->
  findOne (membershipOf (t_id tenant) (callerId u)) (memberships s) = Some e ->
  exists resp s',
    Tenants.joinTenantBySlug env req s = (Ok (201, resp), s')
    /\ findOne (membershipOf (t_id tenant) (callerId u)) (memberships s')
       = Some (Tenants.setRoleStatus MEMBER
                 (if MembershipStatus_eqb (m_status e) ACTIVE then ACTIVE
                  else Tenants.directJoinStatus
                         (findOne (fun x => String.eqb (ts_tenantId x) (t_id tenant))
                                  (tenantSettings s))) e)
    /\ Tenants.v_role (Tenants.jr_membership resp) = MEMBER.
Proof.
  intros Hctx Hnb Htok Hpub Hname Hphone He.
  rewrite (joinTenantBySlug_direct_run env req s u tenant usr
             Hctx Hnb Htok Hpub Hname Hphone).
  cbv zeta. rewrite He.
  eexists. eexists. split; [reflexivity |].
  match goal with
  | |- context [upsert ?p ?f ?d (memberships s)] =>
      pose proof (join_tail_direct_frames usr (t_id tenant) (callerId u)
                    (trim (b_fullName (body req))) (trim (b_phone (body req)))
                    (snd (upsert p f d (memberships s))) s) as Hfr;
      assert (Hup : upsert p f d (memberships s)
                    = (f e, updateFirst p f (memberships s)))
        by (unfold upsert; now rewrite He)
  end.
  cbv zeta in Hfr. destruct Hfr as (_ & _ & Fmem & _).
  rewrite Fmem, Hup. simpl fst. simpl snd.
  split; [| reflexivity].
  apply findOne_updateFirst; [exact He |].
  pose proof (findOne_In _ _ _ He) as [_ Hp].
  apply membershipOf_true in Hp. apply membershipOf_true. exact Hp.
Qed.

(** C7, at the input where the code departs from it.  Alice is an ACTIVE
    ADMIN of tenant A, whose signup is public.  She joins again by slug,
    without an invitation: the call answers 201 and her membership is
    stored, and returned, with role MEMBER. *)
Theorem repeat_join_by_slug_demotes_admin :
  findOne (membershipOf Sample.tenantA Sample.alice) (memberships Sample.storeA)
  = Some (mkMembership "m1" Sample.tenantA Sample.alice ADMIN ACTIVE)
  /\ exists resp s',
       Tenants.joinTenantBySlug (H := Sample.hex24) Sample.env0
         (Sample.joinDirect Sample.alice "Alice" "1") Sample.storeA
       = (Ok (201, resp), s')
       /\ findOne (membershipOf Sample.tenantA Sample.alice) (memberships s')
          = Some (mkMembership "m1" Sample.tenantA Sample.alice MEMBER ACTIVE)
       /\ Tenants.jr_membership resp
          = Tenants.mkMembershipView "m1" Sample.tenantA MEMBER ACTIVE.
Proof.
  split; [reflexivity |].
  vm_compute. eexists. eexists. repeat split.
Qed.

(** The sibling handler on the same input returns the membership as it
    is. *)
Lemma repeat_join_by_id_keeps_admin :
  Tenants.joinTenant (H := Sample.hex24) Sample.env0
    (Sample.onPathA_plain Sample.alice) Sample.storeA
  = (Ok (200, Tenants.mkMembershipView "m1" Sample.tenantA ADMIN ACTIVE),
     Sample.storeA).
Proof. reflexivity. Qed.

(** * One membership per (tenant, user) *)

Lemma upsert_keeps_unique (id t u : string) (r : TenantRole) (st : MembershipStatus)
  (l : list Membership) :
  NoDup (map memberKey l) ->
  NoDup (map memberKey
           (snd (upsert (membershipOf t u) (Tenants.setRoleStatus r st)
                        (mkMembership id t u r st) l))).
Proof.
  intros Hnd. unfold upsert.
  destruct (findOne (membershipOf t u) l) as [x|] eqn:E; simpl.
  - rewrite map_updateFirst; [exact Hnd | reflexivity].
  - unfold insertDoc. rewrite map_app. simpl.
    apply NoDup_app; [exact Hnd | repeat constructor; intros [] |].
    intros k Hin [<- | []].
    apply in_map_iff in Hin. destruct Hin as [m [Hk Hm]].
    pose proof (proj1 (findOne_None _ _) E m Hm) as Hp.
    assert (Hq : membershipOf t u m = true).
    { apply membershipOf_true. unfold memberKey in Hk. simpl in Hk.
      injection Hk as -> ->. now split. }
    congruence.
Qed.

Lemma step_keeps_unique (s s' : Store) :
  MembershipsStep s s' -> UniqueMemberships s -> UniqueMemberships s'.
Proof.
  unfold UniqueMemberships.
  intros [-> | (id & t & u & r & st & ->)] Hu.
  - exact Hu.
  - now apply upsert_keeps_unique.
Qed.

Lemma step_refl (s s' : Store) : memberships s' = memberships s -> MembershipsStep s s'.
Proof. intros E. now left. Qed.

Lemma step_upsert (s s' : Store) (id t u : string) (r : TenantRole)
  (st : MembershipStatus) :
  memberships s'
  = snd (upsert (membershipOf t u) (Tenants.setRoleStatus r st)
                (mkMembership id t u r st) (memberships s)) ->
  MembershipsStep s s'.
Proof. intros E. right. now exists id, t, u, r, st. Qed.

(** A create made after a lookup found nothing is the create branch of
    the update-or-create. *)
Lemma insert_after_miss (id t u : string) (r : TenantRole) (st : MembershipStatus)
  (l : list Membership) :
  findOne (membershipOf t u) l = None ->
  insertDoc (mkMembership id t u r st) l
  = snd (upsert (membershipOf t u) (Tenants.setRoleStatus r st)
                (mkMembership id t u r st) l).
Proof. intros E. unfold upsert. now rewrite E. Qed.

Lemma joinTenant_step `{Bson} (env : Env) (req : Request) (s : Store) :
  MembershipsStep s (snd (Tenants.joinTenant env req s)).
Proof.
  unfold Tenants.joinTenant, Tenants.findTenantById, Tenants.findSettings,
    requireUser, newTypesObjectId, castObjectId, throwApp, throw, bind, gets, ret,
    modify.
  destruct (isValid (routeParam _)); [| now apply step_refl].
  destruct (findOne _ (tenants s)) as [tenant|]; [| now apply step_refl].
  destruct (user req) as [u|]; [| now apply step_refl].
  destruct (isValid (sub u)); [| now apply step_refl].
  fold (callerId u).
  destruct (findOne (membershipOf (t_id tenant) (callerId u)) (memberships s)) eqn:E;
    [now apply step_refl |].
  simpl. eapply step_upsert. simpl. now apply insert_after_miss.
Qed.

Lemma joinTenantBySlug_step `{Bson} (env : Env) (req : Request) (s : Store) :
  MembershipsStep s (snd (Tenants.joinTenantBySlug env req s)).
Proof.
  unfold Tenants.joinTenantBySlug.
  destruct (user req) as [u|]; [| now apply step_refl].
  destruct (isEmpty (sub u)); [now apply step_refl |].
  cbv zeta.
  unfold bind at 1. unfold gets at 1.
  destruct (findOne _ (tenants s)) as [tenant|]; [| now apply step_refl].
  unfold bind at 1. unfold newTypesObjectId at 1.
  destruct (isValid (sub u)); [| now apply step_refl].
  unfold ret at 1.
  unfold bind at 1. unfold Tenants.findSettings at 1. unfold gets at 1.
  unfold bind at 1. unfold gets at 1.
  unfold bind at 1. unfold gets at 1.
  destruct (findOne _ (users s)) as [usr|]; [| now apply step_refl].
  match goal with
  | |- context [if ?b then throwApp "You are banned from this community" _ _ else _] =>
      destruct b
  end; [now apply step_refl |].
  unfold bind at 1.
  match goal with
  | |- context [match ?c s with _ => _ end] =>
      assert (Hpure : snd (c s) = s);
      [| destruct (c s) as [[[[inviteRow role] status] | e] s1]; simpl in Hpure; subst s1;
         [| now apply step_refl]]
  end.
  { destruct (negb (isEmpty (trim (b_inviteToken (body req))))).
    - unfold bind, gets.
      destruct (findOne _ (invitations s)) as [inv|]; [| reflexivity].
      destruct (negb (String.eqb _ "SENT")); [reflexivity |].
      destruct (negb (String.eqb _ _)); reflexivity.
    - destruct (negb _); reflexivity. }
  unfold bind at 1.
  match goal with
  | |- context [match ?c s with _ => _ end] =>
      assert (Hpure : snd (c s) = s);
      [| destruct (c s) as [[[] | e] s1]; simpl in Hpure; subst s1;
         [| now apply step_refl]]
  end.
  { destruct inviteRow; [reflexivity |].
    destruct (isEmpty _); [reflexivity |].
    destruct (isEmpty _); reflexivity. }
  rewrite (bind_ok _ _ _ _ _ (upsertMembership_run _ _ _ _ _ _)).
  rewrite (bind_ok _ _ _ _ _ (upsertMemberProfile_run _ _ _ _ _)).
  rewrite (bind_ok _ _ _ _ _ (saveUserNames_run _ _ _ _)).
  destruct inviteRow as [inv|].
  - rewrite (bind_ok _ _ _ _ _ (saveInvitation_run _ _ _)).
    unfold ret. simpl snd at 1.
    eapply step_upsert.
    match goal with
    | |- context [set_memberships ?ms s] =>
        exact (proj1 (proj2 (proj2 (join_tail_frames usr (t_id tenant) (callerId u)
                 (trim (b_fullName (body req))) (trim (b_phone (body req)))
                 (i_id inv) (Tenants.markAccepted (callerId u) (now env)) ms s))))
    end.
  - rewrite (bind_ok _ _ _ _ _ (ret_run _ _)).
    unfold ret. simpl snd at 1.
    eapply step_upsert.
    match goal with
    | |- context [set_memberships ?ms s] =>
        exact (proj1 (proj2 (proj2 (join_tail_direct_frames usr (t_id tenant) (callerId u)
                 (trim (b_fullName (body req))) (trim (b_phone (body req)))
                 ms s))))
    end.
Qed.

Lemma resolveTenant_frames `{Bson} (env : Env) (req : Request) (userId : string)
  (s : Store) :
  memberships (snd (Admin.resolveTenant env req userId s)) = memberships s.
Proof.
  unfold Admin.resolveTenant, Tenants.findTenantById, castObjectId, throwApp, throw,
    bind, gets, ret, modify.
  destruct (negb (isEmpty (trim (b_existingTenantId (body req))))).
  - destruct (isValid _); [| reflexivity]. cbv beta iota delta [negb].
    destruct (findOne _ (tenants s)); reflexivity.
  - destruct (isEmpty _ || isEmpty _); [reflexivity |].
    destruct (findOne _ (tenants s)); reflexivity.
Qed.

Lemma promoteUserToTenant_step `{Bson} (env : Env) (req : Request) (s : Store) :
  MembershipsStep s (snd (Admin.promoteUserToTenant env req s)).
Proof.
  unfold Admin.promoteUserToTenant.
  destruct (negb (isValid _)); [now apply step_refl |].
  unfold bind at 1. unfold gets at 1.
  destruct (findOne _ (users s)) as [usr|]; [| now apply step_refl].
  unfold bind at 1.
  pose proof (resolveTenant_frames env req (pathUserId req) s) as Hfr.
  unfold pathUserId in Hfr.
  destruct (Admin.resolveTenant env req (hexOf (routeParam (p_userId (params req)))) s)
    as [[[tenant created] | e] s1]; simpl in Hfr.
  - rewrite (bind_ok _ _ _ _ _ (upsertMembership_run _ _ _ _ _ _)).
    unfold ret. simpl. rewrite Hfr. eapply step_upsert. reflexivity.
  - now apply step_refl.
Qed.

(** C9.  Each of the three operations that write memberships (the direct
    join, the join by slug with or without an invitation, the super-admin
    promotion) leaves the memberships as they were or applies to them
    one update-or-create keyed on (tenantId, userId), the create of the
    direct join being made only after the lookup on that key found
    nothing; so a store with at most one membership per (tenant, user)
    pair is one after the call, whatever the call returns. *)
Theorem membership_writers_keep_one_per_pair `{Bson} (env : Env) (req : Request)
  (s : Store) :
  UniqueMemberships s ->
  (MembershipsStep s (snd (Tenants.joinTenant env req s))
   /\ UniqueMemberships (snd (Tenants.joinTenant env req s)))
  /\ (MembershipsStep s (snd (Tenants.joinTenantBySlug env req s))
      /\ UniqueMemberships (snd (Tenants.joinTenantBySlug env req s)))
  /\ (MembershipsStep s (snd (Admin.promoteUserToTenant env req s))
      /\ UniqueMemberships (snd (Admin.promoteUserToTenant env req s))).
Proof.
  intros Hu.
  pose proof (joinTenant_step env req s) as H1.
  pose proof (joinTenantBySlug_step env req s) as H2.
  pose proof (promoteUserToTenant_step env req s) as H3.
  repeat split; try assumption; eapply step_keeps_unique; eassumption.
Qed.

Lemma membership_writers_keep_one_per_pair_witness :
  UniqueMemberships
    (snd (Tenants.joinTenant (H := Sample.hex24) Sample.env0
            (Sample.onPathA_plain Sample.dave) Sample.storeA))
  /\ UniqueMemberships
       (snd (Tenants.joinTenantBySlug (H := Sample.hex24) Sample.env0
               (Sample.joinWithToken Sample.dave "tok-1") Sample.storeJoin))
  /\ UniqueMemberships
       (snd (Admin.promoteUserToTenant (H := Sample.hex24) Sample.env0
               (Sample.promote Sample.bob "Beta Club" " Beta  Club! ")
               Sample.storeA)).
Proof.
  assert (HA : UniqueMemberships Sample.storeA).
  { repeat constructor; simpl; intuition discriminate. }
  assert (HJ : UniqueMemberships Sample.storeJoin).
  { repeat constructor; simpl; intuition discriminate. }
  split; [| split].
  - exact (proj2 (proj1 (membership_writers_keep_one_per_pair (H := Sample.hex24)
             Sample.env0 (Sample.onPathA_plain Sample.dave) Sample.storeA HA))).
  - exact (proj2 (proj1 (proj2 (membership_writers_keep_one_per_pair
             (H := Sample.hex24) Sample.env0
             (Sample.joinWithToken Sample.dave "tok-1") Sample.storeJoin HJ)))).
  - exact (proj2 (proj2 (proj2 (membership_writers_keep_one_per_pair
             (H := Sample.hex24) Sample.env0
             (Sample.promote Sample.bob "Beta Club" " Beta  Club! ")
             Sample.storeA HA)))).
Defined.

(** The promotion of the example creates tenant [beta-club] and makes Bob
    its ACTIVE OWNER; Bob's PENDING membership in tenant A is untouched. *)
Lemma promote_example :
  exists resp s',
    Admin.promoteUserToTenant (H := Sample.hex24) Sample.env0
      (Sample.promote Sample.bob "Beta Club" " Beta  Club! ") Sample.storeA
    = (Ok (200, resp), s')
    /\ Admin.pr_tenantSlug resp = "beta-club"
    /\ Admin.pr_createdTenant resp = true
    /\ memberships s'
       = [Sample.aliceAdminA; Sample.bobPendingA;
          mkMembership "0000000000000000000000c1" "0000000000000000000000c0"
                       Sample.bob OWNER ACTIVE].
Proof.
  vm_compute. eexists. eexists. repeat split.
Qed.

(** * Creating an invitation *)

Lemma outstandingFor_true (t e : string) (n : Z) (i : Invitation) :
  TenantFeatures.outstandingFor t e n i = true
  <-> i_tenantId i = t /\ i_email i = e
      /\ (i_status i = "SENT" \/ i_status i = "PENDING") /\ n <= i_expiresAt i.
Proof.
  unfold TenantFeatures.outstandingFor.
  rewrite !andb_true_iff, orb_true_iff, !String.eqb_eq, Z.leb_le. tauto.
Qed.

Lemma outstanding_is_derived_sent (i : Invitation) (n : Z) :
  KnownStatus i ->
  ((i_status i = "SENT" \/ i_status i = "PENDING") /\ n <= i_expiresAt i
   <-> normalizeInvitationStatus (i_status i) (i_expiresAt i) n = "SENT").
Proof.
  unfold KnownStatus. intros Hk. rewrite derived_sent_iff. simpl in Hk.
  destruct Hk as [E | [E | [E | [E | []]]]]; rewrite <- E.
  - split; [intros [_ Hn] | intros (_ & _ & Hn)]; repeat split;
      try discriminate; auto.
  - split; [intros [_ Hn] | intros (_ & _ & Hn)]; repeat split;
      try discriminate; auto.
  - split; [intros [[Hx | Hx] _]; discriminate | intros (_ & Ha & _); congruence].
  - split; [intros [[Hx | Hx] _]; discriminate | intros (Hr & _ & _); congruence].
Qed.

Lemma createInvitation_run `{Bson} (env : Env) (req : Request) (s : Store) :
  isValid (routeParam (p_tenantId (params req))) = true ->
  TenantFeatures.createInvitation env req s
  = match findOne (TenantFeatures.outstandingFor (pathTenantId req) (emailOf req)
                                                 (now env))
                  (invitations s) with
    | Some _ => (Throw invitationExists, s)
    | None =>
        match user req with
        | None => (Throw (ExnOther "TypeError"), s)
        | Some u =>
            if negb (isValid (sub u)) then
              (Throw (ExnApp (mkAppError "Invalid tenantId" 400 "VALIDATION_ERROR")), s)
            else
              let row :=
                mkInvitation (newObjectId env 0) (pathTenantId req) (emailOf req)
                  (trim (b_phone (body req)))
                  (match b_role (body req) with Some r => r | None => MEMBER end)
                  "SENT" (randomUUID env)
                  (now env + TenantFeatures.clampedTtl (body req) * dayMs)
                  (callerId u) None None None None in
              (Ok (201, withDerivedStatus (now env) row),
               set_invitations (insertDoc row (invitations s)) s)
        end
    end.
Proof.
  intros Hp.
  unfold TenantFeatures.createInvitation.
  rewrite (bind_ok _ _ _ _ _ (castObjectId_ok _ s Hp)).
  unfold TenantFeatures.tenantObjectId, requireUser, pathTenantId, callerId,
    emailOf, throwApp, throw, bind, gets, ret, modify.
  destruct (findOne _ (invitations s)); [reflexivity |].
  destruct (user req) as [u|]; [| reflexivity].
  destruct (negb (isValid (sub u))); reflexivity.
Qed.

(** X25.  What [createInvitation] does on a path whose tenant id is an
    ObjectId string.  It throws the 409 INVITATION_EXISTS exactly when
    the tenant already has an invitation for the same lower-cased, trimmed
    email whose stored status is SENT or PENDING and whose expiry is not
    before now; for invitations with a stored status among SENT, PENDING,
    ACCEPTED, REVOKED that is: whose derived status is SENT.  Without such
    an invitation, a caller with a well-formed id gets a 201.  On success
    the stored invitation is SENT and expires [clampedTtl] days from now, a
    number in [1, 30]: the requested number clamped to that interval when
    one is requested and is not 0. *)
Theorem createInvitation_conflict_and_ttl `{Bson} (env : Env) (req : Request)
  (s : Store) :
  isValid (routeParam (p_tenantId (params req))) = true ->
  (fst (TenantFeatures.createInvitation env req s) = Throw invitationExists
   <-> exists i, In i (invitations s)
         /\ i_tenantId i = pathTenantId req
         /\ i_email i = emailOf req
         /\ (i_status i = "SENT" \/ i_status i = "PENDING")
         /\ now env <= i_expiresAt i)
  /\ (Forall KnownStatus (invitations s) ->
      (fst (TenantFeatures.createInvitation env req s) = Throw invitationExists
       <-> exists i, In i (invitations s)
             /\ i_tenantId i = pathTenantId req
             /\ i_email i = emailOf req
             /\ normalizeInvitationStatus (i_status i) (i_expiresAt i) (now env)
                = "SENT"))
  /\ (forall u, user req = Some u -> isValid (sub u) = true ->
      fst (TenantFeatures.createInvitation env req s) <> Throw invitationExists ->
      exists inv s', TenantFeatures.createInvitation env req s = (Ok (201, inv), s'))
  /\ (forall resp s',
        TenantFeatures.createInvitation env req s = (Ok resp, s') ->
        exists row,
          invitations s' = (invitations s ++ [row])%list
          /\ snd resp = withDerivedStatus (now env) row
          /\ i_status row = "SENT"
          /\ i_tenantId row = pathTenantId req
          /\ i_email row = emailOf req
          /\ i_expiresAt row = now env + TenantFeatures.clampedTtl (body req) * dayMs
          /\ 1 <= TenantFeatures.clampedTtl (body req) <= 30
          /\ (forall d, b_expiresInDays (body req) = Some d -> d <> 0 ->
                TenantFeatures.clampedTtl (body req) = Z.max 1 (Z.min 30 d))).
Proof.
  intros Hp.
  pose proof (createInvitation_run env req s Hp) as Hrun.
  assert (Hconf :
    fst (TenantFeatures.createInvitation env req s) = Throw invitationExists
    <-> exists i, findOne (TenantFeatures.outstandingFor (pathTenantId req)
                             (emailOf req) (now env)) (invitations s) = Some i).
  { rewrite Hrun.
    destruct (findOne _ (invitations s)) as [i|].
    - split; [intros _; now exists i | reflexivity].
    - split; [| intros [i Hi]; discriminate].
      destruct (user req) as [u|]; [destruct (negb (isValid (sub u))) |];
        simpl; intros Hx; discriminate. }
  assert (Hex :
    (exists i, findOne (TenantFeatures.outstandingFor (pathTenantId req)
                          (emailOf req) (now env)) (invitations s) = Some i)
    <-> exists i, In i (invitations s)
          /\ i_tenantId i = pathTenantId req
          /\ i_email i = emailOf req
          /\ (i_status i = "SENT" \/ i_status i = "PENDING")
          /\ now env <= i_expiresAt i).
  { split.
    - intros [i Hi]. apply findOne_In in Hi. destruct Hi as [Hin Hq].
      apply outstandingFor_true in Hq. exists i. tauto.
    - intros (i & Hin & Ht & He & Hs & Hn).
      apply (findOne_some_of_In _ _ i Hin).
      apply outstandingFor_true. tauto. }
  split; [now rewrite Hconf, Hex |].
  split.
  { intros Hknown. rewrite Hconf, Hex.
    rewrite Forall_forall in Hknown.
    split; intros (i & Hin & Ht & He & Hrest); exists i;
      (split; [exact Hin |]); (split; [exact Ht |]); (split; [exact He |]).
    - apply (outstanding_is_derived_sent i (now env) (Hknown i Hin)). exact Hrest.
    - apply (outstanding_is_derived_sent i (now env) (Hknown i Hin)). exact Hrest. }
  split.
  { intros u Hu Hv Hnc. rewrite Hrun in *. rewrite Hu, Hv in *. simpl negb in *.
    destruct (findOne _ (invitations s)).
    - exfalso. now apply Hnc.
    - cbv iota zeta. eexists. eexists. reflexivity. }
  intros resp s' Hok. rewrite Hrun in Hok.
  destruct (findOne _ (invitations s)); [discriminate |].
  destruct (user req) as [u|]; [| discriminate].
  destruct (negb (isValid (sub u))); [discriminate |].
  cbv zeta in Hok. injection Hok as <- <-.
  eexists.
  split; [reflexivity |].
  split; [reflexivity |].
  split; [reflexivity |].
  split; [reflexivity |].
  split; [reflexivity |].
  split; [reflexivity |].
  unfold TenantFeatures.clampedTtl, TenantFeatures.ttlDays.
  split; [lia |].
  intros d -> Hd. apply Z.eqb_neq in Hd. now rewrite Hd.
Qed.

Lemma createInvitation_conflict_and_ttl_witness :
  (exists inv s',
     TenantFeatures.createInvitation (H := Sample.hex24) Sample.env0
       (Sample.invite "Carol@Example.com " (Some 45)) Sample.storeJoin
     = (Ok (201, inv), s')
     /\ i_email inv = "carol@example.com"
     /\ i_expiresAt inv = now Sample.env0 + 30 * dayMs)
  /\ fst (TenantFeatures.createInvitation (H := Sample.hex24) Sample.env0
            (Sample.invite " DAVE@example.com" None) Sample.storeJoin)
     = Throw invitationExists.
Proof.
  destruct (createInvitation_conflict_and_ttl (H := Sample.hex24) Sample.env0
              (Sample.invite "Carol@Example.com " (Some 45)) Sample.storeJoin eq_refl)
    as (_ & _ & Hsucc & Hshape).
  destruct (createInvitation_conflict_and_ttl (H := Sample.hex24) Sample.env0
              (Sample.invite " DAVE@example.com" None) Sample.storeJoin eq_refl)
    as (_ & Hderived & _).
  split.
  - destruct (Hsucc (mkJwtUser Sample.alice USER) eq_refl eq_refl)
      as (inv & s' & Hrun); [discriminate |].
    destruct (Hshape (201, inv) s' Hrun)
      as (row & _ & Hresp & _ & _ & Hem & Hexp & _ & Hreq).
    exists inv, s'. split; [exact Hrun |].
    simpl in Hresp. subst inv. simpl. split; [exact Hem |].
    rewrite Hexp, (Hreq 45 eq_refl); [reflexivity | discriminate].
  - apply Hderived.
    + repeat constructor; unfold KnownStatus; simpl; tauto.
    + exists Sample.daveInvite. split; [right; left; reflexivity |].
      repeat split.
Defined.

(** [inviteMember] makes no conflict check: the only application error it
    throws is the 404 of an unknown tenant. *)
Lemma inviteMember_never_conflicts `{Bson} (env : Env) (req : Request) (s : Store)
  (e : AppError) :
  fst (Tenants.inviteMember env req s) = Throw (ExnApp e) -> statusCode e = 404.
Proof.
  unfold Tenants.inviteMember, Tenants.findTenantById, castObjectId, requireUser,
    newTypesObjectId, throwApp, throw, bind, gets, ret, modify.
  destruct (isValid (routeParam _)); simpl; [| discriminate].
  destruct (findOne _ (tenants s)); simpl.
  - destruct (user req) as [u|]; simpl; [| discriminate].
    destruct (isValid (sub u)); simpl; discriminate.
  - intros E. injection E as <-. reflexivity.
Qed.

(** C6, at the inputs where the code departs from it.  Tenant A holds an
    invitation for dave@example.com that is stored SENT and has not
    expired: its derived status is SENT.  Alice, an ACTIVE ADMIN of tenant
    A, invites the same address again.  [inviteMember] answers 201 and the
    tenant then holds two outstanding invitations for the address, where
    the claim asks for the 409; [createInvitation] on the same request
    answers the 409.  [inviteMember] gives 7 days to a request for 3 days;
    and [createInvitation] gives 7 days, not 1, to a request for 0
    days. *)
Theorem inviteMember_duplicates_outstanding :
  (findOne (TenantFeatures.outstandingFor Sample.tenantA "dave@example.com"
                                          (now Sample.env0))
           (invitations Sample.storeJoin) = Some Sample.daveInvite
   /\ normalizeInvitationStatus (i_status Sample.daveInvite)
        (i_expiresAt Sample.daveInvite) (now Sample.env0) = "SENT"
   /\ requireTenantRole (H := Sample.hex24) [OWNER; ADMIN]
        (Sample.invite " Dave@Example.com" None) Sample.storeJoin
      = (Ok Next, Sample.storeJoin))
  /\ (exists view s',
        Tenants.inviteMember (H := Sample.hex24) Sample.env0
          (Sample.invite " Dave@Example.com" None) Sample.storeJoin
        = (Ok (201, view), s')
        /\ Tenants.iv_email view = "dave@example.com"
        /\ Tenants.iv_status view = "SENT"
        /\ filter (TenantFeatures.outstandingFor Sample.tenantA "dave@example.com"
                                                 (now Sample.env0))
                  (invitations s')
           = [Sample.daveInvite;
              mkInvitation "0000000000000000000000c0" Sample.tenantA
                "dave@example.com" "" MODERATOR "SENT" "uuid-1"
                (now Sample.env0 + 7 * dayMs) Sample.alice None None None None])
  /\ TenantFeatures.createInvitation (H := Sample.hex24) Sample.env0
       (Sample.invite " Dave@Example.com" None) Sample.storeJoin
     = (Throw invitationExists, Sample.storeJoin)
  /\ (exists view s',
        Tenants.inviteMember (H := Sample.hex24) Sample.env0
          (Sample.invite "carol@example.com" (Some 3)) Sample.storeJoin
        = (Ok (201, view), s')
        /\ Tenants.iv_expiresAt view = now Sample.env0 + 7 * dayMs)
  /\ (exists inv s',
        TenantFeatures.createInvitation (H := Sample.hex24) Sample.env0
          (Sample.invite "carol@example.com" (Some 0)) Sample.storeJoin
        = (Ok (201, inv), s')
        /\ i_expiresAt inv = now Sample.env0 + 7 * dayMs
        /\ i_expiresAt inv <> now Sample.env0 + Z.max 1 (Z.min 30 0) * dayMs).
Proof.
  split; [repeat split |].
  split; [vm_compute; eexists; eexists; repeat split |].
  split; [reflexivity |].
  split; [vm_compute; eexists; eexists; repeat split |].
  vm_compute. eexists. eexists. split; [reflexivity |]. split; [reflexivity |].
  discriminate.
Qed.

(** The same handler lets a suspended member lift the suspension: Bob, a
    SUSPENDED MODERATOR of tenant B, joins again and is an ACTIVE
    MEMBER. *)
Lemma repeat_join_by_slug_lifts_suspension :
  exists resp s',
    Tenants.joinTenantBySlug (H := Sample.hex24) Sample.env0
      (Sample.joinDirectBeta Sample.bob "Bob" "2") Sample.storeB
    = (Ok (201, resp), s')
    /\ memberships s' = [mkMembership "m4" Sample.tenantB Sample.bob MEMBER ACTIVE].
Proof.
  vm_compute. eexists. eexists. repeat split.
Qed.

(** * Further properties of the controllers *)

(** ** Slugs *)

Lemma isSlugChar_dash : Admin.isSlugChar Admin.dash = true.
Proof. reflexivity. Qed.

Lemma allSlugChars_dashOthers (s : string) :
  allSlugChars (Admin.dashOthers s) = true.
Proof.
  induction s as [|c r IH]; simpl; [reflexivity |].
  rewrite IH, andb_true_r.
  destruct (Admin.isSlugChar c) eqn:E; [exact E | reflexivity].
Qed.

Lemma allSlugChars_collapse (s : string) :
  allSlugChars s = true -> allSlugChars (Admin.collapseDashes s) = true.
Proof.
  induction s as [|c r IH]; simpl; [reflexivity |].
  intros H. apply andb_true_iff in H. destruct H as [Hc Hr].
  specialize (IH Hr).
  destruct (Ascii.eqb c Admin.dash).
  - destruct (Admin.collapseDashes r) as [|d r']; simpl in *.
    + now rewrite Hc.
    + destruct (Ascii.eqb d Admin.dash); simpl; [exact IH | now rewrite Hc].
  - simpl. now rewrite Hc.
Qed.

Lemma hasDoubleDash_cons (c d : ascii) (r : string) :
  hasDoubleDash (String c (String d r))
  = (Ascii.eqb c Admin.dash && Ascii.eqb d Admin.dash) || hasDoubleDash (String d r).
Proof. reflexivity. Qed.

Lemma noDouble_collapse (s : string) :
  hasDoubleDash (Admin.collapseDashes s) = false.
Proof.
  induction s as [|c r IH]; simpl; [reflexivity |].
  destruct (Ascii.eqb c Admin.dash) eqn:Ec.
  - destruct (Admin.collapseDashes r) as [|d r'] eqn:Er; [reflexivity |].
    destruct (Ascii.eqb d Admin.dash) eqn:Ed; [exact IH |].
    rewrite hasDoubleDash_cons, Ed, andb_false_r. exact IH.
  - destruct (Admin.collapseDashes r) as [|d r'] eqn:Er; [reflexivity |].
    rewrite hasDoubleDash_cons, Ec. exact IH.
Qed.

Lemma allSlugChars_dropLast (s : string) :
  allSlugChars s = true -> allSlugChars (Admin.dropLastDash s) = true.
Proof.
  induction s as [|c r IH]; simpl; [reflexivity |].
  intros H. apply andb_true_iff in H. destruct H as [Hc Hr].
  destruct r as [|d r'].
  - destruct (Ascii.eqb c Admin.dash); simpl; [reflexivity | now rewrite Hc].
  - change (allSlugChars (String c (Admin.dropLastDash (String d r'))) = true).
    simpl allSlugChars at 1. rewrite Hc. simpl. now apply IH.
Qed.

Lemma noDouble_tail (c : ascii) (r : string) :
  hasDoubleDash (String c r) = false -> hasDoubleDash r = false.
Proof.
  destruct r as [|d r']; [reflexivity |].
  rewrite hasDoubleDash_cons. intros H. apply orb_false_iff in H. exact (proj2 H).
Qed.

Lemma dropLast_cons (c d : ascii) (r : string) :
  Admin.dropLastDash (String c (String d r))
  = String c (Admin.dropLastDash (String d r)).
Proof. reflexivity. Qed.

Lemma dropLast_head (d : ascii) (r : string) :
  (Admin.dropLastDash (String d r) = EmptyString /\ Ascii.eqb d Admin.dash = true)
  \/ exists r'', Admin.dropLastDash (String d r) = String d r''.
Proof.
  destruct r as [|f r3].
  - simpl. destruct (Ascii.eqb d Admin.dash); [now left | right; now exists EmptyString].
  - right. rewrite dropLast_cons. now eexists.
Qed.

Lemma dropLast_shape (s : string) :
  hasDoubleDash s = false ->
  hasDoubleDash (Admin.dropLastDash s) = false
  /\ endsWithDash (Admin.dropLastDash s) = false
  /\ (startsWithDash s = false -> startsWithDash (Admin.dropLastDash s) = false).
Proof.
  induction s as [|c r IH]; [now repeat split |].
  intros Hnd.
  destruct r as [|d r'].
  - simpl. destruct (Ascii.eqb c Admin.dash) eqn:Ec; simpl; rewrite ?Ec; now repeat split.
  - pose proof (noDouble_tail c (String d r') Hnd) as Hr.
    destruct (IH Hr) as (H1 & H2 & H3).
    rewrite dropLast_cons.
    rewrite hasDoubleDash_cons in Hnd. apply orb_false_iff in Hnd.
    destruct Hnd as [Hcd _].
    destruct (dropLast_head d r') as [[E Hd] | [r'' E]]; rewrite E in *.
    + rewrite Hd, andb_true_r in Hcd.
      simpl. rewrite Hcd. now repeat split.
    + split; [| split].
      * rewrite hasDoubleDash_cons, Hcd. exact H1.
      * destruct r''; exact H2.
      * simpl. tauto.
Qed.

Lemma stripEdgeDashes_shape (t : string) :
  allSlugChars t = true -> hasDoubleDash t = false ->
  allSlugChars (Admin.stripEdgeDashes t) = true
  /\ hasDoubleDash (Admin.stripEdgeDashes t) = false
  /\ startsWithDash (Admin.stripEdgeDashes t) = false
  /\ endsWithDash (Admin.stripEdgeDashes t) = false.
Proof.
  intros Ha Hd. unfold Admin.stripEdgeDashes.
  destruct t as [|c r]; [now repeat split |].
  destruct (Ascii.eqb c Admin.dash) eqn:Ec.
  - (* a leading dash is dropped; what follows is not a dash *)
    pose proof (noDouble_tail c r Hd) as Hr.
    destruct (dropLast_shape r Hr) as (H1 & H2 & H3).
    simpl in Ha. apply andb_true_iff in Ha.
    split; [apply allSlugChars_dropLast; tauto |].
    split; [exact H1 |]. split; [| exact H2].
    apply H3. destruct r as [|d r']; [reflexivity |].
    rewrite hasDoubleDash_cons, Ec in Hd. simpl andb in Hd.
    apply orb_false_iff in Hd. simpl. tauto.
  - destruct (dropLast_shape (String c r) Hd) as (H1 & H2 & H3).
    split; [now apply allSlugChars_dropLast |].
    split; [exact H1 |]. split; [| exact H2].
    apply H3. simpl. exact Ec.
Qed.

(** X1.  Whatever the input, a normalized slug is made of lower-case
    letters, digits and dashes only, has no two dashes in a row, and
    neither starts nor ends with a dash. *)
Theorem normalizeSlug_shape (input : string) :
  allSlugChars (Admin.normalizeSlug input) = true
  /\ hasDoubleDash (Admin.normalizeSlug input) = false
  /\ startsWithDash (Admin.normalizeSlug input) = false
  /\ endsWithDash (Admin.normalizeSlug input) = false.
Proof.
  unfold Admin.normalizeSlug.
  apply stripEdgeDashes_shape.
  - apply allSlugChars_collapse, allSlugChars_dashOthers.
  - apply noDouble_collapse.
Qed.

Lemma slugChar_not_white (c : ascii) : Admin.isSlugChar c = true -> isWhite c = false.
Proof.
  destruct c as [[] [] [] [] [] [] [] []]; simpl; intros H;
    first [reflexivity | discriminate H].
Qed.

Lemma slugChar_lower (c : ascii) : Admin.isSlugChar c = true -> lowerChar c = c.
Proof.
  destruct c as [[] [] [] [] [] [] [] []]; simpl; intros H;
    first [reflexivity | discriminate H].
Qed.

Lemma slug_trimEnd (t : string) : allSlugChars t = true -> trimEnd t = t.
Proof.
  induction t as [|c r IH]; simpl; [reflexivity |].
  intros H. apply andb_true_iff in H. destruct H as [Hc Hr].
  rewrite (IH Hr). destruct r; [| reflexivity].
  now rewrite (slugChar_not_white c Hc).
Qed.

Lemma slug_trim (t : string) : allSlugChars t = true -> trim t = t.
Proof.
  intros H. unfold trim.
  assert (E : trimStart t = t).
  { destruct t as [|c r]; [reflexivity |]. simpl in *.
    apply andb_true_iff in H. now rewrite (slugChar_not_white c (proj1 H)). }
  rewrite E. now apply slug_trimEnd.
Qed.

Lemma slug_toLowerCase (t : string) : allSlugChars t = true -> toLowerCase t = t.
Proof.
  induction t as [|c r IH]; simpl; [reflexivity |].
  intros H. apply andb_true_iff in H. destruct H as [Hc Hr].
  now rewrite (slugChar_lower c Hc), (IH Hr).
Qed.

Lemma slug_dashOthers (t : string) : allSlugChars t = true -> Admin.dashOthers t = t.
Proof.
  induction t as [|c r IH]; simpl; [reflexivity |].
  intros H. apply andb_true_iff in H. destruct H as [Hc Hr].
  now rewrite Hc, (IH Hr).
Qed.

Lemma noDouble_collapse_id (t : string) :
  hasDoubleDash t = false -> Admin.collapseDashes t = t.
Proof.
  induction t as [|c r IH]; [reflexivity |].
  intros H. pose proof (noDouble_tail c r H) as Hr.
  simpl. rewrite (IH Hr).
  destruct (Ascii.eqb c Admin.dash) eqn:Ec; [| reflexivity].
  destruct r as [|d r']; [reflexivity |].
  rewrite hasDoubleDash_cons, Ec in H. simpl andb in H.
  apply orb_false_iff in H. destruct H as [Hd _]. now rewrite Hd.
Qed.

Lemma noEnd_dropLast_id (t : string) :
  endsWithDash t = false -> Admin.dropLastDash t = t.
Proof.
  induction t as [|c r IH]; [reflexivity |].
  destruct r as [|d r'].
  - simpl. now intros ->.
  - intros H. rewrite dropLast_cons. f_equal. apply IH. exact H.
Qed.

(** X2.  A string that has the shape of a slug is left as it is by
    [normalizeSlug]; so normalizing twice is normalizing once. *)
Theorem normalizeSlug_fixes_slugs (input : string) :
  (allSlugChars input = true -> hasDoubleDash input = false ->
   startsWithDash input = false -> endsWithDash input = false ->
   Admin.normalizeSlug input = input)
  /\ Admin.normalizeSlug (Admin.normalizeSlug input) = Admin.normalizeSlug input.
Proof.
  assert (Hfix : forall t, allSlugChars t = true -> hasDoubleDash t = false ->
                   startsWithDash t = false -> endsWithDash t = false ->
                   Admin.normalizeSlug t = t).
  { intros t Ha Hd Hs He. unfold Admin.normalizeSlug.
    rewrite (slug_trim t Ha), (slug_toLowerCase t Ha), (slug_dashOthers t Ha),
      (noDouble_collapse_id t Hd).
    unfold Admin.stripEdgeDashes. destruct t as [|c r]; [reflexivity |].
    simpl in Hs. rewrite Hs. now apply noEnd_dropLast_id. }
  split; [apply Hfix |].
  destruct (stripEdgeDashes_shape
              (Admin.collapseDashes (Admin.dashOthers (toLowerCase (trim input)))))
    as (Ha & Hd & Hs & He).
  - apply allSlugChars_collapse, allSlugChars_dashOthers.
  - apply noDouble_collapse.
  - now apply Hfix.
Qed.

Lemma normalizeSlug_fixes_slugs_witness :
  Admin.normalizeSlug "beta-club-2" = "beta-club-2"
  /\ Admin.normalizeSlug "  Beta  Club #2! " = "beta-club-2".
Proof.
  split; [| reflexivity].
  apply (proj1 (normalizeSlug_fixes_slugs "beta-club-2")); reflexivity.
Defined.

(** ** Promotion by a super-admin *)

Lemma findOne_refine {A : Type} (p q : A -> bool) (l : list A) (x : A) :
  findOne p l = Some x -> q x = true -> (forall y, q y = true -> p y = true) ->
  findOne q l = Some x.
Proof.
  induction l as [|y r IH]; simpl; intros Hp Hq Hqp; [discriminate |].
  destruct (p y) eqn:Ey.
  - injection Hp as ->. now rewrite Hq.
  - destruct (q y) eqn:Eq; [| now apply IH].
    rewrite (Hqp y Eq) in Ey. discriminate.
Qed.

Lemma promote_new_run `{Bson} (env : Env) (req : Request) (s : Store) :
  PromotesIntoNewTenant req s ->
  Admin.promoteUserToTenant env req s
  = match findOne (fun t => String.eqb (t_slug t)
                              (Admin.normalizeSlug (b_tenantSlug (body req))))
                  (tenants s) with
    | Some _ => (Throw slugExists, s)
    | None =>
        let t := mkTenant (newObjectId env 0) (trim (b_tenantName (body req)))
                          (Admin.normalizeSlug (b_tenantSlug (body req)))
                          (trim (b_logoUrl (body req))) "ACTIVE"
                          (pathUserId req) in
        let mm := upsert (membershipOf (t_id t) (pathUserId req))
                         (Tenants.setRoleStatus (promotedRole req) ACTIVE)
                         (mkMembership (newObjectId env 1) (t_id t)
                                       (pathUserId req)
                                       (promotedRole req) ACTIVE)
                         (memberships s) in
        (Ok (200, Admin.mkPromoteResponse (pathUserId req)
                    (t_id t) (t_slug t) (fst mm)
                    ("/c/" ++ t_slug t ++ "/admin") true),
         set_memberships (snd mm) (set_tenants (insertDoc t (tenants s)) s))
    end.
Proof.
  intros [Hv [usr Hu] Hnew Hname Hslug].
  unfold pathUserId in *.
  unfold Admin.promoteUserToTenant. rewrite Hv. cbn [negb]. cbv zeta.
  unfold bind at 1. unfold gets at 1. rewrite Hu.
  unfold bind at 1. unfold Admin.resolveTenant.
  rewrite Hnew. cbn [isEmpty negb].
  rewrite (isEmpty_false _ Hname), (isEmpty_false _ Hslug). cbn [orb].
  unfold bind at 1. unfold gets at 1.
  destruct (findOne _ (tenants s)) as [t0|]; [reflexivity |].
  unfold bind at 1. unfold modify at 1.
  unfold ret at 1. cbv beta iota.
  rewrite (bind_ok _ _ _ _ _ (upsertMembership_run _ _ _ _ _ _)).
  pose proof (findOne_In _ _ _ Hu) as [_ Hid].
  apply String.eqb_eq in Hid. unfold ret, promotedRole. simpl. rewrite Hid.
  reflexivity.
Qed.

(** X3.  A promotion into a tenant to be created (no existing tenant
    named, a name and a non-empty normalized slug given, the target user
    found): when a tenant already has the normalized slug the call throws
    the 409 SLUG_EXISTS and writes nothing; otherwise it answers 200,
    having added one tenant with that slug, status ACTIVE, created by the
    target user, and the same request made again throws the 409. *)
Theorem promote_slug_taken_once `{Bson} (env : Env) (req : Request) (s : Store) :
  PromotesIntoNewTenant req s ->
  ((exists t, In t (tenants s)
              /\ t_slug t = Admin.normalizeSlug (b_tenantSlug (body req))) ->
   Admin.promoteUserToTenant env req s = (Throw slugExists, s))
  /\ ((forall t, In t (tenants s) ->
                 t_slug t <> Admin.normalizeSlug (b_tenantSlug (body req))) ->
      exists resp s' t,
        Admin.promoteUserToTenant env req s = (Ok (200, resp), s')
        /\ Admin.pr_createdTenant resp = true
        /\ Admin.pr_tenantSlug resp = Admin.normalizeSlug (b_tenantSlug (body req))
        /\ tenants s' = (tenants s ++ [t])%list
        /\ t_slug t = Admin.normalizeSlug (b_tenantSlug (body req))
        /\ t_status t = "ACTIVE"
        /\ t_createdBy t = pathUserId req
        /\ (forall env',
              Admin.promoteUserToTenant env' req s' = (Throw slugExists, s'))).
Proof.
  intros Hp. pose proof (promote_new_run env req s Hp) as Hrun.
  split.
  - intros (t & Hin & Hs).
    destruct (findOne_some_of_In
                (fun t => String.eqb (t_slug t)
                            (Admin.normalizeSlug (b_tenantSlug (body req))))
                (tenants s) t Hin) as [y Hy]; [now apply String.eqb_eq |].
    now rewrite Hrun, Hy.
  - intros Hfree.
    assert (Hn : findOne (fun t => String.eqb (t_slug t)
                                     (Admin.normalizeSlug (b_tenantSlug (body req))))
                         (tenants s) = None).
    { apply findOne_None. intros t Hin. apply String.eqb_neq. now apply Hfree. }
    rewrite Hn in Hrun. cbv zeta in Hrun.
    eexists. eexists. eexists. split; [exact Hrun |].
    repeat split.
    intros env'.
    match goal with
    | |- Admin.promoteUserToTenant _ _ ?st = _ =>
        assert (Hp' : PromotesIntoNewTenant req st)
    end.
    { destruct Hp as [Hv Hu Hnew Hname Hslug]. constructor; assumption. }
    rewrite (promote_new_run env' req _ Hp'). simpl tenants.
    rewrite (findOne_insertDoc _ _ _ Hn); [reflexivity |].
    apply String.eqb_eq. reflexivity.
Qed.

Lemma promote_slug_taken_once_witness :
  Admin.promoteUserToTenant (H := Sample.hex24) Sample.env0
    (Sample.promote Sample.bob "Acme Two" "ACME") Sample.storeA
  = (Throw slugExists, Sample.storeA)
  /\ exists resp s',
       Admin.promoteUserToTenant (H := Sample.hex24) Sample.env0
         (Sample.promote Sample.bob "Beta Club" " Beta  Club! ") Sample.storeA
       = (Ok (200, resp), s')
       /\ Admin.promoteUserToTenant (H := Sample.hex24) Sample.env0
            (Sample.promote Sample.bob "Beta Club" " Beta  Club! ") s'
          = (Throw slugExists, s').
Proof.
  assert (H1 : PromotesIntoNewTenant (H := Sample.hex24)
                 (Sample.promote Sample.bob "Acme Two" "ACME") Sample.storeA).
  { constructor; try reflexivity; try discriminate. eexists. reflexivity. }
  assert (H2 : PromotesIntoNewTenant (H := Sample.hex24)
                 (Sample.promote Sample.bob "Beta Club" " Beta  Club! ")
                 Sample.storeA).
  { constructor; try reflexivity; try discriminate. eexists. reflexivity. }
  split.
  - apply (proj1 (promote_slug_taken_once (H := Sample.hex24) Sample.env0 _ _ H1)).
    exists Sample.acme. split; [left; reflexivity | reflexivity].
  - destruct (proj2 (promote_slug_taken_once (H := Sample.hex24) Sample.env0 _ _ H2))
      as (resp & s' & t & Hrun & _ & _ & _ & _ & _ & _ & Hagain).
    + intros t [<- | []]. discriminate.
    + exists resp, s'. split; [exact Hrun | exact (Hagain Sample.env0)].
Defined.

Lemma promote_ok_inv `{Bson} (env : Env) (req : Request) (s : Store)
  (resp : Z * Admin.PromoteResponse) (s' : Store) :
  Admin.promoteUserToTenant env req s = (Ok resp, s') ->
  exists tenant created s1,
    isValid (routeParam (p_userId (params req))) = true
    /\ memberships s1 = memberships s
    /\ s' = set_memberships
              (snd (upsert (membershipOf (t_id tenant) (pathUserId req))
                           (Tenants.setRoleStatus (promotedRole req) ACTIVE)
                           (mkMembership (newObjectId env 1) (t_id tenant)
                                         (pathUserId req)
                                         (promotedRole req) ACTIVE)
                           (memberships s1))) s1
    /\ Admin.pr_tenantId (snd resp) = t_id tenant
    /\ Admin.pr_createdTenant (snd resp) = created
    /\ Admin.pr_membership (snd resp)
       = fst (upsert (membershipOf (t_id tenant) (pathUserId req))
                     (Tenants.setRoleStatus (promotedRole req) ACTIVE)
                     (mkMembership (newObjectId env 1) (t_id tenant)
                                   (pathUserId req)
                                   (promotedRole req) ACTIVE)
                     (memberships s1)).
Proof.
  unfold Admin.promoteUserToTenant.
  destruct (isValid (routeParam (p_userId (params req)))) eqn:Hv;
    [| discriminate].
  cbn [negb]. cbv zeta. fold (pathUserId req).
  unfold bind at 1. unfold gets at 1.
  destruct (findOne _ (users s)) as [usr|]; [| discriminate].
  unfold bind at 1.
  pose proof (resolveTenant_frames env req (pathUserId req) s) as Hfr.
  destruct (Admin.resolveTenant env req (pathUserId req) s)
    as [[[tenant created] | e] s1]; simpl in Hfr; [| discriminate].
  rewrite (bind_ok _ _ _ _ _ (upsertMembership_run _ _ _ _ _ _)).
  unfold ret. intros E. injection E as <- <-.
  exists tenant, created, s1. repeat split. exact Hfr.
Qed.

(** X4.  After a successful promotion the target user's membership in
    the tenant of the answer is ACTIVE with the role asked for (ADMIN, or
    OWNER by default, never a lesser role), whatever membership the user
    had there before; and the role gate of that tenant lets the user
    through wherever that role is allowed. *)
Theorem promote_grants_management `{Bson} (env : Env) (req : Request) (s : Store)
  (resp : Z * Admin.PromoteResponse) (s' : Store) :
  Admin.promoteUserToTenant env req s = (Ok resp, s') ->
  findOne (membershipOf (Admin.pr_tenantId (snd resp)) (pathUserId req))
          (memberships s')
  = Some (Admin.pr_membership (snd resp))
  /\ m_status (Admin.pr_membership (snd resp)) = ACTIVE
  /\ m_role (Admin.pr_membership (snd resp)) = promotedRole req
  /\ (promotedRole req = OWNER \/ promotedRole req = ADMIN)
  /\ (forall roles r g,
        user r = Some (mkJwtUser (routeParam (p_userId (params req))) g) ->
        hexOf (tenantIdStr r) = Admin.pr_tenantId (snd resp) ->
        tenantIdStr r <> "" -> isValid (tenantIdStr r) = true ->
        In (promotedRole req) roles ->
        requireTenantRole roles r s' = (Ok Next, s')).
Proof.
  intros Hok.
  destruct (promote_ok_inv env req s resp s' Hok)
    as (tenant & created & s1 & Hpv & Hmem & -> & Htid & _ & Hm).
  destruct (upsert_membership_found (newObjectId env 1) (t_id tenant)
              (pathUserId req) (promotedRole req) ACTIVE
              (memberships s1)) as (Mfind & Mrole & Mst & Mt & Mu).
  rewrite Htid, Hm. simpl memberships.
  split; [exact Mfind |]. split; [exact Mst |]. split; [exact Mrole |].
  split.
  { unfold promotedRole. destruct (b_membershipRole (body req)) as [[]|]; auto. }
  intros roles r g Hu Ht Hne Hv Hin.
  destruct g.
  { unfold requireTenantRole. now rewrite Hu. }
  rewrite (requireTenantRole_lookup roles r (mkJwtUser _ USER) _ Hu eq_refl
             (isEmpty_false _ Hne) Hv Hpv).
  unfold callerId. simpl sub. fold (pathUserId req). rewrite Ht. simpl memberships.
  rewrite (findOne_refine (membershipOf (t_id tenant) (pathUserId req))
             (activeMembershipOf (t_id tenant) (pathUserId req))
             _ _ Mfind).
  - unfold gateVerdict. rewrite Mrole.
    apply includes_In in Hin. now rewrite Hin.
  - apply activeMembershipOf_true. auto.
  - intros y Hy. apply activeMembershipOf_true in Hy. apply membershipOf_true. tauto.
Qed.

Lemma promote_grants_management_witness :
  exists resp s',
    Admin.promoteUserToTenant (H := Sample.hex24) Sample.env0
      (Sample.promote Sample.bob "Beta Club" " Beta  Club! ") Sample.storeA
    = (Ok resp, s')
    /\ m_role (Admin.pr_membership (snd resp)) = OWNER
    /\ requireTenantRole (H := Sample.hex24) Routes.managers
         (mkRequest (Sample.asUser Sample.bob)
                    (mkParams (Some "0000000000000000000000c0") None None None None)
                    Sample.noBody JUndefined) s'
       = (Ok Next, s').
Proof.
  destruct (Admin.promoteUserToTenant (H := Sample.hex24) Sample.env0
              (Sample.promote Sample.bob "Beta Club" " Beta  Club! ") Sample.storeA)
    as [[resp | e] s'] eqn:Hrun.
  - pose proof (promote_grants_management (H := Sample.hex24) Sample.env0
                  (Sample.promote Sample.bob "Beta Club" " Beta  Club! ")
                  Sample.storeA resp s' Hrun) as (_ & _ & Hrole & _ & Hgate).
    exists resp, s'. split; [reflexivity |]. split; [exact Hrole |].
    vm_compute in Hrun. injection Hrun as <- <-.
    apply (Hgate Routes.managers
             (mkRequest (Sample.asUser Sample.bob)
                (mkParams (Some "0000000000000000000000c0") None None None None)
                Sample.noBody JUndefined) USER eq_refl eq_refl).
    + discriminate.
    + reflexivity.
    + left. reflexivity.
  - vm_compute in Hrun. discriminate.
Defined.

(** ** Deleting a tenant *)

Lemma deleteFirst_length {A : Type} (p : A -> bool) (l : list A) (x : A) :
  findOne p l = Some x -> (length (deleteFirst p l) + 1 = length l)%nat.
Proof.
  induction l as [|y r IH]; simpl; intros H; [discriminate |].
  destruct (p y); simpl; [lia |].
  rewrite <- (IH H). lia.
Qed.

Lemma deleteFirst_In_unique (l : list Tenant) (id : string) (t : Tenant) :
  NoDup (map t_id l) ->
  (In t (deleteFirst (fun x => String.eqb (t_id x) id) l)
   <-> In t l /\ t_id t <> id).
Proof.
  induction l as [|y r IH]; simpl; intros Hnd; [tauto |].
  inversion Hnd as [|? ? Hnotin Hnd']; subst.
  destruct (String.eqb_spec (t_id y) id) as [E | E].
  - split.
    + intros Hin. split; [now right |].
      intros Ht. apply Hnotin. rewrite E, <- Ht. now apply in_map.
    + intros [[-> | Hin] Hne]; [contradiction | exact Hin].
  - simpl. rewrite (IH Hnd'). split.
    + intros [-> | [Hin Hne]]; [split; [now left | exact E] | split; [now right | exact Hne]].
    + intros [[-> | Hin] Hne]; [now left | right; now split].
Qed.

Lemma deleteMany_In {A : Type} (p : A -> bool) (l : list A) (x : A) :
  In x (deleteMany p l) <-> In x l /\ p x = false.
Proof.
  unfold deleteMany. rewrite filter_In, negb_true_iff. tauto.
Qed.

(** X5.  Deleting with an id that is no ObjectId throws before any write;
    deleting a tenant that does not exist answers 404 and writes nothing.
    Deleting one that exists answers 204, removes the tenant document and
    every membership of that tenant and no other membership; users,
    settings, invitations, profiles and files stay as they were, those of
    the deleted tenant included.  Afterwards no caller other than
    a super-admin passes the role gate of that tenant.  The tenant is the
    one whose id the path string denotes as an ObjectId, in whatever
    letter case the string is written. *)
Theorem deleteTenant_cascades `{Bson} (req : Request) (s : Store) :
  (isValid (routeParam (p_id (params req))) = false ->
   exists e, AdminMore.deleteTenant req s = (Throw e, s))
  /\ (isValid (routeParam (p_id (params req))) = true ->
      (forall t, In t (tenants s) -> t_id t <> pathId req) ->
      AdminMore.deleteTenant req s
      = (Ok (SentError 404 "Tenant not found" "NOT_FOUND"), s))
  /\ (forall t u,
        isValid (routeParam (p_id (params req))) = true ->
        In t (tenants s) -> t_id t = pathId req ->
        user req = Some u ->
        exists s',
          AdminMore.deleteTenant req s = (Ok (SentEmpty 204), s')
          /\ (length (tenants s') + 1 = length (tenants s))%nat
          /\ (NoDup (map t_id (tenants s)) ->
              forall x, In x (tenants s')
                        <-> In x (tenants s) /\ t_id x <> pathId req)
          /\ (forall m, In m (memberships s')
                        <-> In m (memberships s) /\ m_tenantId m <> pathId req)
          /\ users s' = users s /\ tenantSettings s' = tenantSettings s
          /\ invitations s' = invitations s
          /\ memberProfiles s' = memberProfiles s /\ gridfs s' = gridfs s
          /\ (forall roles r v,
                user r = Some v -> globalRole v = USER ->
                hexOf (tenantIdStr r) = pathId req ->
                fst (requireTenantRole roles r s') <> Ok Next)).
Proof.
  unfold pathId.
  split; [| split].
  - intros Hbad. unfold AdminMore.deleteTenant.
    rewrite (bind_throw _ _ _ _ _ (castObjectId_throws _ s Hbad)).
    eexists. reflexivity.
  - intros Hv Hnone. unfold AdminMore.deleteTenant.
    rewrite (bind_ok _ _ _ _ _ (castObjectId_ok _ s Hv)).
    unfold bind, gets, ret.
    replace (findOne (fun t => String.eqb (t_id t)
                                 (hexOf (routeParam (p_id (params req)))))
                     (tenants s)) with (@None Tenant); [reflexivity |].
    symmetry. apply findOne_None. intros t Hin. apply String.eqb_neq. now apply Hnone.
  - intros t u Hv Hin Hid Hu.
    destruct (findOne_some_of_In
                (fun t => String.eqb (t_id t) (hexOf (routeParam (p_id (params req)))))
                (tenants s) t Hin) as [y Hy]; [now apply String.eqb_eq |].
    eexists. split.
    { unfold AdminMore.deleteTenant.
      rewrite (bind_ok _ _ _ _ _ (castObjectId_ok _ s Hv)).
      unfold requireUser, bind, gets, ret, modify.
      rewrite Hy. simpl. rewrite Hu. reflexivity. }
    simpl.
    split; [exact (deleteFirst_length _ _ y Hy) |].
    split; [intros Hnd x; now apply deleteFirst_In_unique |].
    assert (Hm : forall m,
               In m (deleteMany (fun m => String.eqb (m_tenantId m)
                                            (hexOf (routeParam (p_id (params req)))))
                                (memberships s))
               <-> In m (memberships s)
                   /\ m_tenantId m <> hexOf (routeParam (p_id (params req)))).
    { intros m. rewrite deleteMany_In, String.eqb_neq. tauto. }
    split; [exact Hm |].
    repeat (split; [reflexivity |]).
    intros roles r v Hv' Hg Ht Hnext.
    assert (Hns : globalRole v <> SUPER_ADMIN) by (rewrite Hg; discriminate).
    destruct (gate_pass_inv roles r v _ Hv' Hns Hnext) as (m & Hmin & Hmt & _).
    simpl in Hmin. apply Hm in Hmin. destruct Hmin as [_ Hne].
    apply Hne. now rewrite Hmt, Ht.
Qed.

Lemma deleteTenant_cascades_witness :
  (exists s',
     AdminMore.deleteTenant (H := Sample.hex24) Scenario.deleteA Sample.storeA
     = (Ok (SentEmpty 204), s')
     /\ tenants s' = [] /\ memberships s' = []
     /\ fst (requireTenantRole (H := Sample.hex24) Sample.adminRoles
               (Sample.onPathA_plain Sample.alice) s') <> Ok Next)
  /\ (exists s',
        AdminMore.deleteTenant (H := Sample.hex24) Scenario.deleteUpperA Sample.storeA
        = (Ok (SentEmpty 204), s')
        /\ tenants s' = [] /\ memberships s' = []).
Proof.
  split.
  - destruct (deleteTenant_cascades (H := Sample.hex24) Scenario.deleteA Sample.storeA)
      as (_ & _ & Hdel).
    destruct (Hdel Sample.acme (mkJwtUser Sample.alice SUPER_ADMIN) eq_refl
                (or_introl eq_refl) eq_refl eq_refl)
      as (s' & Hrun & _ & _ & _ & _ & _ & _ & _ & _ & Hgate).
    exists s'. split; [exact Hrun |].
    assert (Hs : tenants s' = [] /\ memberships s' = []).
    { pose proof Hrun as Hc. vm_compute in Hc. injection Hc as <-. split; reflexivity. }
    destruct Hs as [Ht Hm]. split; [exact Ht |]. split; [exact Hm |].
    exact (Hgate Sample.adminRoles (Sample.onPathA_plain Sample.alice)
             (mkJwtUser Sample.alice USER) eq_refl eq_refl eq_refl).
  - destruct (deleteTenant_cascades (H := Sample.hex24) Scenario.deleteUpperA
                Sample.storeA) as (_ & _ & Hdel).
    destruct (Hdel Sample.acme (mkJwtUser Sample.alice SUPER_ADMIN) eq_refl
                (or_introl eq_refl) eq_refl eq_refl)
      as (s' & Hrun & _).
    exists s'. split; [exact Hrun |].
    pose proof Hrun as Hc. vm_compute in Hc. injection Hc as <-. split; reflexivity.
Defined.

(** ** Joining *)

(** X6.  [joinTenant] with a well-formed id of no tenant throws the 404.
    On a known tenant, a first join answers 201 with a new MEMBER
    (PENDING under an approval policy, ACTIVE otherwise), and every later
    join by the same user, whatever the time, answers 200 with that same
    membership and writes nothing; so does a join by a user who already
    has a membership, a BANNED one included.  The tenant is the one whose
    id the path string denotes as an ObjectId. *)
Theorem joinTenant_is_idempotent `{Bson} (env env' : Env) (req : Request)
  (s : Store) (u : JwtUser) :
  user req = Some u -> isValid (sub u) = true ->
  isValid (routeParam (p_tenantId (params req))) = true ->
  ((forall t, In t (tenants s) -> t_id t <> pathTenantId req) ->
   Tenants.joinTenant env req s
   = (Throw (ExnApp (mkAppError "Tenant not found" 404 "NOT_FOUND")), s))
  /\ (forall tenant,
        findOne (fun t => String.eqb (t_id t) (pathTenantId req)) (tenants s)
        = Some tenant ->
        exists st view s',
          Tenants.joinTenant env req s = (Ok (st, view), s')
          /\ (st = 200 \/ st = 201)
          /\ (st = 200 <-> s' = s
                           /\ exists e, findOne (membershipOf (t_id tenant) (callerId u))
                                                (memberships s) = Some e)
          /\ (st = 201 -> Tenants.v_role view = MEMBER
                          /\ Tenants.v_status view
                             = Tenants.directJoinStatus
                                 (findOne (fun x => String.eqb (ts_tenantId x)
                                                               (t_id tenant))
                                          (tenantSettings s)))
          /\ Tenants.joinTenant env' req s' = (Ok (200, view), s')).
Proof.
  intros Hu Hv Hp. split.
  - intros Hnone.
    unfold Tenants.joinTenant, Tenants.findTenantById.
    rewrite (bind_ok _ _ _ _ _ (bind_ok _ _ _ _ _ (castObjectId_ok _ s Hp))).
    unfold gets.
    replace (findOne (fun t => String.eqb (t_id t)
                                 (hexOf (routeParam (p_tenantId (params req)))))
                     (tenants s)) with (@None Tenant); [reflexivity |].
    symmetry. apply findOne_None. intros t Hin. apply String.eqb_neq. now apply Hnone.
  - intros tenant Ht.
    pose proof (joinTenant_run env req s u tenant Hu Hv Hp Ht) as Hrun.
    destruct (findOne (membershipOf (t_id tenant) (callerId u)) (memberships s))
      as [e|] eqn:He.
    + exists 200, (Tenants.mapMembership e), s.
      split; [exact Hrun |]. split; [now left |].
      split; [split; [intros _; split; [reflexivity | now exists e] | reflexivity] |].
      split; [discriminate |].
      now rewrite (joinTenant_run env' req s u tenant Hu Hv Hp Ht), He.
    + cbv zeta in Hrun.
      eexists. eexists. eexists. split; [exact Hrun |].
      split; [now right |].
      split; [split; [discriminate | intros [_ [e He']]; discriminate] |].
      split; [intros _; split; reflexivity |].
      rewrite (joinTenant_run env' req _ u tenant Hu Hv Hp); [| exact Ht].
      simpl memberships.
      rewrite findOne_insertDoc; [reflexivity | exact He |].
      apply membershipOf_true. now split.
Qed.

Lemma joinTenant_is_idempotent_witness :
  (exists view s',
     Tenants.joinTenant (H := Sample.hex24) Sample.env0
       (Sample.onPathA_plain Sample.dave) Sample.storeA = (Ok (201, view), s')
     /\ Tenants.v_status view = PENDING
     /\ Tenants.joinTenant (H := Sample.hex24) Sample.env0
          (Sample.onPathA_plain Sample.dave) s' = (Ok (200, view), s'))
  /\ Tenants.joinTenant (H := Sample.hex24) Sample.env0
       (Sample.onPathB Sample.dave) Sample.storeA
     = (Throw (ExnApp (mkAppError "Tenant not found" 404 "NOT_FOUND")), Sample.storeA)
  /\ (exists st view s',
        Tenants.joinTenant (H := Sample.hex24) Sample.env0
          (Sample.onPathUpperA Sample.dave) Sample.storeA = (Ok (st, view), s')
        /\ Tenants.v_tenantId view = Sample.tenantA).
Proof.
  split; [| split].
  - destruct (proj2 (joinTenant_is_idempotent (H := Sample.hex24) Sample.env0
                       Sample.env0 (Sample.onPathA_plain Sample.dave) Sample.storeA
                       (mkJwtUser Sample.dave USER) eq_refl eq_refl eq_refl)
                    Sample.acme eq_refl)
      as (st & view & s' & Hrun & _ & _ & Hnew & Hagain).
    assert (Hst : st = 201 /\ Tenants.v_status view = PENDING).
    { pose proof Hrun as Hc. vm_compute in Hc. injection Hc as <- <- _.
      split; reflexivity. }
    destruct Hst as [-> Hq].
    exists view, s'. split; [exact Hrun |]. split; [exact Hq | exact Hagain].
  - apply (proj1 (joinTenant_is_idempotent (H := Sample.hex24) Sample.env0
                    Sample.env0 (Sample.onPathB Sample.dave) Sample.storeA
                    (mkJwtUser Sample.dave USER) eq_refl eq_refl eq_refl)).
    intros t [<- | []]. discriminate.
  - destruct (proj2 (joinTenant_is_idempotent (H := Sample.hex24) Sample.env0
                       Sample.env0 (Sample.onPathUpperA Sample.dave) Sample.storeA
                       (mkJwtUser Sample.dave USER) eq_refl eq_refl eq_refl)
                    Sample.acme eq_refl)
      as (st & view & s' & Hrun & _).
    exists st, view, s'. split; [exact Hrun |].
    pose proof Hrun as Hc. vm_compute in Hc. injection Hc as _ <- _. reflexivity.
Defined.

(** ** A call that throws has written nothing *)

Lemma joinTenant_throw_pure `{Bson} (env : Env) (req : Request) (s s' : Store)
  (e : Exn) :
  Tenants.joinTenant env req s = (Throw e, s') -> s' = s.
Proof.
  unfold Tenants.joinTenant, Tenants.findTenantById, Tenants.findSettings,
    requireUser, newTypesObjectId, castObjectId, throwApp, throw, bind, gets, ret,
    modify.
  destruct (isValid (routeParam _)); [| intros E; now injection E].
  destruct (findOne _ (tenants s)); [| intros E; now injection E].
  destruct (user req) as [u|]; [| intros E; now injection E].
  destruct (isValid (sub u)); [| intros E; now injection E].
  destruct (findOne _ (memberships s)); discriminate.
Qed.

Lemma joinTenantBySlug_throw_pure `{Bson} (env : Env) (req : Request) (s s' : Store)
  (e : Exn) :
  Tenants.joinTenantBySlug env req s = (Throw e, s') -> s' = s.
Proof.
  unfold Tenants.joinTenantBySlug.
  destruct (user req) as [u|]; [| intros E; now injection E].
  destruct (isEmpty (sub u)); [intros E; now injection E |].
  cbv zeta.
  unfold bind at 1. unfold gets at 1.
  destruct (findOne _ (tenants s)) as [tenant|]; [| intros E; now injection E].
  unfold bind at 1. unfold newTypesObjectId at 1.
  destruct (isValid (sub u)); [| intros E; now injection E].
  unfold ret at 1.
  unfold bind at 1. unfold Tenants.findSettings at 1. unfold gets at 1.
  unfold bind at 1. unfold gets at 1.
  unfold bind at 1. unfold gets at 1.
  destruct (findOne _ (users s)) as [usr|]; [| intros E; now injection E].
  match goal with
  | |- context [if ?b then throwApp "You are banned from this community" _ _ else _] =>
      destruct b
  end; [intros E; now injection E |].
  unfold bind at 1.
  match goal with
  | |- context [match ?c s with _ => _ end] =>
      assert (Hpure : snd (c s) = s);
      [| destruct (c s) as [[[[inviteRow role] status] | e0] s1]; simpl in Hpure;
         subst s1; [| intros E; now injection E]]
  end.
  { destruct (negb (isEmpty (trim (b_inviteToken (body req))))).
    - unfold bind, gets.
      destruct (findOne _ (invitations s)) as [inv|]; [| reflexivity].
      destruct (negb (String.eqb _ "SENT")); [reflexivity |].
      destruct (negb (String.eqb _ _)); reflexivity.
    - destruct (negb _); reflexivity. }
  unfold bind at 1.
  match goal with
  | |- context [match ?c s with _ => _ end] =>
      assert (Hpure : snd (c s) = s);
      [| destruct (c s) as [[[] | e0] s1]; simpl in Hpure; subst s1;
         [| intros E; now injection E]]
  end.
  { destruct inviteRow; [reflexivity |].
    destruct (isEmpty _); [reflexivity |].
    destruct (isEmpty _); reflexivity. }
  rewrite (bind_ok _ _ _ _ _ (upsertMembership_run _ _ _ _ _ _)).
  rewrite (bind_ok _ _ _ _ _ (upsertMemberProfile_run _ _ _ _ _)).
  rewrite (bind_ok _ _ _ _ _ (saveUserNames_run _ _ _ _)).
  destruct inviteRow as [inv|].
  - rewrite (bind_ok _ _ _ _ _ (saveInvitation_run _ _ _)). discriminate.
  - rewrite (bind_ok _ _ _ _ _ (ret_run _ _)). discriminate.
Qed.

Lemma inviteMember_throw_pure `{Bson} (env : Env) (req : Request) (s s' : Store)
  (e : Exn) :
  Tenants.inviteMember env req s = (Throw e, s') -> s' = s.
Proof.
  unfold Tenants.inviteMember, Tenants.findTenantById, requireUser, newTypesObjectId,
    castObjectId, throwApp, throw, bind, gets, ret, modify.
  destruct (isValid (routeParam _)); [| intros E; now injection E].
  destruct (findOne _ (tenants s)); [| intros E; now injection E].
  destruct (user req) as [u|]; [| intros E; now injection E].
  destruct (isValid (sub u)); [discriminate | intros E; now injection E].
Qed.

Lemma createInvitation_throw_pure `{Bson} (env : Env) (req : Request) (s s' : Store)
  (e : Exn) :
  TenantFeatures.createInvitation env req s = (Throw e, s') -> s' = s.
Proof.
  destruct (isValid (routeParam (p_tenantId (params req)))) eqn:Hp.
  2:{ unfold TenantFeatures.createInvitation.
      rewrite (bind_throw _ _ _ _ _ (castObjectId_throws _ s Hp)).
      intros E. now injection E. }
  rewrite (createInvitation_run env req s Hp).
  destruct (findOne _ (invitations s)); [intros E; now injection E |].
  destruct (user req) as [u|]; [| intros E; now injection E].
  destruct (negb (isValid (sub u))); [intros E; now injection E | discriminate].
Qed.

Lemma resendInvitation_throw_pure `{Bson} (env : Env) (req : Request)
  (s s' : Store) (e : Exn) :
  TenantFeatures.resendInvitation env req s = (Throw e, s') -> s' = s.
Proof.
  unfold TenantFeatures.resendInvitation, saveInvitation, castObjectId, throwApp,
    throw, bind, gets, ret, modify.
  destruct (isValid (routeParam (p_id _))); [| intros E; now injection E].
  destruct (isValid (routeParam (p_tenantId _))); [| intros E; now injection E].
  destruct (findOne _ (invitations s)) as [x|]; [| intros E; now injection E].
  destruct (String.eqb (i_status x) "ACCEPTED"); [intros E; now injection E | discriminate].
Qed.

Lemma revokeInvitation_throw_pure `{Bson} (env : Env) (req : Request) (s s' : Store)
  (e : Exn) :
  TenantFeatures.revokeInvitation env req s = (Throw e, s') -> s' = s.
Proof.
  unfold TenantFeatures.revokeInvitation, TenantFeatures.tenantObjectId, requireUser,
    saveInvitation, castObjectId, throwApp, throw, bind, gets, ret, modify.
  destruct (isValid (routeParam (p_id _))); [| intros E; now injection E].
  destruct (isValid (routeParam (p_tenantId _))); [| intros E; now injection E].
  destruct (findOne _ (invitations s)) as [x|]; [| intros E; now injection E].
  destruct (String.eqb (i_status x) "ACCEPTED"); [intros E; now injection E |].
  destruct (user req) as [u|]; [| intros E; now injection E].
  destruct (negb (isValid (sub u))); [intros E; now injection E | discriminate].
Qed.

Lemma updateMemberRole_throw_pure `{Bson} (req : Request) (s s' : Store)
  (e : Exn) :
  TenantFeatures.updateMemberRole req s = (Throw e, s') -> s' = s.
Proof.
  unfold TenantFeatures.updateMemberRole, updateOneNew, castObjectId, throwApp, throw,
    bind, ret.
  destruct (isValid (routeParam (p_tenantId _))); [| intros E; now injection E].
  destruct (isValid (routeParam (p_userId _))); [| intros E; now injection E].
  destruct (findOne _ (memberships s)); [discriminate | intros E; now injection E].
Qed.

Lemma promoteUserToTenant_throw_pure `{Bson} (env : Env) (req : Request)
  (s s' : Store) (e : Exn) :
  Admin.promoteUserToTenant env req s = (Throw e, s') -> s' = s.
Proof.
  unfold Admin.promoteUserToTenant.
  destruct (negb (isValid _)); [intros E; now injection E |].
  unfold bind at 1. unfold gets at 1.
  destruct (findOne _ (users s)) as [usr|]; [| intros E; now injection E].
  unfold bind at 1.
  destruct (Admin.resolveTenant env req (hexOf (routeParam (p_userId (params req)))) s)
    as [[[tenant created] | e0] s1] eqn:Hres.
  - rewrite (bind_ok _ _ _ _ _ (upsertMembership_run _ _ _ _ _ _)). discriminate.
  - intros E. injection E as _ <-.
    revert Hres.
    unfold Admin.resolveTenant, Tenants.findTenantById, castObjectId, throwApp, throw,
      bind, gets, ret, modify.
    destruct (negb (isEmpty (trim (b_existingTenantId (body req))))).
    + destruct (isValid _); [| intros E; now injection E].
      cbv beta iota delta [negb].
      destruct (findOne _ (tenants s)); [discriminate | intros E; now injection E].
    + destruct (isEmpty _ || isEmpty _); [intros E; now injection E |].
      destruct (findOne _ (tenants s)); [intros E; now injection E | discriminate].
Qed.

(** X7.  These handlers make all their checks before their first write:
    whenever a direct join, a join by slug, either invitation endpoint, a
    resend, a revoke, a role update or a promotion throws one of its
    errors, the store is exactly as it was before the call. *)
Theorem throwing_call_writes_nothing `{Bson} (env : Env) (req : Request)
  (s s' : Store) (e : Exn) :
  (Tenants.joinTenant env req s = (Throw e, s') -> s' = s)
  /\ (Tenants.joinTenantBySlug env req s = (Throw e, s') -> s' = s)
  /\ (Tenants.inviteMember env req s = (Throw e, s') -> s' = s)
  /\ (TenantFeatures.createInvitation env req s = (Throw e, s') -> s' = s)
  /\ (TenantFeatures.resendInvitation env req s = (Throw e, s') -> s' = s)
  /\ (TenantFeatures.revokeInvitation env req s = (Throw e, s') -> s' = s)
  /\ (TenantFeatures.updateMemberRole req s = (Throw e, s') -> s' = s)
  /\ (Admin.promoteUserToTenant env req s = (Throw e, s') -> s' = s).
Proof.
  split; [apply joinTenant_throw_pure |].
  split; [apply joinTenantBySlug_throw_pure |].
  split; [apply inviteMember_throw_pure |].
  split; [apply createInvitation_throw_pure |].
  split; [apply resendInvitation_throw_pure |].
  split; [apply revokeInvitation_throw_pure |].
  split; [apply updateMemberRole_throw_pure | apply promoteUserToTenant_throw_pure].
Qed.

Lemma throwing_call_writes_nothing_witness :
  exists e,
    Tenants.joinTenant (H := Sample.hex24) Sample.env0
      (Sample.onPathA_plain Sample.bob) Sample.emptyStore
    = (Throw e, Sample.emptyStore).
Proof.
  destruct (Tenants.joinTenant (H := Sample.hex24) Sample.env0
              (Sample.onPathA_plain Sample.bob) Sample.emptyStore)
    as [[a | e] s'] eqn:Hrun; [vm_compute in Hrun; discriminate |].
  exists e.
  rewrite (proj1 (throwing_call_writes_nothing (H := Sample.hex24) Sample.env0
                    (Sample.onPathA_plain Sample.bob) Sample.emptyStore s' e) Hrun).
  reflexivity.
Defined.

(** ** What a join by slug refuses *)

Ltac join_prefix Hu Hsub Hval Hten Husr :=
  unfold Tenants.joinTenantBySlug;
  rewrite Hu, (isEmpty_false _ Hsub);
  unfold bind at 1; unfold gets at 1; rewrite Hten;
  unfold bind at 1; unfold newTypesObjectId at 1; rewrite Hval; unfold ret at 1;
  match goal with u : JwtUser |- _ => fold (callerId u) end;
  unfold bind at 1; unfold Tenants.findSettings at 1; unfold gets at 1;
  unfold bind at 1; unfold gets at 1; rewrite Husr;
  unfold bind at 1; unfold gets at 1.

Lemma findOne_none_of_all {A : Type} (p : A -> bool) (l : list A) :
  (forall x, In x l -> p x = false) -> findOne p l = None.
Proof.
  induction l as [| a l IH]; intros Hall; [reflexivity |].
  simpl. rewrite (Hall a (or_introl eq_refl)).
  apply IH. intros x Hx. apply Hall. now right.
Qed.

Lemma joinTenantBySlug_closed_run `{Bson} (env : Env) (req : Request) (s : Store)
  (u : JwtUser) (tenant : Tenant) (usr : User) :
  JoinContext req s u tenant usr ->
  NotBanned s (t_id tenant) (callerId u) ->
  inviteTokenOf req = "" ->
  Tenants.publicSignup
    (findOne (fun x => String.eqb (ts_tenantId x) (t_id tenant)) (tenantSettings s))
  = false ->
  Tenants.joinTenantBySlug env req s
  = (Throw (ExnApp (mkAppError
      "Public signup is disabled for this community. An invitation link is required to join."
      403 "PUBLIC_JOIN_DISABLED")), s).
Proof.
  intros [Hu Hsub Hval Hten Husr] Hnb Htok Hpub.
  unfold inviteTokenOf in *.
  join_prefix Hu Hsub Hval Hten Husr.
  rewrite (notBanned_test s _ _ Hnb).
  rewrite Htok. cbn [isEmpty negb]. rewrite Hpub. reflexivity.
Qed.

(** X8.  What a join by slug refuses once caller, tenant and user document
    are found, each time without writing: a caller whose membership is
    BANNED gets 403 whatever token is sent; a token that no invitation of
    this tenant carries gets 404; without a token, a tenant whose settings
    do not enable public signup (or are missing) gets 403
    PUBLIC_JOIN_DISABLED, and an open tenant still requires a full name
    and a phone number. *)
Theorem join_by_slug_refusals `{Bson} (env : Env) (req : Request) (s : Store)
  (u : JwtUser) (tenant : Tenant) (usr : User) :
  JoinContext req s u tenant usr ->
  (forall e,
      findOne (membershipOf (t_id tenant) (callerId u)) (memberships s) = Some e ->
      m_status e = BANNED ->
      Tenants.joinTenantBySlug env req s
      = (Throw (ExnApp (mkAppError "You are banned from this community" 403
                                   "FORBIDDEN")), s))
  /\ (NotBanned s (t_id tenant) (callerId u) ->
      (inviteTokenOf req <> "" ->
       (forall i, In i (invitations s) -> i_tenantId i = t_id tenant ->
                  i_token i <> inviteTokenOf req) ->
       Tenants.joinTenantBySlug env req s
       = (Throw (ExnApp (mkAppError "Invitation not found" 404 "NOT_FOUND")), s))
      /\ (inviteTokenOf req = "" ->
          Tenants.publicSignup
            (findOne (fun x => String.eqb (ts_tenantId x) (t_id tenant))
                     (tenantSettings s)) = false ->
          Tenants.joinTenantBySlug env req s
          = (Throw (ExnApp (mkAppError
              "Public signup is disabled for this community. An invitation link is required to join."
              403 "PUBLIC_JOIN_DISABLED")), s))
      /\ (inviteTokenOf req = "" ->
          Tenants.publicSignup
            (findOne (fun x => String.eqb (ts_tenantId x) (t_id tenant))
                     (tenantSettings s)) = true ->
          (trim (trim (b_fullName (body req))) = "" ->
           Tenants.joinTenantBySlug env req s
           = (Throw (ExnApp (mkAppError "Full name is required" 400
                                        "VALIDATION_ERROR")), s))
          /\ (trim (trim (b_fullName (body req))) <> "" ->
              trim (trim (b_phone (body req))) = "" ->
              Tenants.joinTenantBySlug env req s
              = (Throw (ExnApp (mkAppError "Phone number is required" 400
                                           "VALIDATION_ERROR")), s)))).
Proof.
  intros Hctx. pose proof Hctx as [Hu Hsub Hval Hten Husr].
  split.
  - intros e He Hb.
    join_prefix Hu Hsub Hval Hten Husr.
    rewrite He, Hb. reflexivity.
  - intros Hnb. split; [| split].
    + intros Htok Hnone. unfold inviteTokenOf in *.
      join_prefix Hu Hsub Hval Hten Husr.
      rewrite (notBanned_test s _ _ Hnb).
      rewrite (isEmpty_false _ Htok). cbn [negb].
      unfold bind at 1. unfold bind at 1. unfold gets at 1.
      rewrite (findOne_none_of_all
                 (Tenants.invitationByToken (t_id tenant)
                    (trim (b_inviteToken (body req)))) (invitations s)).
      * reflexivity.
      * intros i Hi. unfold Tenants.invitationByToken.
        destruct (String.eqb_spec (i_tenantId i) (t_id tenant)) as [E | E];
          [| reflexivity].
        simpl. apply String.eqb_neq. now apply Hnone.
    + intros Htok Hpub. now apply (joinTenantBySlug_closed_run env req s u tenant usr).
    + intros Htok Hpub. unfold inviteTokenOf in *. split.
      * intros Hname.
        join_prefix Hu Hsub Hval Hten Husr.
        rewrite (notBanned_test s _ _ Hnb).
        rewrite Htok. cbn [isEmpty negb]. rewrite Hpub. cbn [negb].
        rewrite (bind_ok _ _ _ _ _ (ret_run _ _)). cbv beta iota.
        rewrite Hname. reflexivity.
      * intros Hname Hphone.
        join_prefix Hu Hsub Hval Hten Husr.
        rewrite (notBanned_test s _ _ Hnb).
        rewrite Htok. cbn [isEmpty negb]. rewrite Hpub. cbn [negb].
        rewrite (bind_ok _ _ _ _ _ (ret_run _ _)). cbv beta iota.
        rewrite (isEmpty_false _ Hname), Hphone. reflexivity.
Qed.

Lemma join_by_slug_refusals_witness :
  Tenants.joinTenantBySlug (H := Sample.hex24) Sample.env0
    (Sample.joinWithToken Sample.dave "tok-1") Scenario.storeBanned
  = (Throw (ExnApp (mkAppError "You are banned from this community" 403
                               "FORBIDDEN")), Scenario.storeBanned).
Proof.
  assert (Hctx : JoinContext (H := Sample.hex24)
                   (Sample.joinWithToken Sample.dave "tok-1") Scenario.storeBanned
                   (mkJwtUser Sample.dave USER) Sample.acme
                   (mkUser Sample.dave "Dave@Example.com" "Dave" "3" USER)).
  { constructor; try reflexivity. discriminate. }
  exact (proj1 (join_by_slug_refusals (H := Sample.hex24) Sample.env0
                  (Sample.joinWithToken Sample.dave "tok-1") Scenario.storeBanned
                  (mkJwtUser Sample.dave USER) Sample.acme
                  (mkUser Sample.dave "Dave@Example.com" "Dave" "3" USER) Hctx)
               Scenario.daveBannedA eq_refl eq_refl).
Defined.

(** X9.  The join by tenant id does not read the signup policy: on a
    tenant where a join by slug without a token is refused with
    PUBLIC_JOIN_DISABLED, the same caller joining by id is answered 201
    and becomes a MEMBER, ACTIVE unless the settings require approval. *)
Theorem joinTenant_skips_signup_policy `{Bson} (env : Env) (reqSlug reqId : Request)
  (s : Store) (u : JwtUser) (tenant : Tenant) (usr : User) :
  JoinContext reqSlug s u tenant usr ->
  inviteTokenOf reqSlug = "" ->
  user reqId = Some u ->
  isValid (routeParam (p_tenantId (params reqId))) = true ->
  findOne (fun t => String.eqb (t_id t) (pathTenantId reqId)) (tenants s)
  = Some tenant ->
  findOne (membershipOf (t_id tenant) (callerId u)) (memberships s) = None ->
  Tenants.publicSignup
    (findOne (fun x => String.eqb (ts_tenantId x) (t_id tenant)) (tenantSettings s))
  = false ->
  Tenants.joinTenantBySlug env reqSlug s
  = (Throw (ExnApp (mkAppError
      "Public signup is disabled for this community. An invitation link is required to join."
      403 "PUBLIC_JOIN_DISABLED")), s)
  /\ exists m s',
       Tenants.joinTenant env reqId s = (Ok (201, Tenants.mapMembership m), s')
       /\ findOne (membershipOf (t_id tenant) (callerId u)) (memberships s') = Some m
       /\ m_role m = MEMBER
       /\ m_status m
          = Tenants.directJoinStatus
              (findOne (fun x => String.eqb (ts_tenantId x) (t_id tenant))
                       (tenantSettings s)).
Proof.
  intros Hctx Htok Hu Hpv Hten Hnone Hpub.
  split.
  - apply (joinTenantBySlug_closed_run env reqSlug s u tenant usr); try assumption.
    intros e He. rewrite Hnone in He. discriminate.
  - pose proof (joinTenant_run env reqId s u tenant Hu (jc_valid Hctx) Hpv Hten)
      as Hrun.
    rewrite Hnone in Hrun. cbv zeta in Hrun.
    eexists. eexists. split; [exact Hrun |].
    split.
    { simpl. apply findOne_insertDoc; [exact Hnone |].
      apply membershipOf_true. now split. }
    split; reflexivity.
Qed.

Lemma joinTenant_skips_signup_policy_witness :
  Tenants.joinTenantBySlug (H := Sample.hex24) Sample.env0
    (Sample.joinDirect Sample.bob "Bob" "2") Scenario.storeClosed
  = (Throw (ExnApp (mkAppError
      "Public signup is disabled for this community. An invitation link is required to join."
      403 "PUBLIC_JOIN_DISABLED")), Scenario.storeClosed)
  /\ exists m s',
       Tenants.joinTenant (H := Sample.hex24) Sample.env0
         (Sample.onPathA_plain Sample.bob) Scenario.storeClosed
       = (Ok (201, Tenants.mapMembership m), s')
       /\ m_role m = MEMBER /\ m_status m = ACTIVE.
Proof.
  assert (Hctx : JoinContext (H := Sample.hex24)
                   (Sample.joinDirect Sample.bob "Bob" "2") Scenario.storeClosed
                   (mkJwtUser Sample.bob USER) Sample.acme
                   (mkUser Sample.bob "bob@example.com" "Bob" "2" USER)).
  { constructor; try reflexivity. discriminate. }
  destruct (joinTenant_skips_signup_policy (H := Sample.hex24) Sample.env0
              (Sample.joinDirect Sample.bob "Bob" "2")
              (Sample.onPathA_plain Sample.bob) Scenario.storeClosed
              (mkJwtUser Sample.bob USER) Sample.acme
              (mkUser Sample.bob "bob@example.com" "Bob" "2" USER)
              Hctx eq_refl eq_refl eq_refl eq_refl eq_refl eq_refl)
    as (Hslug & m & s' & Hrun & _ & Hrole & Hstatus).
  split; [exact Hslug |].
  exists m, s'. split; [exact Hrun |]. split; [exact Hrole | exact Hstatus].
Defined.

(** ** Reading a tenant, and the member's own profile *)

Lemma active_lookup (s : Store) (t u : string) :
  (ActiveMember s t u ->
   exists m, findOne (activeMembershipOf t u) (memberships s) = Some m)
  /\ (~ ActiveMember s t u ->
      findOne (activeMembershipOf t u) (memberships s) = None).
Proof.
  split.
  - intros (m & Hin & Hm). exact (findOne_some_of_In _ _ m Hin Hm).
  - intros Hno. apply findOne_None. intros x Hin.
    destruct (activeMembershipOf t u x) eqn:E; [| reflexivity].
    exfalso. apply Hno. now exists x.
Qed.

(** X10.  For a well-formed id of a tenant that exists, a super-admin
    always reads the tenant; any other caller reads it exactly when they
    hold an ACTIVE membership in that tenant, and is answered 403
    otherwise (a PENDING or SUSPENDED membership is not enough).  The
    store is left as it is in each case.  Tenant and caller are the ones
    the two id strings denote as ObjectIds. *)
Theorem getTenantById_access `{Bson} (req : Request) (s : Store) (u : JwtUser)
  (tenant : Tenant) :
  user req = Some u ->
  isValid (routeParam (p_tenantId (params req))) = true ->
  findOne (fun t => String.eqb (t_id t) (pathTenantId req)) (tenants s)
  = Some tenant ->
  let view := TenantsMore.mkTenantView (t_id tenant) (t_name tenant) (t_slug tenant)
                                       (t_status tenant) (t_logoUrl tenant) in
  (globalRole u = SUPER_ADMIN ->
   TenantsMore.getTenantById req s = (Ok (200, view), s))
  /\ (globalRole u = USER -> isValid (sub u) = true ->
      (ActiveMember s (pathTenantId req) (callerId u) ->
       TenantsMore.getTenantById req s = (Ok (200, view), s))
      /\ (~ ActiveMember s (pathTenantId req) (callerId u) ->
          TenantsMore.getTenantById req s
          = (Throw (ExnApp (mkAppError "Forbidden" 403 "FORBIDDEN")), s))).
Proof.
  intros Hu Hv Ht view. unfold pathTenantId, callerId in *.
  unfold TenantsMore.getTenantById, Tenants.findTenantById, requireUser,
    newTypesObjectId, castObjectId, bind, gets, ret.
  rewrite Hv, Hu. cbn [negb]. cbv beta iota. rewrite Ht.
  split.
  - intros Hg. rewrite Hg. reflexivity.
  - intros Hg Hsub. rewrite Hg. cbn [GlobalRole_eqb negb]. cbv beta iota.
    rewrite Hsub. cbv beta iota.
    split.
    + intros Hact. destruct (proj1 (active_lookup s _ _) Hact) as [m Hm].
      rewrite Hm. reflexivity.
    + intros Hno. rewrite (proj2 (active_lookup s _ _) Hno). reflexivity.
Qed.

Lemma getTenantById_access_witness :
  TenantsMore.getTenantById (H := Sample.hex24) (Sample.onPathA_plain Sample.alice)
    Sample.storeA
  = (Ok (200, TenantsMore.mkTenantView Sample.tenantA "Acme" "acme" "ACTIVE" ""),
     Sample.storeA)
  /\ TenantsMore.getTenantById (H := Sample.hex24) (Sample.onPathA_plain Sample.bob)
       Sample.storeA
     = (Throw (ExnApp (mkAppError "Forbidden" 403 "FORBIDDEN")), Sample.storeA).
Proof.
  split.
  - refine (proj1 (proj2 (getTenantById_access (H := Sample.hex24)
                     (Sample.onPathA_plain Sample.alice) Sample.storeA
                     (mkJwtUser Sample.alice USER) Sample.acme
                     eq_refl eq_refl eq_refl) eq_refl eq_refl) _).
    exists Sample.aliceAdminA. split; [now left | reflexivity].
  - refine (proj2 (proj2 (getTenantById_access (H := Sample.hex24)
                     (Sample.onPathA_plain Sample.bob) Sample.storeA
                     (mkJwtUser Sample.bob USER) Sample.acme
                     eq_refl eq_refl eq_refl) eq_refl eq_refl) _).
    intros (m & [<- | [<- | []]] & Hm); discriminate.
Defined.

Lemma profileOf_true (t u : string) (p : MemberProfile) :
  TenantFeaturesMore.profileOf t u p = true <-> profileKey p = (t, u).
Proof.
  unfold TenantFeaturesMore.profileOf, profileKey.
  rewrite andb_true_iff, !String.eqb_eq. split.
  - intros [-> ->]. reflexivity.
  - intros E. injection E as -> ->. now split.
Qed.

Lemma map_updateFirst_matched {A B : Type} (key : A -> B) (p : A -> bool)
  (f : A -> A) (l : list A) :
  (forall x, p x = true -> key (f x) = key x) ->
  map key (updateFirst p f l) = map key l.
Proof.
  intros Hk. induction l as [| a l IH]; [reflexivity |].
  simpl. destruct (p a) eqn:E; simpl.
  - now rewrite (Hk a E).
  - now rewrite IH.
Qed.

Lemma findOne_updateFirst_frame {A : Type} (p q : A -> bool) (f : A -> A)
  (l : list A) :
  (forall x, p x = true -> q x = false /\ q (f x) = false) ->
  findOne q (updateFirst p f l) = findOne q l.
Proof.
  intros Hpq. induction l as [| a l IH]; [reflexivity |].
  simpl. destruct (p a) eqn:E.
  - destruct (Hpq a E) as [Hq Hqf]. simpl. now rewrite Hq, Hqf.
  - simpl. now rewrite IH.
Qed.

Lemma findOne_insertDoc_frame {A : Type} (q : A -> bool) (d : A) (l : list A) :
  q d = false -> findOne q (insertDoc d l) = findOne q l.
Proof.
  intros Hq. unfold insertDoc. induction l as [| a l IH]; simpl.
  - now rewrite Hq.
  - destruct (q a); [reflexivity | exact IH].
Qed.

Lemma upsert_const_fst {A : Type} (p : A -> bool) (d : A) (l : list A) :
  fst (upsert p (fun _ => d) d l) = d.
Proof. unfold upsert. destruct (findOne p l); reflexivity. Qed.

Lemma upsert_profile_unique (t u : string) (d : MemberProfile)
  (l : list MemberProfile) :
  profileKey d = (t, u) ->
  NoDup (map profileKey l) ->
  NoDup (map profileKey
           (snd (upsert (TenantFeaturesMore.profileOf t u) (fun _ => d) d l))).
Proof.
  intros Hd Hnd. unfold upsert.
  destruct (findOne (TenantFeaturesMore.profileOf t u) l) as [x|] eqn:E; simpl.
  - rewrite map_updateFirst_matched; [exact Hnd |].
    intros y Hy. apply profileOf_true in Hy. congruence.
  - unfold insertDoc. rewrite map_app. simpl.
    apply NoDup_app; [exact Hnd | repeat constructor; intros [] |].
    intros k Hin [<- | []].
    apply in_map_iff in Hin. destruct Hin as [m [Hk Hm]].
    pose proof (proj1 (findOne_None _ _) E m Hm) as Hp.
    assert (Hq : TenantFeaturesMore.profileOf t u m = true).
    { apply profileOf_true. congruence. }
    congruence.
Qed.

Lemma upsert_profile_frame (t u t' u' : string) (d : MemberProfile)
  (l : list MemberProfile) :
  profileKey d = (t, u) -> (t', u') <> (t, u) ->
  findOne (TenantFeaturesMore.profileOf t' u')
          (snd (upsert (TenantFeaturesMore.profileOf t u) (fun _ => d) d l))
  = findOne (TenantFeaturesMore.profileOf t' u') l.
Proof.
  intros Hd Hne.
  assert (Hoff : forall x, profileKey x = (t, u) ->
                           TenantFeaturesMore.profileOf t' u' x = false).
  { intros x Hx. destruct (TenantFeaturesMore.profileOf t' u' x) eqn:E;
      [| reflexivity].
    apply profileOf_true in E. congruence. }
  unfold upsert.
  destruct (findOne (TenantFeaturesMore.profileOf t u) l) as [x|]; simpl.
  - apply findOne_updateFirst_frame. intros y Hy. apply profileOf_true in Hy.
    split; [now apply Hoff | now apply Hoff].
  - apply findOne_insertDoc_frame. now apply Hoff.
Qed.

Lemma features_ensureMembership_run `{Bson} (s : Store) (t u : string) :
  isValid t = true -> isValid u = true ->
  TenantFeatures.ensureMembership t u s
  = match findOne (activeMembershipOf (hexOf t) (hexOf u)) (memberships s) with
    | Some _ => (Ok tt, s)
    | None => (Throw notMember, s)
    end.
Proof.
  intros Ht Hu.
  unfold TenantFeatures.ensureMembership, TenantFeatures.tenantObjectId, bind, gets,
    ret.
  rewrite Ht, Hu. cbn [negb]. cbv beta iota.
  destruct (findOne _ (memberships s)); reflexivity.
Qed.

Lemma updateMyMemberProfile_run `{Bson} (req : Request) (s : Store) (u : JwtUser) :
  user req = Some u ->
  isValid (pathTenant req) = true -> isValid (sub u) = true ->
  TenantFeaturesMore.updateMyMemberProfile req s
  = match findOne (activeMembershipOf (pathTenantId req) (callerId u))
                  (memberships s) with
    | None => (Throw notMember, s)
    | Some _ =>
        let d := mkMemberProfile (pathTenantId req) (callerId u)
                   (trim (b_fullName (body req))) (trim (b_phone (body req))) in
        (Ok (200, d),
         set_memberProfiles
           (snd (upsert (TenantFeaturesMore.profileOf (pathTenantId req) (callerId u))
                        (fun _ => d) d (memberProfiles s))) s)
    end.
Proof.
  intros Hu Ht Hs. unfold pathTenant, pathTenantId, callerId in *.
  unfold TenantFeaturesMore.updateMyMemberProfile, TenantFeatures.ensureMembership,
    TenantFeatures.tenantObjectId, requireUser, bind, gets, ret.
  rewrite Hu. cbv beta iota. rewrite Ht, Hs. cbn [negb]. cbv beta iota.
  destruct (findOne (activeMembershipOf _ _) (memberships s)); [| reflexivity].
  cbv beta iota.
  pose proof (upsert_const_fst
                (TenantFeaturesMore.profileOf
                   (hexOf (routeParam (p_tenantId (params req)))) (hexOf (sub u)))
                (mkMemberProfile (hexOf (routeParam (p_tenantId (params req))))
                   (hexOf (sub u))
                   (trim (b_fullName (body req))) (trim (b_phone (body req))))
                (memberProfiles s)) as Hfst.
  destruct (upsert _ _ _ (memberProfiles s)) as [p0 ps]. simpl in Hfst. subst p0.
  reflexivity.
Qed.

Lemma getMyMemberProfile_run `{Bson} (req : Request) (s : Store) (u : JwtUser) :
  user req = Some u ->
  isValid (pathTenant req) = true -> isValid (sub u) = true ->
  TenantFeaturesMore.getMyMemberProfile req s
  = match findOne (activeMembershipOf (pathTenantId req) (callerId u))
                  (memberships s) with
    | None => (Throw notMember, s)
    | Some _ =>
        let profile :=
          findOne (TenantFeaturesMore.profileOf (pathTenantId req) (callerId u))
                  (memberProfiles s) in
        (Ok (200,
             TenantFeaturesMore.mkProfileView
               (match findOne (membershipOf (pathTenantId req) (callerId u))
                              (memberships s)
                with Some m => m_status m | None => PENDING end)
               (match profile with Some p => mp_fullName p | None => "" end)
               (match profile with Some p => mp_phone p | None => "" end)), s)
    end.
Proof.
  intros Hu Ht Hs. unfold pathTenant, pathTenantId, callerId in *.
  unfold TenantFeaturesMore.getMyMemberProfile, TenantFeatures.ensureMembership,
    TenantFeatures.tenantObjectId, requireUser, bind, gets, ret.
  rewrite Hu. cbv beta iota. rewrite Ht, Hs. cbn [negb]. cbv beta iota.
  destruct (findOne (activeMembershipOf _ _) (memberships s)); reflexivity.
Qed.

(** X11.  The member-profile endpoints answer 403 to a caller without an
    ACTIVE membership in the tenant of the path, and write nothing.  For
    an ACTIVE member the update stores the trimmed name and phone under
    the (tenant, caller) pair, leaves memberships, users and every other
    pair's profile as they were, keeps profiles unique per pair, and a
    read that follows returns what was written.  The tenant and the
    caller are the ones the path string and the token's subject denote as
    ObjectIds: a path that writes the id of the member's tenant in upper
    case is a path of that tenant. *)
Theorem member_profile_round_trip `{Bson} (req : Request) (s : Store) (u : JwtUser) :
  user req = Some u ->
  isValid (pathTenant req) = true -> isValid (sub u) = true ->
  (~ ActiveMember s (pathTenantId req) (callerId u) ->
   TenantFeaturesMore.updateMyMemberProfile req s = (Throw notMember, s)
   /\ TenantFeaturesMore.getMyMemberProfile req s = (Throw notMember, s))
  /\ (ActiveMember s (pathTenantId req) (callerId u) ->
      exists s',
        TenantFeaturesMore.updateMyMemberProfile req s
        = (Ok (200, mkMemberProfile (pathTenantId req) (callerId u)
                      (trim (b_fullName (body req))) (trim (b_phone (body req)))),
           s')
        /\ memberships s' = memberships s /\ users s' = users s
        /\ (UniqueProfiles s -> UniqueProfiles s')
        /\ (forall t' u', (t', u') <> (pathTenantId req, callerId u) ->
              findOne (TenantFeaturesMore.profileOf t' u') (memberProfiles s')
              = findOne (TenantFeaturesMore.profileOf t' u') (memberProfiles s))
        /\ (forall req',
              user req' = Some u -> isValid (pathTenant req') = true ->
              pathTenantId req' = pathTenantId req ->
              exists st,
                TenantFeaturesMore.getMyMemberProfile req' s'
                = (Ok (200, TenantFeaturesMore.mkProfileView st
                              (trim (b_fullName (body req)))
                              (trim (b_phone (body req)))), s')
                /\ (UniqueMemberships s -> st = ACTIVE))).
Proof.
  intros Hu Ht Hs. split.
  - intros Hno.
    rewrite (updateMyMemberProfile_run req s u Hu Ht Hs).
    rewrite (getMyMemberProfile_run req s u Hu Ht Hs).
    rewrite (proj2 (active_lookup s _ _) Hno). now split.
  - intros Hact.
    destruct (proj1 (active_lookup s _ _) Hact) as [m Hm].
    eexists. split.
    { rewrite (updateMyMemberProfile_run req s u Hu Ht Hs), Hm. reflexivity. }
    split; [reflexivity |]. split; [reflexivity |].
    split.
    { unfold UniqueProfiles. simpl. now apply upsert_profile_unique. }
    split.
    { intros t' u' Hne. simpl. now apply upsert_profile_frame. }
    intros req' Hu' Ht' Hp.
    rewrite (getMyMemberProfile_run req' _ u Hu' Ht' Hs). rewrite Hp. simpl memberships.
    rewrite Hm. cbv zeta. simpl memberProfiles.
    rewrite upsert_findOne;
      [| intros; apply profileOf_true; reflexivity | apply profileOf_true; reflexivity].
    rewrite upsert_const_fst. simpl mp_fullName. simpl mp_phone.
    eexists. split; [reflexivity |].
    intros Huniq.
    destruct (findOne_In _ _ _ Hm) as [Hin Hmk].
    apply activeMembershipOf_true in Hmk. destruct Hmk as (Hmt & Hmu & Hms).
    destruct (findOne_some_of_In (membershipOf (pathTenantId req) (callerId u))
                (memberships s) m Hin) as [y Hy].
    { apply membershipOf_true. now split. }
    rewrite Hy.
    destruct (findOne_In _ _ _ Hy) as [Hyin Hyk].
    apply membershipOf_true in Hyk. destruct Hyk as [Hyt Hyu].
    assert (y = m).
    { apply (unique_key_same (memberships s)); try assumption.
      unfold memberKey. congruence. }
    now subst y.
Qed.

Lemma member_profile_round_trip_witness :
  (exists s',
     TenantFeaturesMore.updateMyMemberProfile (H := Sample.hex24)
       (Scenario.editProfile Sample.alice "  Alice A. " "555") Sample.storeA
     = (Ok (200, mkMemberProfile Sample.tenantA Sample.alice "Alice A." "555"), s')
     /\ TenantFeaturesMore.getMyMemberProfile (H := Sample.hex24)
          (Sample.onPathUpperA Sample.alice) s'
        = (Ok (200, TenantFeaturesMore.mkProfileView ACTIVE "Alice A." "555"), s'))
  /\ TenantFeaturesMore.updateMyMemberProfile (H := Sample.hex24)
       (Scenario.editProfile Sample.bob "Bob" "2") Sample.storeA
     = (Throw notMember, Sample.storeA).
Proof.
  split.
  - destruct (member_profile_round_trip (H := Sample.hex24)
                (Scenario.editProfile Sample.alice "  Alice A. " "555") Sample.storeA
                (mkJwtUser Sample.alice USER) eq_refl eq_refl eq_refl) as [_ Hok].
    destruct Hok as (s' & Hrun & _ & _ & _ & _ & Hread).
    { exists Sample.aliceAdminA. split; [now left | reflexivity]. }
    destruct (Hread (Sample.onPathUpperA Sample.alice) eq_refl eq_refl eq_refl)
      as (st & Hget & Hst).
    exists s'. split; [exact Hrun |].
    rewrite Hget. rewrite Hst; [reflexivity |].
    repeat constructor; simpl; intuition discriminate.
  - apply (proj1 (member_profile_round_trip (H := Sample.hex24)
                    (Scenario.editProfile Sample.bob "Bob" "2") Sample.storeA
                    (mkJwtUser Sample.bob USER) eq_refl eq_refl eq_refl)).
    intros (m & [<- | [<- | []]] & Hm); discriminate.
Defined.

(** ** Uploads *)

Lemma includesType_In (types : list string) (t : string) :
  TenantUploadWrite.includesType types t = true <-> In t types.
Proof.
  unfold TenantUploadWrite.includesType. rewrite existsb_exists. split.
  - intros (x & Hin & E). apply String.eqb_eq in E. now subst.
  - intros Hin. exists t. split; [exact Hin | apply String.eqb_refl].
Qed.

Lemma image_types (t : string) :
  In t TenantUploadWrite.IMAGE_TYPES <-> isImageType t.
Proof.
  unfold TenantUploadWrite.IMAGE_TYPES, isImageType. simpl.
  intuition (subst; auto).
Qed.

Lemma resource_types (t : string) :
  In t TenantUploadWrite.RESOURCE_TYPES <-> isImageType t \/ isDocumentType t.
Proof.
  unfold TenantUploadWrite.RESOURCE_TYPES. rewrite in_app_iff, image_types.
  unfold isDocumentType. simpl. intuition (subst; auto 10).
Qed.

Lemma streamToGridFS_run (id buffer filename contentType : string)
  (metadata : TenantUploadWrite.FileTags) (s : Store) (files : list FileDoc) :
  gridfs s = Some files ->
  let d := mkFileDoc id filename (Some contentType)
             (Z.of_nat (String.length buffer))
             (Some (mkFileMetadata (JString (TenantUploadWrite.tag_tenantId metadata))
                                   (TenantUploadWrite.tag_purpose metadata)
                                   (TenantUploadWrite.tag_uploadedBy metadata)))
             buffer in
  exists s',
    TenantUploadWrite.streamToGridFS id buffer filename contentType metadata s
    = (Ok id, s')
    /\ AddsFile s s' d.
Proof.
  intros Hdb d.
  unfold TenantUploadWrite.streamToGridFS, bind, modify, ret. rewrite Hdb.
  eexists. split; [reflexivity |].
  exists files. split; [exact Hdb |].
  simpl. repeat (split; [reflexivity |]). reflexivity.
Qed.

Lemma getBucket_run (s : Store) :
  TenantUploadWrite.getBucket s
  = match gridfs s with
    | Some _ => (Ok tt, s)
    | None => (Throw (ExnApp (mkAppError "Database not connected" 503
                                         "SERVICE_UNAVAILABLE")), s)
    end.
Proof.
  unfold TenantUploadWrite.getBucket, bind, gets. destruct (gridfs s); reflexivity.
Qed.

Lemma upload_tail_run {A : Type} (id buffer filename contentType : string)
  (metadata : TenantUploadWrite.FileTags) (res : string -> A) (s : Store) :
  let d := mkFileDoc id filename (Some contentType)
             (Z.of_nat (String.length buffer))
             (Some (mkFileMetadata (JString (TenantUploadWrite.tag_tenantId metadata))
                                   (TenantUploadWrite.tag_purpose metadata)
                                   (TenantUploadWrite.tag_uploadedBy metadata)))
             buffer in
  let call :=
    (TenantUploadWrite.getBucket ;;;
     (fileId <- TenantUploadWrite.streamToGridFS id buffer filename contentType
                  metadata ;;
      ret (res fileId))) in
  (gridfs s = None /\ exists e, call s = (Throw e, s))
  \/ (exists s', call s = (Ok (res id), s') /\ AddsFile s s' d).
Proof.
  intros d call. unfold call.
  destruct (gridfs s) as [files|] eqn:Hdb.
  - right.
    assert (Hb : TenantUploadWrite.getBucket s = (Ok tt, s))
      by (rewrite getBucket_run, Hdb; reflexivity).
    rewrite (bind_ok _ _ _ _ _ Hb).
    destruct (streamToGridFS_run id buffer filename contentType metadata s files Hdb)
      as (s1 & Hrun & Hadd).
    rewrite (bind_ok _ _ _ _ _ Hrun).
    exists s1. split; [reflexivity | exact Hadd].
  - left. split; [reflexivity |].
    unfold bind at 1. rewrite getBucket_run, Hdb. eexists. reflexivity.
Qed.

Lemma single_upload_cases (k : UploadKind) (env : Env) (req : Request)
  (file : option UploadedFile) (s : Store) :
  (exists e, uploadOf k env req file s = (Throw e, s)
             /\ (file = None
                 \/ (exists f, file = Some f
                               /\ (limitOf k < uf_size f \/ ~ acceptedBy k (uf_mimetype f)))
                 \/ gridfs s = None))
  \/ (exists f d r s',
         file = Some f /\ uf_size f <= limitOf k /\ acceptedBy k (uf_mimetype f)
         /\ uploadOf k env req file s = (Ok (201, r), s')
         /\ AddsFile s s' d /\ HoldsUpload d f req (purposeOf k)
         /\ f_id d = newObjectId env 0
         /\ TenantUploadWrite.ur_fileId r = newObjectId env 0
         /\ TenantUploadWrite.ur_mimeType r = uf_mimetype f
         /\ TenantUploadWrite.ur_size r = uf_size f
         /\ TenantUploadWrite.ur_thumbnailFileId r = None).
Proof.
  destruct file as [f|].
  2:{ left. destruct k; eexists; (split; [reflexivity | now left]). }
  destruct (Z.ltb_spec (limitOf k) (uf_size f)) as [Hbig | Hfit].
  { left.
    destruct k; cbn [uploadOf];
      [unfold TenantUploadWrite.uploadEventThumbnail
      | unfold TenantUploadWrite.uploadAnnouncementAttachment
      | unfold TenantUploadWrite.uploadPostMedia];
      match goal with
      | |- context [?a <? uf_size f] =>
          replace (a <? uf_size f) with true
            by (symmetry; apply Z.ltb_lt; exact Hbig)
      end;
      eexists;
      (split; [reflexivity | right; left; exists f; split; [reflexivity | now left]]). }
  assert (Htype : forall types,
             (forall t, In t types <-> acceptedBy k t) ->
             {TenantUploadWrite.includesType types (uf_mimetype f) = true
              /\ acceptedBy k (uf_mimetype f)}
             + {TenantUploadWrite.includesType types (uf_mimetype f) = false
                /\ ~ acceptedBy k (uf_mimetype f)}).
  { intros types Hty.
    destruct (TenantUploadWrite.includesType types (uf_mimetype f)) eqn:E.
    - left. split; [reflexivity |]. now apply Hty, includesType_In.
    - right. split; [reflexivity |]. intros Hacc. apply Hty, includesType_In in Hacc.
      congruence. }
  destruct k; cbn [uploadOf limitOf purposeOf] in *;
    [unfold TenantUploadWrite.uploadEventThumbnail;
     destruct (Htype TenantUploadWrite.IMAGE_TYPES image_types) as [[Hin Hacc] | [Hin Hacc]]
    | unfold TenantUploadWrite.uploadAnnouncementAttachment;
      destruct (Htype TenantUploadWrite.ATTACHMENT_TYPES resource_types)
        as [[Hin Hacc] | [Hin Hacc]]
    | unfold TenantUploadWrite.uploadPostMedia;
      destruct (Htype TenantUploadWrite.IMAGE_TYPES image_types)
        as [[Hin Hacc] | [Hin Hacc]]];
    match goal with
    | |- context [?a <? uf_size f] =>
        replace (a <? uf_size f) with false
          by (symmetry; apply Z.ltb_ge; exact Hfit)
    end;
    rewrite Hin; cbn [negb]; cbv zeta;
    try (left; eexists; split;
         [reflexivity | right; left; exists f; split; [reflexivity | now right]]);
    match goal with
    | |- context [(TenantUploadWrite.getBucket ;;;
                   (fileId <- TenantUploadWrite.streamToGridFS ?id ?b ?n ?c ?m ;;
                    ret (@?res fileId))) s] =>
        destruct (upload_tail_run id b n c m res s)
          as [(Hdb & e0 & Hrun) | (s1 & Hrun & Hadd)]
    end;
    [ left; exists e0; split; [exact Hrun | now right; right]
    | right; eexists f, _, _, s1;
      split; [reflexivity |]; split; [exact Hfit |]; split; [exact Hacc |];
      split; [exact Hrun |]; split; [exact Hadd |];
      split; [repeat split |]; repeat split
    | left; exists e0; split; [exact Hrun | now right; right]
    | right; eexists f, _, _, s1;
      split; [reflexivity |]; split; [exact Hfit |]; split; [exact Hacc |];
      split; [exact Hrun |]; split; [exact Hadd |];
      split; [repeat split |]; repeat split
    | left; exists e0; split; [exact Hrun | now right; right]
    | right; eexists f, _, _, s1;
      split; [reflexivity |]; split; [exact Hfit |]; split; [exact Hacc |];
      split; [exact Hrun |]; split; [exact Hadd |];
      split; [repeat split |]; repeat split ].
Qed.

(** X12.  What the three one-file upload endpoints do.  A call that
    succeeds answers 201, had a file within the size limit of its endpoint
    (2 MB for an event thumbnail, 10 MB for an announcement attachment,
    5 MB for post media) and of an accepted type, and has added exactly
    one file document: it holds the uploaded bytes and content type, and
    is tagged with the tenant of the path, the purpose of the endpoint
    and the caller.  No other collection changes, and a call that throws
    has stored nothing. *)
Theorem single_uploads_validate_and_stamp (k : UploadKind) (env : Env)
  (req : Request) (file : option UploadedFile) (s s' : Store) :
  (forall st r,
      uploadOf k env req file s = (Ok (st, r), s') ->
      st = 201
      /\ exists f d,
           file = Some f /\ uf_size f <= limitOf k /\ acceptedBy k (uf_mimetype f)
           /\ AddsFile s s' d /\ HoldsUpload d f req (purposeOf k)
           /\ f_id d = TenantUploadWrite.ur_fileId r
           /\ TenantUploadWrite.ur_mimeType r = uf_mimetype f
           /\ TenantUploadWrite.ur_size r = uf_size f)
  /\ (forall e, uploadOf k env req file s = (Throw e, s') -> s' = s).
Proof.
  destruct (single_upload_cases k env req file s)
    as [(e0 & Hthrow & _) | (f & d & r0 & s1 & Hf & Hfit & Hacc & Hrun & Hadd & Hholds
                             & Hid & Hrid & Hmt & Hsz & _)].
  - split.
    + intros st r Hok. rewrite Hthrow in Hok. discriminate.
    + intros e He. rewrite Hthrow in He. now injection He.
  - split.
    + intros st r Hok. rewrite Hrun in Hok. injection Hok as <- <- <-.
      split; [reflexivity |]. exists f, d.
      repeat (split; [assumption |]).
      split; [congruence |]. now split.
    + intros e He. rewrite Hrun in He. discriminate.
Qed.

Lemma single_uploads_validate_and_stamp_witness :
  exists r s',
    TenantUploadWrite.uploadPostMedia Sample.env0 (Sample.onPathA_plain Sample.alice)
      (Some Scenario.png) Sample.emptyStore = (Ok (201, r), s')
    /\ exists d, AddsFile Sample.emptyStore s' d
                 /\ TenantUpload.metaTenantId d = JString Sample.tenantA.
Proof.
  destruct (TenantUploadWrite.uploadPostMedia Sample.env0
              (Sample.onPathA_plain Sample.alice) (Some Scenario.png)
              Sample.emptyStore) as [[[st r] | e] s'] eqn:Hrun;
    [| vm_compute in Hrun; discriminate].
  destruct (single_uploads_validate_and_stamp PostMedia Sample.env0
              (Sample.onPathA_plain Sample.alice) (Some Scenario.png)
              Sample.emptyStore s') as [Hok _].
  destruct (Hok st r Hrun) as (-> & f & d & _ & _ & _ & Hadd & Hholds & _).
  exists r, s'. split; [reflexivity |].
  exists d. split; [exact Hadd |].
  destruct Hholds as (_ & _ & _ & Hmeta).
  unfold TenantUpload.metaTenantId. rewrite Hmeta. reflexivity.
Defined.

Lemma image_nonempty (t : string) : isImageType t -> isEmpty t = false.
Proof. intros [-> | [-> | [-> | ->]]]; reflexivity. Qed.

Lemma document_nonempty (t : string) : isDocumentType t -> isEmpty t = false.
Proof. intros [-> | [-> | [-> | [-> | [-> | [-> | ->]]]]]]; reflexivity. Qed.

Lemma accepted_nonempty (k : UploadKind) (t : string) :
  acceptedBy k t -> isEmpty t = false.
Proof.
  destruct k; simpl; intros Hacc;
    try (now apply image_nonempty);
    destruct Hacc; [now apply image_nonempty | now apply document_nonempty].
Qed.

Lemma getTenantFile_run `{Bson} (req : Request) (s : Store) (u : JwtUser)
  (files : list FileDoc) :
  user req = Some u ->
  isValid (pathTenant req) = true -> isValid (sub u) = true ->
  ActiveMember s (pathTenantId req) (callerId u) ->
  routeParam (p_fileId (params req)) <> "" ->
  isValid (routeParam (p_fileId (params req))) = true ->
  gridfs s = Some files ->
  TenantUpload.getTenantFile req s
  = match findOne (fun d => String.eqb (f_id d)
                              (hexOf (routeParam (p_fileId (params req)))))
                  files with
    | None => (Throw fileNotFound, s)
    | Some d =>
        if negb (String.eqb (String_ (TenantUpload.metaTenantId d)) (pathTenant req))
        then (Throw fileNotFound, s)
        else (Ok (TenantUpload.mkDownload (TenantUpload.contentTypeHeader d)
                                          (f_content d)), s)
    end.
Proof.
  intros Hu Ht Hs Hact Hne Hf Hdb. unfold pathTenant, pathTenantId, callerId in *.
  unfold TenantUpload.getTenantFile.
  assert (Hreq : requireUser req s = (Ok u, s))
    by (unfold requireUser; rewrite Hu; reflexivity).
  rewrite (bind_ok _ _ _ _ _ Hreq).
  rewrite (bind_ok _ _ _ _ _ (upload_ensureMembership_ok s _ _ Ht Hs Hact)).
  rewrite (isEmpty_false _ Hne), Hf. cbn [negb orb].
  unfold bind, gets. rewrite Hdb.
  destruct (findOne _ files) as [d|]; [| reflexivity].
  destruct (negb _); reflexivity.
Qed.

(** X13.  A file stored by one of the one-file uploads under a new id can
    be downloaded by any ACTIVE member of the tenant on whose path it was
    uploaded, and the download carries the uploaded bytes and content
    type; the same file id requested on the path of any other tenant is
    answered 404, also to an ACTIVE member of that other tenant.  The
    file is tagged with the tenant string of the upload path, and the
    download compares that string with the one of its own path. *)
Theorem upload_then_download `{Bson} (k : UploadKind) (env : Env)
  (req req' : Request) (f : UploadedFile) (s s' : Store)
  (r : TenantUploadWrite.UploadResult) (v : JwtUser) :
  uploadOf k env req (Some f) s = (Ok (201, r), s') ->
  FreshFileId s (TenantUploadWrite.ur_fileId r) ->
  routeParam (p_fileId (params req')) <> "" ->
  isValid (routeParam (p_fileId (params req'))) = true ->
  hexOf (routeParam (p_fileId (params req'))) = TenantUploadWrite.ur_fileId r ->
  user req' = Some v ->
  isValid (pathTenant req') = true -> isValid (sub v) = true ->
  ActiveMember s (pathTenantId req') (callerId v) ->
  (pathTenant req' = pathTenant req ->
   TenantUpload.getTenantFile req' s'
   = (Ok (TenantUpload.mkDownload (uf_mimetype f) (uf_buffer f)), s'))
  /\ (pathTenant req' <> pathTenant req ->
      TenantUpload.getTenantFile req' s' = (Throw fileNotFound, s')).
Proof.
  intros Hup Hfresh Hne Hvalid Hfile Hv Ht Hs Hact.
  destruct (single_upload_cases k env req (Some f) s)
    as [(e0 & Hthrow & _) | (f0 & d & r0 & s1 & Hf & Hfit & Hacc & Hrun & Hadd
                             & Hholds & Hid & Hrid & _)].
  { rewrite Hthrow in Hup. discriminate. }
  injection Hf as <-.
  rewrite Hrun in Hup. injection Hup as <- <-.
  destruct Hadd as (files & Hdb & Hdb' & _ & _ & _ & Hmem & _).
  destruct Hholds as (Hbytes & Hct & _ & Hmeta).
  assert (Hact' : ActiveMember s1 (pathTenantId req') (callerId v)).
  { destruct Hact as (m & Hin & Hm). exists m. now rewrite Hmem. }
  assert (Hfind : findOne (fun x => String.eqb (f_id x)
                                      (hexOf (routeParam (p_fileId (params req')))))
                          (insertDoc d files) = Some d).
  { apply findOne_insertDoc.
    - apply findOne_none_of_all. intros x Hx. apply String.eqb_neq.
      rewrite Hfile. exact (Hfresh files x Hdb Hx).
    - apply String.eqb_eq. now rewrite Hfile, Hid, Hrid. }
  assert (Hrun' := getTenantFile_run req' s1 v (insertDoc d files) Hv Ht Hs Hact'
                     Hne Hvalid Hdb').
  rewrite Hfind in Hrun'.
  assert (Htag : String_ (TenantUpload.metaTenantId d) = pathTenant req).
  { unfold TenantUpload.metaTenantId. rewrite Hmeta. reflexivity. }
  rewrite Htag in Hrun'.
  split.
  - intros Hsame. rewrite Hrun'.
    replace (String.eqb (pathTenant req) (pathTenant req')) with true
      by (symmetry; apply String.eqb_eq; now symmetry).
    cbn [negb].
    unfold TenantUpload.contentTypeHeader. rewrite Hct, Hbytes.
    now rewrite (accepted_nonempty k _ Hacc).
  - intros Hdiff. rewrite Hrun'.
    replace (String.eqb (pathTenant req) (pathTenant req')) with false
      by (symmetry; apply String.eqb_neq; congruence).
    reflexivity.
Qed.

Lemma upload_then_download_witness :
  exists r s',
    TenantUploadWrite.uploadEventThumbnail Sample.env0
      (Sample.onPathA_plain Sample.alice) (Some Scenario.png) Scenario.storeAB
    = (Ok (201, r), s')
    /\ TenantUpload.getTenantFile (H := Sample.hex24)
         (Scenario.downloadFrom Sample.alice Sample.tenantA
            (TenantUploadWrite.ur_fileId r)) s'
       = (Ok (TenantUpload.mkDownload "image/png" "PNG-bytes"), s')
    /\ TenantUpload.getTenantFile (H := Sample.hex24)
         (Scenario.downloadFrom Sample.bob Sample.tenantB
            (TenantUploadWrite.ur_fileId r)) s'
       = (Throw fileNotFound, s').
Proof.
  destruct (TenantUploadWrite.uploadEventThumbnail Sample.env0
              (Sample.onPathA_plain Sample.alice) (Some Scenario.png)
              Scenario.storeAB) as [[[st r] | e] s'] eqn:Hrun;
    [| vm_compute in Hrun; discriminate].
  assert (Hr : st = 201
               /\ TenantUploadWrite.ur_fileId r = "0000000000000000000000c0").
  { pose proof Hrun as Hc. vm_compute in Hc. injection Hc as <- <- _.
    split; reflexivity. }
  destruct Hr as [-> Hid].
  exists r, s'. split; [reflexivity |].
  assert (Hfresh : FreshFileId Scenario.storeAB (TenantUploadWrite.ur_fileId r)).
  { intros files d Hdb Hin. injection Hdb as <-. destruct Hin. }
  split.
  - refine (proj1 (upload_then_download (H := Sample.hex24) EventThumbnail Sample.env0
                     (Sample.onPathA_plain Sample.alice)
                     (Scenario.downloadFrom Sample.alice Sample.tenantA
                        (TenantUploadWrite.ur_fileId r))
                     Scenario.png Scenario.storeAB s' r (mkJwtUser Sample.alice USER)
                     Hrun Hfresh _ _ _ eq_refl eq_refl eq_refl _) eq_refl).
    + simpl. rewrite Hid. discriminate.
    + simpl. rewrite Hid. reflexivity.
    + simpl. rewrite Hid. reflexivity.
    + exists Sample.aliceAdminA. split; [now left | reflexivity].
  - refine (proj2 (upload_then_download (H := Sample.hex24) EventThumbnail Sample.env0
                     (Sample.onPathA_plain Sample.alice)
                     (Scenario.downloadFrom Sample.bob Sample.tenantB
                        (TenantUploadWrite.ur_fileId r))
                     Scenario.png Scenario.storeAB s' r (mkJwtUser Sample.bob USER)
                     Hrun Hfresh _ _ _ eq_refl eq_refl eq_refl _) _).
    + simpl. rewrite Hid. discriminate.
    + simpl. rewrite Hid. reflexivity.
    + simpl. rewrite Hid. reflexivity.
    + exists Scenario.bobActiveB. split; [right; now left | reflexivity].
    + discriminate.
Defined.

Lemma resource_head_run (env : Env) (req : Request) (f : UploadedFile)
  (thumb : option UploadedFile) (s : Store) (files : list FileDoc) :
  gridfs s = Some files ->
  uf_size f <= megabytes 20 ->
  isImageType (uf_mimetype f) \/ isDocumentType (uf_mimetype f) ->
  exists s1 d,
    AddsFile s s1 d /\ HoldsUpload d f req "resource"
    /\ f_id d = newObjectId env 0
    /\ TenantUploadWrite.uploadResource env req (Some f) thumb s
       = match thumb with
         | None =>
             (Ok (201, TenantUploadWrite.mkUploadResult (newObjectId env 0)
                         (TenantUploadWrite.nameOr "file" f) (uf_mimetype f)
                         (uf_size f) None), s1)
         | Some t =>
             if TenantUploadWrite.MAX_THUMBNAIL_SIZE <? uf_size t then
               (Throw (ExnApp (mkAppError "Thumbnail must be 2MB or smaller" 400
                                          "VALIDATION_ERROR")), s1)
             else if negb (TenantUploadWrite.includesType
                             TenantUploadWrite.IMAGE_TYPES (uf_mimetype t)) then
               (Throw (ExnApp (mkAppError "Thumbnail must be JPEG, PNG, GIF, or WebP"
                                          400 "VALIDATION_ERROR")), s1)
             else
               (thumbId <- TenantUploadWrite.streamToGridFS (newObjectId env 1)
                             (uf_buffer t)
                             ("resource-thumb-"
                              ++ TenantUploadWrite.showNumber (now env) ++ "-"
                              ++ TenantUploadWrite.safeChars
                                   (TenantUploadWrite.nameOr "thumb" t))
                             (uf_mimetype t)
                             (TenantUploadWrite.mkFileTags
                                (routeParam (p_tenantId (params req)))
                                "resource-thumbnail"
                                (TenantUploadWrite.uploaderOf req)) ;;
                ret (201, TenantUploadWrite.mkUploadResult (newObjectId env 0)
                            (TenantUploadWrite.nameOr "file" f) (uf_mimetype f)
                            (uf_size f) (Some thumbId))) s1
         end.
Proof.
  intros Hdb Hfit Hacc.
  unfold TenantUploadWrite.uploadResource.
  replace (TenantUploadWrite.MAX_RESOURCE_SIZE <? uf_size f) with false
    by (symmetry; apply Z.ltb_ge; exact Hfit).
  replace (TenantUploadWrite.includesType TenantUploadWrite.RESOURCE_TYPES
             (uf_mimetype f)) with true
    by (symmetry; now apply includesType_In, resource_types).
  cbn [negb]. cbv zeta.
  assert (Hb : TenantUploadWrite.getBucket s = (Ok tt, s))
    by (rewrite getBucket_run, Hdb; reflexivity).
  rewrite (bind_ok _ _ _ _ _ Hb).
  match goal with
  | |- context [TenantUploadWrite.streamToGridFS ?id ?b ?n ?c ?m] =>
      destruct (streamToGridFS_run id b n c m s files Hdb) as (s1 & Hrun & Hadd)
  end.
  rewrite (bind_ok _ _ _ _ _ Hrun).
  eexists s1, _. split; [exact Hadd |].
  split; [repeat split |]. split; [reflexivity |].
  destruct thumb as [t|]; [| reflexivity].
  destruct (TenantUploadWrite.MAX_THUMBNAIL_SIZE <? uf_size t); [reflexivity |].
  destruct (negb _); reflexivity.
Qed.

(** X14.  [uploadResource] stores the resource before it checks the
    thumbnail.  With a valid resource and a thumbnail that is too large or
    is no image, the call throws a 400 and the resource file is in the
    bucket all the same.  With a valid thumbnail the call answers 201 and
    has added two files, the resource and then the thumbnail, both tagged
    with the tenant of the path, and the answer names both ids. *)
Theorem uploadResource_stores_before_thumbnail_check (env : Env) (req : Request)
  (f t : UploadedFile) (s : Store) (files : list FileDoc) :
  gridfs s = Some files ->
  uf_size f <= megabytes 20 ->
  isImageType (uf_mimetype f) \/ isDocumentType (uf_mimetype f) ->
  (megabytes 2 < uf_size t \/ ~ isImageType (uf_mimetype t) ->
   exists e s' d,
     TenantUploadWrite.uploadResource env req (Some f) (Some t) s
     = (Throw (ExnApp e), s')
     /\ statusCode e = 400
     /\ AddsFile s s' d /\ HoldsUpload d f req "resource")
  /\ (uf_size t <= megabytes 2 -> isImageType (uf_mimetype t) ->
      exists r s1 s' d1 d2,
        TenantUploadWrite.uploadResource env req (Some f) (Some t) s
        = (Ok (201, r), s')
        /\ AddsFile s s1 d1 /\ AddsFile s1 s' d2
        /\ HoldsUpload d1 f req "resource"
        /\ HoldsUpload d2 t req "resource-thumbnail"
        /\ TenantUploadWrite.ur_fileId r = f_id d1
        /\ TenantUploadWrite.ur_thumbnailFileId r = Some (f_id d2)).
Proof.
  intros Hdb Hfit Hacc.
  destruct (resource_head_run env req f (Some t) s files Hdb Hfit Hacc)
    as (s1 & d & Hadd & Hholds & Hid & Hrun).
  split.
  - intros Hbad.
    destruct (Z.ltb_spec TenantUploadWrite.MAX_THUMBNAIL_SIZE (uf_size t))
      as [Hbig | Hsmall].
    + eexists _, s1, d. split; [exact Hrun |]. split; [reflexivity |].
      now split.
    + destruct Hbad as [Hbig | Hty].
      { exfalso. change TenantUploadWrite.MAX_THUMBNAIL_SIZE with (megabytes 2)
          in Hsmall. lia. }
      replace (TenantUploadWrite.includesType TenantUploadWrite.IMAGE_TYPES
                 (uf_mimetype t)) with false in Hrun.
      * eexists _, s1, d. split; [exact Hrun |]. split; [reflexivity |]. now split.
      * symmetry.
        destruct (TenantUploadWrite.includesType TenantUploadWrite.IMAGE_TYPES
                    (uf_mimetype t)) eqn:E; [| reflexivity].
        exfalso. apply Hty. now apply image_types, includesType_In.
  - intros Hsmall Hty.
    replace (TenantUploadWrite.MAX_THUMBNAIL_SIZE <? uf_size t) with false in Hrun
      by (symmetry; apply Z.ltb_ge; exact Hsmall).
    replace (TenantUploadWrite.includesType TenantUploadWrite.IMAGE_TYPES
               (uf_mimetype t)) with true in Hrun
      by (symmetry; now apply includesType_In, image_types).
    cbn [negb] in Hrun.
    destruct Hadd as (files0 & Hdb0 & Hdb1 & Hrest).
    match type of Hrun with
    | context [TenantUploadWrite.streamToGridFS ?id ?b ?n ?c ?m] =>
        destruct (streamToGridFS_run id b n c m s1 _ Hdb1) as (s2 & Hrun2 & Hadd2)
    end.
    rewrite (bind_ok _ _ _ _ _ Hrun2) in Hrun.
    eexists _, s1, s2, d, _. split; [exact Hrun |].
    split; [exists files0; now repeat split |].
    split; [exact Hadd2 |].
    split; [exact Hholds |].
    split; [repeat split |].
    split; [simpl; now symmetry | reflexivity].
Qed.

Lemma uploadResource_stores_before_thumbnail_check_witness :
  exists e s' d,
    TenantUploadWrite.uploadResource Sample.env0 (Sample.onPathA_plain Sample.alice)
      (Some Scenario.pdf) (Some Scenario.svg) Sample.emptyStore
    = (Throw (ExnApp e), s')
    /\ statusCode e = 400
    /\ gridfs s' = Some [d] /\ f_content d = "%PDF-1".
Proof.
  destruct (uploadResource_stores_before_thumbnail_check Sample.env0
              (Sample.onPathA_plain Sample.alice) Scenario.pdf Scenario.svg
              Sample.emptyStore [] eq_refl) as [Hbad _].
  - unfold megabytes. simpl. lia.
  - right. left. reflexivity.
  - destruct Hbad as (e & s' & d & Hrun & He & Hadd & Hholds).
    + right. intros [E | [E | [E | E]]]; discriminate.
    + exists e, s', d. split; [exact Hrun |]. split; [exact He |].
      destruct Hadd as (files & Hdb & Hdb' & _). injection Hdb as <-.
      split; [exact Hdb' |]. exact (proj1 Hholds).
Defined.

(** ** Stored file names *)

Lemma storedNameChar_fixed (c : ascii) :
  isStoredNameChar c = true ->
  isStoredNameChar (if TenantUploadWrite.isSafeNameChar c then c else "_"%char) = true.
Proof.
  intros Hc. destruct (TenantUploadWrite.isSafeNameChar c); [exact Hc | reflexivity].
Qed.

(** X15.  The file-name replacement keeps the length of the name, leaves
    a name made of letters, digits, dots and dashes as it is, produces
    only such characters and underscores (so no separator, space or
    control character reaches a stored file name), and applying it twice
    is applying it once. *)
Theorem safeChars_shape (name : string) :
  String.length (TenantUploadWrite.safeChars name) = String.length name
  /\ allStoredNameChars (TenantUploadWrite.safeChars name) = true
  /\ (allSafeNameChars name = true -> TenantUploadWrite.safeChars name = name)
  /\ TenantUploadWrite.safeChars (TenantUploadWrite.safeChars name)
     = TenantUploadWrite.safeChars name.
Proof.
  induction name as [| c r (Hlen & Hall & Hfix & Hidem)]; simpl.
  - repeat split.
  - split; [now rewrite Hlen |].
    split.
    { rewrite Hall, andb_true_r. unfold isStoredNameChar.
      destruct (TenantUploadWrite.isSafeNameChar c) eqn:E; [now rewrite E | reflexivity]. }
    split.
    { intros H. apply andb_true_iff in H. destruct H as [Hc Hr].
      now rewrite Hc, (Hfix Hr). }
    rewrite Hidem.
    destruct (TenantUploadWrite.isSafeNameChar c) eqn:E; [now rewrite E | reflexivity].
Qed.

Lemma safeChars_shape_witness :
  TenantUploadWrite.safeChars "rules-v2.pdf" = "rules-v2.pdf".
Proof.
  exact (proj1 (proj2 (proj2 (safeChars_shape "rules-v2.pdf"))) eq_refl).
Defined.

(** ** The authentication middleware *)

Lemma substring_all (s : string) : String.substring 0 (String.length s) s = s.
Proof. induction s as [| c r IH]; simpl; [reflexivity | now rewrite IH]. Qed.

Lemma bearerToken_of_header (token : string) :
  bearerToken ("Bearer " ++ token) = token.
Proof.
  unfold bearerToken. simpl.
  replace (String.prefix "" token) with true by (destruct token; reflexivity).
  rewrite Nat.sub_0_r. apply substring_all.
Qed.

Lemma bearerToken_inv (header : string) :
  bearerToken header <> "" -> header = "Bearer " ++ bearerToken header.
Proof.
  unfold bearerToken.
  destruct (String.prefix "Bearer " header) eqn:Hp; [| intros Hne; now elim Hne].
  intros _.
  do 7 (destruct header as [| ? header]; [discriminate |];
        simpl in Hp;
        match type of Hp with
        | (if ?d then _ else _) = true =>
            destruct d as [<- |]; [| discriminate]
        end).
  simpl. rewrite Nat.sub_0_r, substring_all. reflexivity.
Qed.

(** X16.  [auth] lets a request through exactly when its Authorization
    header is [Bearer] followed by a non-empty token that [verifyJwt]
    decodes, the account of the decoded user exists, and its status is
    neither SUSPENDED nor BANNED; the user put on the request is the
    decoded one.  Every refusal is a 401 or a 403, and a suspended or
    banned account is refused with 403 whatever the token. *)
Theorem auth_passes_iff `{AuthDeps} (authorization : option string) (u : JwtUser) :
  (auth authorization = AuthNext u
   <-> exists token st,
         authorization = Some ("Bearer " ++ token) /\ token <> ""
         /\ verifyJwt token = Some u
         /\ findAccountStatus (sub u) = Account st
         /\ st <> "SUSPENDED" /\ st <> "BANNED")
  /\ (forall r, auth authorization = AuthFailed r ->
                r_status r = 401 \/ r_status r = 403)
  /\ (forall token st,
        authorization = Some ("Bearer " ++ token) -> token <> "" ->
        verifyJwt token = Some u -> findAccountStatus (sub u) = Account st ->
        st = "SUSPENDED" \/ st = "BANNED" ->
        exists r, auth authorization = AuthFailed r /\ r_status r = 403).
Proof.
  split; [| split].
  - split.
    + unfold auth.
      destruct (isEmpty (bearerToken _)) eqn:Hempty; [discriminate |].
      destruct (verifyJwt _) as [v|] eqn:Hjwt; [| discriminate].
      destruct (findAccountStatus (sub v)) as [| | st] eqn:Hacc; try discriminate.
      destruct (String.eqb_spec st "SUSPENDED") as [| Hs]; [discriminate |].
      destruct (String.eqb_spec st "BANNED") as [| Hb]; [discriminate |].
      intros E. injection E as <-.
      assert (Hne : bearerToken match authorization with
                                | Some h => h
                                | None => ""
                                end <> "").
      { intros E. rewrite E in Hempty. discriminate. }
      destruct authorization as [h|]; [| now elim Hne].
      exists (bearerToken h), st.
      split; [f_equal; now apply bearerToken_inv |].
      repeat split; assumption.
    + intros (token & st & -> & Hne & Hjwt & Hacc & Hs & Hb).
      unfold auth. rewrite bearerToken_of_header, (isEmpty_false _ Hne), Hjwt, Hacc.
      apply String.eqb_neq in Hs. apply String.eqb_neq in Hb.
      now rewrite Hs, Hb.
  - intros r. unfold auth.
    destruct (isEmpty _); [intros E; injection E as <-; now left |].
    destruct (verifyJwt _) as [v|]; [| intros E; injection E as <-; now left].
    destruct (findAccountStatus _) as [| | st];
      try (intros E; injection E as <-; now left).
    destruct (String.eqb st "SUSPENDED"); [intros E; injection E as <-; now right |].
    destruct (String.eqb st "BANNED"); [intros E; injection E as <-; now right |].
    discriminate.
  - intros token st -> Hne Hjwt Hacc Hst.
    unfold auth. rewrite bearerToken_of_header, (isEmpty_false _ Hne), Hjwt, Hacc.
    destruct Hst as [-> | ->]; eexists; split; reflexivity.
Qed.

Lemma auth_passes_iff_witness :
  auth (H := Scenario.authDeps) (Some "Bearer t-alice")
  = AuthNext (mkJwtUser Sample.alice USER)
  /\ exists r, auth (H := Scenario.authDeps) (Some "Bearer t-bob") = AuthFailed r
               /\ r_status r = 403.
Proof.
  split.
  - apply (proj1 (auth_passes_iff (H := Scenario.authDeps) (Some "Bearer t-alice")
                    (mkJwtUser Sample.alice USER))).
    exists "t-alice", "ACTIVE". repeat split; discriminate.
  - apply (proj2 (proj2 (auth_passes_iff (H := Scenario.authDeps)
                           (Some "Bearer t-bob") (mkJwtUser Sample.bob USER)))
             "t-bob" "SUSPENDED"); try reflexivity; [discriminate | now left].
Defined.

(** ** A role gate in front of a handler *)

(** X17.  A route made of a role gate and a handler.  Without a user the
    answer is the 401 of the gate.  For a caller who is no super-admin and
    holds no ACTIVE membership with an allowed role in the tenant the gate
    resolves, the answer is a 400 or a 403, the handler does not run and
    the store is what it was, whatever the handler is.  The tenant is the
    one the resolved string denotes as an ObjectId, so a caller who is a
    member with an allowed role of the tenant an upper-case id denotes is
    not refused.  When the handler runs and throws, the answer is what
    [errorHandler] makes of the exception; when the query of the gate
    throws, nothing is written. *)
Theorem gate_shields_handler `{Bson} (A : Type) (roles : list TenantRole)
  (handler : Request -> M A) (req : Request) (s : Store) :
  (user req = None ->
   guarded roles handler req s
   = (Refused (mkFail "Unauthorized" 401 "UNAUTHORIZED"), s))
  /\ (forall u,
        user req = Some u -> globalRole u = USER -> isValid (sub u) = true ->
        (forall m, In m (memberships s) ->
                   activeMembershipOf (hexOf (tenantIdStr req)) (callerId u) m = true ->
                   ~ In (m_role m) roles) ->
        exists r, guarded roles handler req s = (Refused r, s)
                  /\ (r_status r = 400 \/ r_status r = 403))
  /\ (forall u m,
        user req = Some u -> globalRole u = USER -> isValid (sub u) = true ->
        tenantIdStr req <> "" -> isValid (tenantIdStr req) = true ->
        UniqueMemberships s ->
        In m (memberships s) ->
        activeMembershipOf (hexOf (tenantIdStr req)) (callerId u) m = true ->
        In (m_role m) roles ->
        guarded roles handler req s
        = match handler req s with
          | (Ok a, s') => (Handled a, s')
          | (Throw e, s') => (Refused (errorHandler e), s')
          end)
  /\ (forall r s', guarded roles handler req s = (Refused r, s') ->
                   s' = s \/ exists e, handler req s = (Throw e, s')
                                       /\ r = errorHandler e)
  /\ (forall a s', guarded roles handler req s = (Handled a, s') ->
                   handler req s = (Ok a, s'))
  /\ (forall e s', guarded roles handler req s = (GateThrew e, s') -> s' = s).
Proof.
  split; [| split; [| split; [| split; [| split]]]].
  - intros Hu. unfold guarded, requireTenantRole. now rewrite Hu.
  - intros u Hu Hg Hs Hnone.
    destruct (gate_refuses roles req u s Hu Hg Hs Hnone) as (r & Hgate & Hr).
    exists r. unfold guarded. rewrite Hgate. now split.
  - intros u m Hu Hg Hs Hne Hv Huniq Hin Hm Hrole.
    unfold guarded.
    rewrite (requireTenantRole_lookup roles req u s Hu Hg (isEmpty_false _ Hne) Hv Hs).
    destruct (findOne_some_of_In _ _ m Hin Hm) as [y Hy].
    rewrite Hy.
    assert (y = m).
    { destruct (findOne_In _ _ _ Hy) as [Hyin Hyk].
      apply activeMembershipOf_true in Hyk. apply activeMembershipOf_true in Hm.
      apply (unique_key_same (memberships s)); try assumption.
      unfold memberKey. destruct Hyk as (-> & -> & _). destruct Hm as (-> & -> & _).
      reflexivity. }
    subst y. unfold gateVerdict. apply includes_In in Hrole. rewrite Hrole.
    reflexivity.
  - intros r s'. unfold guarded.
    pose proof (gate_keeps_store roles req s) as Hkeep.
    destruct (requireTenantRole roles req s) as [[[| r0] | e] s1]; simpl in Hkeep;
      subst s1.
    + destruct (handler req s) as [[a | e] s2]; [discriminate |].
      intros E. injection E as <- <-. right. now exists e.
    + intros E. injection E as _ <-. now left.
    + discriminate.
  - intros a s'. unfold guarded.
    pose proof (gate_keeps_store roles req s) as Hkeep.
    destruct (requireTenantRole roles req s) as [[[| r0] | e] s1]; simpl in Hkeep;
      subst s1; try discriminate.
    destruct (handler req s) as [[a0 | e] s2]; [| discriminate].
    intros E. now injection E as <- <-.
  - intros e s'. unfold guarded.
    pose proof (gate_keeps_store roles req s) as Hkeep.
    destruct (requireTenantRole roles req s) as [[[| r0] | e0] s1]; simpl in Hkeep;
      subst s1.
    + destruct (handler req s) as [[a | e1] s2]; discriminate.
    + discriminate.
    + intros E. now injection E as _ <-.
Qed.

Lemma gate_shields_handler_witness :
  (exists r,
     guarded (H := Sample.hex24) Routes.managers (TenantFeatures.updateMemberRole (H := Sample.hex24))
       (Sample.roleOnly Sample.bob Sample.dave MEMBER) Scenario.storeStaff
     = (Refused r, Scenario.storeStaff)
     /\ (r_status r = 400 \/ r_status r = 403))
  /\ guarded (H := Sample.hex24) Routes.managers (TenantFeatures.updateMemberRole (H := Sample.hex24))
       (Scenario.roleOnlyUpperA Sample.alice Sample.bob MODERATOR) Sample.storeA
     = match TenantFeatures.updateMemberRole (H := Sample.hex24)
               (Scenario.roleOnlyUpperA Sample.alice Sample.bob MODERATOR)
               Sample.storeA with
       | (Ok a, s') => (Handled a, s')
       | (Throw e, s') => (Refused (errorHandler e), s')
       end.
Proof.
  split.
  - apply (proj1 (proj2 (gate_shields_handler (H := Sample.hex24) (Z * Membership)
                           Routes.managers (TenantFeatures.updateMemberRole (H := Sample.hex24))
                           (Sample.roleOnly Sample.bob Sample.dave MEMBER)
                           Scenario.storeStaff))
             (mkJwtUser Sample.bob USER) eq_refl eq_refl eq_refl).
    intros m [<- | [<- | [<- | []]]] Hm; try discriminate.
    intros [E | [E | []]]; discriminate.
  - apply (proj1 (proj2 (proj2 (gate_shields_handler (H := Sample.hex24)
                           (Z * Membership)
                           Routes.managers (TenantFeatures.updateMemberRole (H := Sample.hex24))
                           (Scenario.roleOnlyUpperA Sample.alice Sample.bob MODERATOR)
                           Sample.storeA)))
             (mkJwtUser Sample.alice USER) Sample.aliceAdminA
             eq_refl eq_refl eq_refl).
    + discriminate.
    + reflexivity.
    + repeat constructor; simpl; intuition discriminate.
    + now left.
    + reflexivity.
    + right. now left.
Defined.

(** X18.  The member route checks the caller's role and nothing about
    the target.  A caller with an ACTIVE OWNER or ADMIN membership in the
    tenant of the path gets the update applied to whatever membership of
    that tenant the path names: the role sent (if any) replaces the
    target's role and the status becomes the one sent, or ACTIVE.  This
    holds when the target is the OWNER and the caller an ADMIN, and when
    the target is the caller.  A MODERATOR or MEMBER calling the route is
    answered 403 and nothing changes.  Tenant, caller and target are the
    ones the id strings denote as ObjectIds. *)
Theorem putMember_checks_only_the_caller `{Bson} (req : Request) (s : Store)
  (u : JwtUser) (caller target : Membership) :
  user req = Some u -> globalRole u = USER -> isValid (sub u) = true ->
  tenantIdStr req = pathTenant req ->
  pathTenant req <> "" -> isValid (pathTenant req) = true ->
  isValid (routeParam (p_userId (params req))) = true ->
  findOne (activeMembershipOf (pathTenantId req) (callerId u)) (memberships s)
  = Some caller ->
  findOne (membershipOf (pathTenantId req) (pathUserId req)) (memberships s)
  = Some target ->
  (In (m_role caller) Routes.managers ->
   exists s',
     Routes.putMember req s
     = (Handled (200, TenantFeatures.memberRoleUpdate (body req) target), s')
     /\ findOne (membershipOf (pathTenantId req) (pathUserId req)) (memberships s')
        = Some (TenantFeatures.memberRoleUpdate (body req) target)
     /\ (forall r, b_role (body req) = Some r ->
                   m_role (TenantFeatures.memberRoleUpdate (body req) target) = r))
  /\ (~ In (m_role caller) Routes.managers ->
      Routes.putMember req s = (Refused (mkFail "Forbidden" 403 "FORBIDDEN"), s)).
Proof.
  intros Hu Hg Hs Hpath Hne Hv Hvu Hcaller Htarget.
  assert (Hgate : requireTenantRole Routes.managers req s
                  = (Ok (gateVerdict Routes.managers (Some caller)), s)).
  { rewrite (requireTenantRole_lookup Routes.managers req u s Hu Hg).
    - rewrite Hpath. unfold pathTenantId, pathTenant in *. now rewrite Hcaller.
    - rewrite Hpath. now apply isEmpty_false.
    - now rewrite Hpath.
    - exact Hs. }
  unfold Routes.putMember, guarded. rewrite Hgate. unfold gateVerdict.
  split.
  - intros Hin. apply includes_In in Hin. rewrite Hin.
    unfold pathTenant, pathTenantId, pathUserId in *.
    unfold TenantFeatures.updateMemberRole.
    rewrite (bind_ok _ _ _ _ _ (castObjectId_ok _ s Hv)).
    rewrite (bind_ok _ _ _ _ _ (castObjectId_ok _ s Hvu)).
    unfold updateOneNew.
    rewrite Htarget.
    eexists. split; [reflexivity |].
    split.
    + simpl. apply findOne_updateFirst with (x := target); [exact Htarget |].
      pose proof (findOne_In _ _ _ Htarget) as [_ Hp].
      apply membershipOf_true in Hp. apply membershipOf_true. exact Hp.
    + intros r Hr. unfold TenantFeatures.memberRoleUpdate. now rewrite Hr.
  - intros Hnot.
    replace (includes Routes.managers (m_role caller)) with false; [reflexivity |].
    symmetry. destruct (includes Routes.managers (m_role caller)) eqn:E;
      [| reflexivity].
    exfalso. apply Hnot. now apply includes_In.
Qed.

Lemma putMember_checks_only_the_caller_witness :
  exists s' m,
    Routes.putMember (H := Sample.hex24)
      (Sample.roleOnly Sample.alice Sample.dave MEMBER) Scenario.storeStaff
    = (Handled (200, m), s')
    /\ m_userId m = Sample.dave /\ m_role m = MEMBER
    /\ findOne (membershipOf Sample.tenantA Sample.dave) (memberships s') = Some m.
Proof.
  destruct (putMember_checks_only_the_caller (H := Sample.hex24)
              (Sample.roleOnly Sample.alice Sample.dave MEMBER) Scenario.storeStaff
              (mkJwtUser Sample.alice USER) Sample.aliceAdminA Scenario.daveOwnerA
              eq_refl eq_refl eq_refl eq_refl) as [Hok _]; try reflexivity.
  - discriminate.
  - destruct Hok as (s' & Hrun & Hfind & Hrole).
    + right. now left.
    + exists s', (TenantFeatures.memberRoleUpdate
                    (body (Sample.roleOnly Sample.alice Sample.dave MEMBER))
                    Scenario.daveOwnerA).
      split; [exact Hrun |]. split; [reflexivity |].
      split; [exact (Hrole MEMBER eq_refl) | exact Hfind].
Defined.

(** ** Invitations: resend, revoke, and the tenant of the path *)

Lemma In_updateFirst_unique {A : Type} (key : A -> string) (k : string)
  (f : A -> A) (l : list A) (y : A) :
  NoDup (map key l) ->
  (In y (updateFirst (fun x => String.eqb (key x) k) f l)
   <-> (In y l /\ key y <> k) \/ (exists x, In x l /\ key x = k /\ y = f x)).
Proof.
  induction l as [| a l IH]; intros Hnd.
  - simpl. split; [intros [] | intros [[[] _] | (x & [] & _)]].
  - inversion Hnd as [| ? ? Hnotin Hnd']; subst. simpl.
    destruct (String.eqb_spec (key a) k) as [E | E].
    + assert (Hrest : forall x, In x l -> key x <> k).
      { intros x Hx Hk. apply Hnotin. rewrite E, <- Hk. now apply in_map. }
      simpl. split.
      * intros [<- | Hin].
        -- right. exists a. split; [now left | now split].
        -- left. split; [now right | now apply Hrest].
      * intros [[[<- | Hin] Hne] | (x & [<- | Hx] & Hk & ->)].
        -- contradiction.
        -- now right.
        -- now left.
        -- exfalso. now apply (Hrest x).
    + simpl. rewrite (IH Hnd'). split.
      * intros [<- | [[Hin Hne] | (x & Hx & Hk & ->)]].
        -- left. split; [now left | exact E].
        -- left. split; [now right | exact Hne].
        -- right. exists x. split; [now right | now split].
      * intros [[[<- | Hin] Hne] | (x & [<- | Hx] & Hk & ->)].
        -- now left.
        -- right. left. now split.
        -- contradiction.
        -- right. right. exists x. now split.
Qed.

Lemma updateFirst_length {A : Type} (p : A -> bool) (f : A -> A) (l : list A) :
  length (updateFirst p f l) = length l.
Proof.
  induction l as [| a l IH]; [reflexivity |].
  simpl. destruct (p a); simpl; [reflexivity | now rewrite IH].
Qed.

Lemma joinTenantBySlug_unknown_token_run `{Bson} (env : Env) (req : Request)
  (s : Store) (u : JwtUser) (tenant : Tenant) (usr : User) :
  JoinContext req s u tenant usr ->
  NotBanned s (t_id tenant) (callerId u) ->
  inviteTokenOf req <> "" ->
  (forall i, In i (invitations s) -> i_tenantId i = t_id tenant ->
             i_token i <> inviteTokenOf req) ->
  Tenants.joinTenantBySlug env req s
  = (Throw (ExnApp (mkAppError "Invitation not found" 404 "NOT_FOUND")), s).
Proof.
  intros [Hu Hsub Hval Hten Husr] Hnb Htok Hnone. unfold inviteTokenOf in *.
  join_prefix Hu Hsub Hval Hten Husr.
  rewrite (notBanned_test s _ _ Hnb).
  rewrite (isEmpty_false _ Htok). cbn [negb].
  unfold bind at 1. unfold bind at 1. unfold gets at 1.
  rewrite (findOne_none_of_all
             (Tenants.invitationByToken (t_id tenant)
                (trim (b_inviteToken (body req)))) (invitations s)).
  - reflexivity.
  - intros i Hi. unfold Tenants.invitationByToken.
    destruct (String.eqb_spec (i_tenantId i) (t_id tenant)) as [E | E];
      [| reflexivity].
    simpl. apply String.eqb_neq. now apply Hnone.
Qed.

Lemma invitationById_true (id t : string) (i : Invitation) :
  TenantFeatures.invitationById id t i = true <-> i_id i = id /\ i_tenantId i = t.
Proof.
  unfold TenantFeatures.invitationById.
  now rewrite andb_true_iff, !String.eqb_eq.
Qed.

Lemma resend_run `{Bson} (env : Env) (req : Request) (s : Store)
  (e : Invitation) :
  isValid (routeParam (p_id (params req))) = true ->
  isValid (pathTenant req) = true ->
  findOne (invitationByIdOf req) (invitations s) = Some e ->
  i_status e <> "ACCEPTED" ->
  TenantFeatures.resendInvitation env req s
  = (Ok (200, withDerivedStatus (now env) (TenantFeatures.markResent env e)),
     set_invitations
       (updateFirst (fun x => String.eqb (i_id x) (i_id e))
                    (TenantFeatures.markResent env) (invitations s)) s).
Proof.
  intros Hid Htid Hfind Hst.
  unfold invitationByIdOf, pathId, pathTenantId, pathTenant in *.
  unfold TenantFeatures.resendInvitation.
  rewrite (bind_ok _ _ _ _ _ (castObjectId_ok _ s Hid)).
  rewrite (bind_ok _ _ _ _ _ (castObjectId_ok _ s Htid)).
  unfold bind, gets. rewrite Hfind.
  apply String.eqb_neq in Hst. rewrite Hst. reflexivity.
Qed.

Lemma revoke_run `{Bson} (env : Env) (req : Request) (s : Store) (e : Invitation)
  (u : JwtUser) :
  isValid (routeParam (p_id (params req))) = true ->
  isValid (pathTenant req) = true ->
  findOne (invitationByIdOf req) (invitations s) = Some e ->
  user req = Some u -> isValid (sub u) = true ->
  TenantFeatures.revokeInvitation env req s
  = if String.eqb (i_status e) "ACCEPTED"
    then (Throw (ExnApp (mkAppError "Accepted invitation cannot be revoked" 400
                                    "INVALID_STATE")), s)
    else (Ok (200, withDerivedStatus (now env)
                     (TenantFeatures.markRevoked (callerId u) (now env) e)),
          set_invitations
            (updateFirst (fun x => String.eqb (i_id x) (i_id e))
                         (TenantFeatures.markRevoked (callerId u) (now env))
                         (invitations s)) s).
Proof.
  intros Hid Htid Hfind Hu Hv.
  unfold invitationByIdOf, pathId, pathTenantId, pathTenant, callerId in *.
  unfold TenantFeatures.revokeInvitation.
  rewrite (bind_ok _ _ _ _ _ (castObjectId_ok _ s Hid)).
  rewrite (bind_ok _ _ _ _ _ (castObjectId_ok _ s Htid)).
  unfold TenantFeatures.tenantObjectId, requireUser, bind, gets. rewrite Hfind.
  destruct (String.eqb (i_status e) "ACCEPTED"); [reflexivity |].
  rewrite Hu. cbv beta iota. unfold ret at 1. rewrite Hv. reflexivity.
Qed.

(** X19.  A resend retires the token it replaces.  When the new token
    differs from the old one and no other invitation of the tenant carries
    the old one, then after the resend no invitation of the tenant carries
    the old token, every other invitation is stored as before, and a join
    by slug that presents the old token is answered 404 without a write. *)
Theorem resend_retires_old_token `{Bson} (env : Env) (req : Request) (s : Store)
  (e : Invitation) :
  UniqueInvitationIds s ->
  isValid (routeParam (p_id (params req))) = true ->
  isValid (pathTenant req) = true ->
  findOne (invitationByIdOf req) (invitations s) = Some e ->
  i_status e <> "ACCEPTED" ->
  randomUUID env <> i_token e ->
  (forall i, In i (invitations s) -> i_tenantId i = i_tenantId e ->
             i_token i = i_token e -> i_id i = i_id e) ->
  exists sent s',
    TenantFeatures.resendInvitation env req s = (Ok (200, sent), s')
    /\ i_token sent = randomUUID env
    /\ length (invitations s') = length (invitations s)
    /\ (forall i, In i (invitations s) -> i_id i <> i_id e -> In i (invitations s'))
    /\ (forall i, In i (invitations s') -> i_tenantId i = i_tenantId e ->
                  i_token i <> i_token e)
    /\ (forall envj reqj u tenant usr,
          JoinContext reqj s' u tenant usr ->
          NotBanned s' (t_id tenant) (callerId u) ->
          t_id tenant = i_tenantId e ->
          inviteTokenOf reqj = i_token e -> i_token e <> "" ->
          Tenants.joinTenantBySlug envj reqj s'
          = (Throw (ExnApp (mkAppError "Invitation not found" 404 "NOT_FOUND")),
             s')).
Proof.
  intros Huniq Hid Htid Hfind Hst Hnew Htok.
  eexists. eexists. split; [exact (resend_run env req s e Hid Htid Hfind Hst) |].
  split; [reflexivity |].
  split; [simpl; apply updateFirst_length |].
  assert (Hretired : forall i,
             In i (updateFirst (fun x => String.eqb (i_id x) (i_id e))
                               (TenantFeatures.markResent env) (invitations s)) ->
             i_tenantId i = i_tenantId e -> i_token i <> i_token e).
  { intros i Hin Hten.
    apply (In_updateFirst_unique i_id (i_id e) (TenantFeatures.markResent env)
             (invitations s) i Huniq) in Hin.
    destruct Hin as [[Hin Hne] | (x & Hx & Hk & ->)].
    - intros Heq. apply Hne. now apply Htok.
    - simpl. exact Hnew. }
  split.
  { intros i Hin Hne. simpl.
    apply (In_updateFirst_unique i_id (i_id e) (TenantFeatures.markResent env)
             (invitations s) i Huniq).
    left. now split. }
  split; [exact Hretired |].
  intros envj reqj u tenant usr Hctx Hnb Hten Hold Hne.
  apply (joinTenantBySlug_unknown_token_run envj reqj _ u tenant usr Hctx Hnb).
  - now rewrite Hold.
  - intros i Hin Hit. rewrite Hold. apply Hretired; [exact Hin | congruence].
Qed.

Lemma resend_retires_old_token_witness :
  exists sent s',
    TenantFeatures.resendInvitation (H := Sample.hex24) Sample.env0
      Scenario.resendDave Sample.storeJoin
    = (Ok (200, sent), s')
    /\ i_token sent = "uuid-1"
    /\ Tenants.joinTenantBySlug (H := Sample.hex24) Sample.env0
         (Sample.joinWithToken Sample.dave "tok-1") s'
       = (Throw (ExnApp (mkAppError "Invitation not found" 404 "NOT_FOUND")), s').
Proof.
  destruct (resend_retires_old_token (H := Sample.hex24) Sample.env0
              Scenario.resendDave Sample.storeJoin Sample.daveInvite)
    as (sent & s' & Hrun & Htok & _ & _ & _ & Hjoin).
  - repeat constructor; simpl; intuition discriminate.
  - reflexivity.
  - reflexivity.
  - reflexivity.
  - discriminate.
  - discriminate.
  - intros i [<- | [<- | []]] _ Ht; [discriminate | reflexivity].
  - exists sent, s'. split; [exact Hrun |]. split; [exact Htok |].
    assert (Hs' : tenants s' = tenants Sample.storeJoin
                  /\ users s' = users Sample.storeJoin
                  /\ memberships s' = memberships Sample.storeJoin).
    { pose proof Hrun as Hc. vm_compute in Hc. injection Hc as _ <-.
      repeat split. }
    destruct Hs' as (Ht & Hus & Hms).
    apply (Hjoin Sample.env0 (Sample.joinWithToken Sample.dave "tok-1")
             (mkJwtUser Sample.dave USER) Sample.acme
             (mkUser Sample.dave "Dave@Example.com" "Dave" "3" USER)).
    + constructor; try reflexivity; [discriminate | now rewrite Ht | now rewrite Hus].
    + intros m. rewrite Hms. intros Hm. injection Hm as <-. discriminate.
    + reflexivity.
    + reflexivity.
    + discriminate.
Defined.

(** X20.  Revoking.  An invitation whose stored status is ACCEPTED cannot
    be revoked: 400 INVALID_STATE, nothing written.  Any other invitation
    of the tenant, an expired one included, is stored as REVOKED with the
    revoking user and instant, keeps its token and expiry, and is reported
    as REVOKED.  A join by slug that then presents its token is refused
    with 400 "Invitation is revoked" at any instant, before or after the
    expiry, and writes nothing. *)
Theorem revoke_then_join_refused `{Bson} (env : Env) (req : Request) (s : Store)
  (e : Invitation) (admin : JwtUser) :
  UniqueInvitationIds s ->
  isValid (routeParam (p_id (params req))) = true ->
  isValid (pathTenant req) = true ->
  findOne (invitationByIdOf req) (invitations s) = Some e ->
  user req = Some admin -> isValid (sub admin) = true ->
  (i_status e = "ACCEPTED" ->
   TenantFeatures.revokeInvitation env req s
   = (Throw (ExnApp (mkAppError "Accepted invitation cannot be revoked" 400
                                "INVALID_STATE")), s))
  /\ (i_status e <> "ACCEPTED" ->
      exists out s',
        TenantFeatures.revokeInvitation env req s = (Ok (200, out), s')
        /\ i_status out = "REVOKED"
        /\ findOne (invitationByIdOf req) (invitations s')
           = Some (TenantFeatures.markRevoked (callerId admin) (now env) e)
        /\ i_token (TenantFeatures.markRevoked (callerId admin) (now env) e) = i_token e
        /\ i_revokedByUserId (TenantFeatures.markRevoked (callerId admin) (now env) e)
           = Some (callerId admin)
        /\ tenants s' = tenants s /\ users s' = users s
        /\ memberships s' = memberships s
        /\ (forall envj reqj u tenant usr,
              JoinContext reqj s u tenant usr ->
              NotBanned s (t_id tenant) (callerId u) ->
              inviteTokenOf reqj <> "" ->
              findOne (Tenants.invitationByToken (t_id tenant) (inviteTokenOf reqj))
                      (invitations s) = Some e ->
              Tenants.joinTenantBySlug envj reqj s'
              = (Throw (ExnApp (mkAppError "Invitation is revoked" 400
                                           "INVITATION_INVALID")), s'))).
Proof.
  intros Huniq Hid Htid Hfind Hu Hv.
  pose proof (revoke_run env req s e admin Hid Htid Hfind Hu Hv) as Hrun.
  split.
  - intros Hacc. rewrite Hrun, Hacc. reflexivity.
  - intros Hst. apply String.eqb_neq in Hst. rewrite Hst in Hrun.
    eexists. eexists. split; [exact Hrun |].
    split; [reflexivity |].
    split.
    { simpl. apply findOne_after_save; [exact Huniq | exact Hfind |].
      pose proof (findOne_In _ _ _ Hfind) as [_ Hp]. exact Hp. }
    split; [reflexivity |]. split; [reflexivity |].
    split; [reflexivity |]. split; [reflexivity |]. split; [reflexivity |].
    intros envj reqj u tenant usr [Hju Hjs Hjv Hjt Hjusr] Hnb Htok Hbytoken.
    assert (Hctx' : JoinContext reqj
                      (set_invitations
                         (updateFirst (fun x => String.eqb (i_id x) (i_id e))
                                      (TenantFeatures.markRevoked (callerId admin) (now env))
                                      (invitations s)) s) u tenant usr).
    { constructor; assumption. }
    rewrite (joinTenantBySlug_invite_run envj reqj _ u tenant usr
               (TenantFeatures.markRevoked (callerId admin) (now env) e) Hctx' Hnb Htok).
    + reflexivity.
    + simpl. apply findOne_after_save; [exact Huniq | exact Hbytoken |].
      pose proof (findOne_In _ _ _ Hbytoken) as [_ Hp]. exact Hp.
Qed.

Lemma revoke_then_join_refused_witness :
  exists out s',
    TenantFeatures.revokeInvitation (H := Sample.hex24) Sample.env0
      Scenario.resendDave Sample.storeJoin = (Ok (200, out), s')
    /\ i_status out = "REVOKED"
    /\ Tenants.joinTenantBySlug (H := Sample.hex24) Sample.env0
         (Sample.joinWithToken Sample.dave "tok-1") s'
       = (Throw (ExnApp (mkAppError "Invitation is revoked" 400
                                    "INVITATION_INVALID")), s').
Proof.
  destruct (revoke_then_join_refused (H := Sample.hex24) Sample.env0
              Scenario.resendDave Sample.storeJoin Sample.daveInvite
              (mkJwtUser Sample.alice USER)) as [_ Hok]; try reflexivity.
  - repeat constructor; simpl; intuition discriminate.
  - destruct Hok as (out & s' & Hrun & Hst & _ & _ & _ & _ & _ & _ & Hjoin).
    + discriminate.
    + exists out, s'. split; [exact Hrun |]. split; [exact Hst |].
      apply (Hjoin Sample.env0 (Sample.joinWithToken Sample.dave "tok-1")
               (mkJwtUser Sample.dave USER) Sample.acme
               (mkUser Sample.dave "Dave@Example.com" "Dave" "3" USER)).
      * constructor; try reflexivity. discriminate.
      * intros m Hm. injection Hm as <-. discriminate.
      * discriminate.
      * reflexivity.
Defined.

Lemma invitation_found_by_id (l : list Invitation) (id t : string)
  (i : Invitation) :
  NoDup (map i_id l) -> In i l -> i_id i = id ->
  findOne (TenantFeatures.invitationById id t) l
  = if String.eqb (i_tenantId i) t then Some i else None.
Proof.
  intros Hnd Hin Hid.
  induction l as [| a l IH]; [destruct Hin |].
  inversion Hnd as [| ? ? Hnotin Hnd']; subst.
  simpl. unfold TenantFeatures.invitationById at 1.
  destruct Hin as [-> | Hin].
  - rewrite String.eqb_refl. simpl.
    destruct (String.eqb (i_tenantId i) t) eqn:E; [reflexivity |].
    apply findOne_none_of_all. intros x Hx.
    unfold TenantFeatures.invitationById.
    destruct (String.eqb_spec (i_id x) (i_id i)) as [Ex | Ex]; [| reflexivity].
    exfalso. apply Hnotin. rewrite <- Ex. now apply in_map.
  - destruct (String.eqb_spec (i_id a) (i_id i)) as [Ea | Ea].
    + exfalso. apply Hnotin. rewrite Ea. now apply in_map.
    + simpl. now apply IH.
Qed.

(** X21.  Resend and revoke are scoped to the tenant of the path.  On a
    path whose two ids are ObjectId strings, an invitation that belongs to
    another tenant than the one the path denotes is answered 404, the
    answer of an id that does not exist, and is not touched; an
    invitation of the tenant the path denotes is found, in whatever letter
    case the path writes the two ids, and resent unless it is ACCEPTED. *)
Theorem invitation_of_other_tenant_not_found `{Bson} (env : Env) (req : Request)
  (s : Store) (i : Invitation) :
  UniqueInvitationIds s ->
  In i (invitations s) ->
  isValid (routeParam (p_id (params req))) = true ->
  isValid (pathTenant req) = true ->
  i_id i = pathId req ->
  (i_tenantId i <> pathTenantId req ->
   TenantFeatures.resendInvitation env req s
   = (Throw (ExnApp (mkAppError "Invitation not found" 404 "NOT_FOUND")), s)
   /\ TenantFeatures.revokeInvitation env req s
      = (Throw (ExnApp (mkAppError "Invitation not found" 404 "NOT_FOUND")), s))
  /\ (i_tenantId i = pathTenantId req ->
      findOne (invitationByIdOf req) (invitations s) = Some i
      /\ (i_status i <> "ACCEPTED" ->
          TenantFeatures.resendInvitation env req s
          = (Ok (200, withDerivedStatus (now env) (TenantFeatures.markResent env i)),
             set_invitations
               (updateFirst (fun x => String.eqb (i_id x) (i_id i))
                            (TenantFeatures.markResent env) (invitations s)) s))).
Proof.
  intros Huniq Hin Hid Htid Hi.
  pose proof (invitation_found_by_id (invitations s) (pathId req) (pathTenantId req)
                i Huniq Hin Hi) as Hfind.
  split.
  - intros Hten. apply String.eqb_neq in Hten. rewrite Hten in Hfind.
    unfold pathId, pathTenantId, pathTenant in *.
    split.
    + unfold TenantFeatures.resendInvitation.
      rewrite (bind_ok _ _ _ _ _ (castObjectId_ok _ s Hid)).
      rewrite (bind_ok _ _ _ _ _ (castObjectId_ok _ s Htid)).
      unfold bind, gets. now rewrite Hfind.
    + unfold TenantFeatures.revokeInvitation.
      rewrite (bind_ok _ _ _ _ _ (castObjectId_ok _ s Hid)).
      rewrite (bind_ok _ _ _ _ _ (castObjectId_ok _ s Htid)).
      unfold bind, gets. now rewrite Hfind.
  - intros Hten. apply String.eqb_eq in Hten. rewrite Hten in Hfind.
    split; [exact Hfind |].
    intros Hst. exact (resend_run env req s i Hid Htid Hfind Hst).
Qed.

Lemma invitation_of_other_tenant_not_found_witness :
  TenantFeatures.resendInvitation (H := Sample.hex24) Sample.env0
    Scenario.resendDaveFromB Sample.storeJoin
  = (Throw (ExnApp (mkAppError "Invitation not found" 404 "NOT_FOUND")),
     Sample.storeJoin)
  /\ findOne (invitationByIdOf (H := Sample.hex24) Scenario.resendDaveUpper)
             (invitations Sample.storeJoin) = Some Sample.daveInvite.
Proof.
  assert (Hu : UniqueInvitationIds Sample.storeJoin)
    by (repeat constructor; simpl; intuition discriminate).
  assert (Hin : In Sample.daveInvite (invitations Sample.storeJoin))
    by (right; now left).
  split.
  - refine (proj1 (proj1 (invitation_of_other_tenant_not_found (H := Sample.hex24)
                     Sample.env0 Scenario.resendDaveFromB Sample.storeJoin
                     Sample.daveInvite Hu Hin eq_refl eq_refl eq_refl) _)).
    discriminate.
  - exact (proj1 (proj2 (invitation_of_other_tenant_not_found (H := Sample.hex24)
                     Sample.env0 Scenario.resendDaveUpper Sample.storeJoin
                     Sample.daveInvite Hu Hin eq_refl eq_refl eq_refl) eq_refl)).
Defined.

(** ** Stored invitation emails *)

Lemma lower_cons (c : ascii) (r : string) :
  toLowerCase (String c r) = String c r <-> lowerChar c = c /\ toLowerCase r = r.
Proof.
  simpl. split.
  - intros E. injection E as Hc Hr. now split.
  - intros [-> ->]. reflexivity.
Qed.

Lemma lower_trimStart (s : string) :
  toLowerCase s = s -> toLowerCase (trimStart s) = trimStart s.
Proof.
  induction s as [| c r IH]; [reflexivity |].
  intros E. pose proof (proj1 (lower_cons c r) E) as [Hc Hr].
  simpl trimStart. destruct (isWhite c); [now apply IH | exact E].
Qed.

Lemma lower_trimEnd (s : string) :
  toLowerCase s = s -> toLowerCase (trimEnd s) = trimEnd s.
Proof.
  induction s as [| c r IH]; [reflexivity |].
  intros E. pose proof (proj1 (lower_cons c r) E) as [Hc Hr].
  specialize (IH Hr). simpl trimEnd.
  destruct (trimEnd r) as [| d r'].
  - destruct (isWhite c); [reflexivity |]. apply lower_cons. now split.
  - apply lower_cons. now split.
Qed.

Lemma lower_trim (s : string) : toLowerCase s = s -> toLowerCase (trim s) = trim s.
Proof. intros E. unfold trim. now apply lower_trimEnd, lower_trimStart. Qed.

Lemma emailOf_lower (req : Request) : toLowerCase (emailOf req) = emailOf req.
Proof. unfold emailOf. apply lower_trim, toLowerCase_idem. Qed.

Lemma Forall_updateFirst {A : Type} (P : A -> Prop) (p : A -> bool) (f : A -> A)
  (l : list A) :
  (forall x, P x -> P (f x)) -> Forall P l -> Forall P (updateFirst p f l).
Proof.
  intros Hf Hall. induction Hall as [| a l Ha Hl IH]; simpl; [constructor |].
  destruct (p a); constructor; auto.
Qed.

Lemma Forall_insertDoc {A : Type} (P : A -> Prop) (d : A) (l : list A) :
  P d -> Forall P l -> Forall P (insertDoc d l).
Proof.
  intros Hd Hall. unfold insertDoc. apply Forall_app. split; [exact Hall |].
  now constructor.
Qed.

Lemma joinTenantBySlug_invitations `{Bson} (env : Env) (req : Request) (s : Store)
  (P : list Invitation -> Prop) :
  P (invitations s) ->
  (forall id userId,
      P (updateFirst (fun x => String.eqb (i_id x) id)
                     (Tenants.markAccepted userId (now env)) (invitations s))) ->
  P (invitations (snd (Tenants.joinTenantBySlug env req s))).
Proof.
  intros Hsame Hacc.
  unfold Tenants.joinTenantBySlug.
  destruct (user req) as [u|]; [| exact Hsame].
  destruct (isEmpty (sub u)); [exact Hsame |].
  cbv zeta.
  unfold bind at 1. unfold gets at 1.
  destruct (findOne _ (tenants s)) as [tenant|]; [| exact Hsame].
  unfold bind at 1. unfold newTypesObjectId at 1.
  destruct (isValid (sub u)); [| exact Hsame].
  unfold ret at 1. fold (callerId u).
  unfold bind at 1. unfold Tenants.findSettings at 1. unfold gets at 1.
  unfold bind at 1. unfold gets at 1.
  unfold bind at 1. unfold gets at 1.
  destruct (findOne _ (users s)) as [usr|]; [| exact Hsame].
  match goal with
  | |- context [if ?b then throwApp "You are banned from this community" _ _ else _] =>
      destruct b
  end; [exact Hsame |].
  unfold bind at 1.
  match goal with
  | |- context [match ?c s with _ => _ end] =>
      assert (Hpure : snd (c s) = s);
      [| destruct (c s) as [[[[inviteRow role] status] | e] s1]; simpl in Hpure;
         subst s1; [| exact Hsame]]
  end.
  { destruct (negb (isEmpty (trim (b_inviteToken (body req))))).
    - unfold bind, gets.
      destruct (findOne _ (invitations s)) as [inv|]; [| reflexivity].
      destruct (negb (String.eqb _ "SENT")); [reflexivity |].
      destruct (negb (String.eqb _ _)); reflexivity.
    - destruct (negb _); reflexivity. }
  unfold bind at 1.
  match goal with
  | |- context [match ?c s with _ => _ end] =>
      assert (Hpure : snd (c s) = s);
      [| destruct (c s) as [[[] | e] s1]; simpl in Hpure; subst s1; [| exact Hsame]]
  end.
  { destruct inviteRow; [reflexivity |].
    destruct (isEmpty _); [reflexivity |].
    destruct (isEmpty _); reflexivity. }
  rewrite (bind_ok _ _ _ _ _ (upsertMembership_run _ _ _ _ _ _)).
  rewrite (bind_ok _ _ _ _ _ (upsertMemberProfile_run _ _ _ _ _)).
  rewrite (bind_ok _ _ _ _ _ (saveUserNames_run _ _ _ _)).
  destruct inviteRow as [inv|].
  - rewrite (bind_ok _ _ _ _ _ (saveInvitation_run _ _ _)).
    unfold ret. cbn [snd].
    match goal with
    | |- context [set_memberships ?ms s] =>
        pose proof (join_tail_frames usr (t_id tenant) (callerId u)
                 (trim (b_fullName (body req))) (trim (b_phone (body req)))
                 (i_id inv) (Tenants.markAccepted (callerId u) (now env)) ms s) as Hf
    end.
    cbv zeta in Hf. rewrite (proj1 (proj2 (proj2 (proj2 Hf)))). apply Hacc.
  - rewrite (bind_ok _ _ _ _ _ (ret_run _ _)).
    unfold ret. cbn [snd].
    match goal with
    | |- context [set_memberships ?ms s] =>
        pose proof (join_tail_direct_frames usr (t_id tenant) (callerId u)
                 (trim (b_fullName (body req))) (trim (b_phone (body req)))
                 ms s) as Hf
    end.
    cbv zeta in Hf. rewrite (proj2 (proj2 (proj2 Hf))). exact Hsame.
Qed.

Lemma inviteMember_ok_inv `{Bson} (env : Env) (req : Request) (s : Store)
  (resp : Z * Tenants.InviteView) (s' : Store) :
  Tenants.inviteMember env req s = (Ok resp, s') ->
  exists tenant u,
    findOne (fun t => String.eqb (t_id t) (pathTenantId req)) (tenants s)
    = Some tenant
    /\ user req = Some u
    /\ s' = set_invitations
              (insertDoc
                 (mkInvitation (newObjectId env 0) (t_id tenant) (emailOf req)
                    (trim (b_phone (body req)))
                    (match b_role (body req) with Some r => r | None => MEMBER end)
                    "SENT" (randomUUID env) (now env + sevenDays) (callerId u)
                    None None None None)
                 (invitations s)) s
    /\ fst resp = 201
    /\ Tenants.iv_email (snd resp) = emailOf req
    /\ Tenants.iv_expiresAt (snd resp) = now env + sevenDays.
Proof.
  unfold Tenants.inviteMember, Tenants.findTenantById, castObjectId, requireUser,
    newTypesObjectId, pathTenantId, callerId, emailOf, throwApp, throw, bind, gets,
    ret, modify.
  destruct (isValid (routeParam _)); [| discriminate].
  destruct (findOne _ (tenants s)) as [tenant|]; [| discriminate].
  destruct (user req) as [u|]; [| discriminate].
  destruct (isValid (sub u)); [| discriminate].
  intros E. injection E as <- <-.
  exists tenant, u. repeat split.
Qed.

(** X22.  Invitation emails are stored in lower case and stay so: if
    every stored invitation email is its own lower-case form, this still
    holds after either invitation endpoint, a resend, a revoke, and a join
    by slug, whether the call succeeds or throws.  Both endpoints store
    the trimmed lower-case form of the address they are sent: a call of
    either that succeeds adds one invitation, whose email is that form of
    [String(req.body.email)], and answers with it. *)
Theorem invitation_emails_stay_lower_case `{Bson} (env : Env) (req : Request)
  (s : Store) :
  (LowerCaseEmails s ->
   LowerCaseEmails (snd (TenantFeatures.createInvitation env req s))
   /\ LowerCaseEmails (snd (Tenants.inviteMember env req s))
   /\ LowerCaseEmails (snd (TenantFeatures.resendInvitation env req s))
   /\ LowerCaseEmails (snd (TenantFeatures.revokeInvitation env req s))
   /\ LowerCaseEmails (snd (Tenants.joinTenantBySlug env req s)))
  /\ (forall resp s',
        TenantFeatures.createInvitation env req s = (Ok resp, s') ->
        exists row,
          invitations s' = (invitations s ++ [row])%list
          /\ i_email row = trim (toLowerCase (String_ (b_email (body req))))
          /\ i_email (snd resp) = i_email row
          /\ toLowerCase (i_email row) = i_email row)
  /\ (forall resp s',
        Tenants.inviteMember env req s = (Ok resp, s') ->
        exists row,
          invitations s' = (invitations s ++ [row])%list
          /\ i_email row = trim (toLowerCase (String_ (b_email (body req))))
          /\ Tenants.iv_email (snd resp) = i_email row
          /\ toLowerCase (i_email row) = i_email row).
Proof.
  split; [| split].
  - unfold LowerCaseEmails. intros Hlow.
    split; [| split; [| split; [| split]]].
    + destruct (isValid (routeParam (p_tenantId (params req)))) eqn:Hp.
      2:{ unfold TenantFeatures.createInvitation.
          rewrite (bind_throw _ _ _ _ _ (castObjectId_throws _ s Hp)). exact Hlow. }
      rewrite (createInvitation_run env req s Hp).
      destruct (findOne _ (invitations s)); [exact Hlow |].
      destruct (user req) as [u|]; [| exact Hlow].
      destruct (negb (isValid (sub u))); [exact Hlow |].
      simpl. apply Forall_insertDoc; [apply emailOf_lower | exact Hlow].
    + destruct (Tenants.inviteMember env req s) as [[resp | e] s'] eqn:Hrun.
      * destruct (inviteMember_ok_inv env req s resp s' Hrun)
          as (tenant & u & _ & _ & -> & _).
        simpl. apply Forall_insertDoc; [apply emailOf_lower | exact Hlow].
      * rewrite (inviteMember_throw_pure env req s s' e Hrun). exact Hlow.
    + destruct (TenantFeatures.resendInvitation env req s) as [[resp | e] s'] eqn:Hrun.
      2:{ rewrite (resendInvitation_throw_pure env req s s' e Hrun). exact Hlow. }
      revert Hrun.
      unfold TenantFeatures.resendInvitation, saveInvitation, castObjectId, throwApp,
        throw, bind, gets, ret, modify.
      destruct (isValid (routeParam (p_id _))); [| discriminate].
      destruct (isValid (routeParam (p_tenantId _))); [| discriminate].
      destruct (findOne _ (invitations s)) as [x|]; [| discriminate].
      destruct (String.eqb (i_status x) "ACCEPTED"); [discriminate |].
      intros E. injection E as _ <-.
      simpl. apply Forall_updateFirst; [| exact Hlow]. intros y Hy. exact Hy.
    + destruct (TenantFeatures.revokeInvitation env req s) as [[resp | e] s'] eqn:Hrun.
      2:{ rewrite (revokeInvitation_throw_pure env req s s' e Hrun). exact Hlow. }
      revert Hrun.
      unfold TenantFeatures.revokeInvitation, TenantFeatures.tenantObjectId,
        requireUser, saveInvitation, castObjectId, throwApp, throw, bind, gets, ret,
        modify.
      destruct (isValid (routeParam (p_id _))); [| discriminate].
      destruct (isValid (routeParam (p_tenantId _))); [| discriminate].
      destruct (findOne _ (invitations s)) as [x|]; [| discriminate].
      destruct (String.eqb (i_status x) "ACCEPTED"); [discriminate |].
      destruct (user req) as [u|]; [| discriminate].
      destruct (negb (isValid (sub u))); [discriminate |].
      intros E. injection E as _ <-.
      simpl. apply Forall_updateFirst; [| exact Hlow]. intros y Hy. exact Hy.
    + apply (joinTenantBySlug_invitations env req s
               (Forall (fun i => toLowerCase (i_email i) = i_email i)));
        [exact Hlow |].
      intros id uid. apply Forall_updateFirst; [| exact Hlow]. intros y Hy. exact Hy.
  - intros resp s' Hrun.
    destruct (isValid (routeParam (p_tenantId (params req)))) eqn:Hp.
    2:{ unfold TenantFeatures.createInvitation in Hrun.
        rewrite (bind_throw _ _ _ _ _ (castObjectId_throws _ s Hp)) in Hrun.
        discriminate. }
    rewrite (createInvitation_run env req s Hp) in Hrun.
    destruct (findOne _ (invitations s)); [discriminate |].
    destruct (user req) as [u|]; [| discriminate].
    destruct (negb (isValid (sub u))); [discriminate |].
    cbv zeta in Hrun. injection Hrun as <- <-.
    eexists. split; [reflexivity |].
    split; [reflexivity |]. split; [reflexivity |].
    apply emailOf_lower.
  - intros resp s' Hrun.
    destruct (inviteMember_ok_inv env req s resp s' Hrun)
      as (tenant & u & _ & _ & -> & _ & Hem & _).
    eexists. split; [reflexivity |].
    split; [reflexivity |]. split; [exact Hem |].
    apply emailOf_lower.
Qed.

Lemma invitation_emails_stay_lower_case_witness :
  LowerCaseEmails
    (snd (TenantFeatures.createInvitation (H := Sample.hex24) Sample.env0
            (Sample.invite " Erin@Example.COM " None) Sample.storeJoin))
  /\ (exists resp s' row,
        TenantFeatures.createInvitation (H := Sample.hex24) Sample.env0
          (Sample.invite " Erin@Example.COM " None) Sample.storeJoin = (Ok resp, s')
        /\ invitations s' = (invitations Sample.storeJoin ++ [row])%list
        /\ i_email row = "erin@example.com")
  /\ (exists resp s' row,
        Tenants.inviteMember (H := Sample.hex24) Sample.env0
          (Sample.invite " Erin@Example.COM " None) Sample.storeJoin = (Ok resp, s')
        /\ invitations s' = (invitations Sample.storeJoin ++ [row])%list
        /\ i_email row = "erin@example.com"
        /\ Tenants.iv_email (snd resp) = "erin@example.com").
Proof.
  destruct (invitation_emails_stay_lower_case (H := Sample.hex24) Sample.env0
              (Sample.invite " Erin@Example.COM " None) Sample.storeJoin)
    as (Hkeep & Hcreate & Hinvite).
  split; [apply Hkeep; repeat constructor |].
  split.
  - destruct (TenantFeatures.createInvitation (H := Sample.hex24) Sample.env0
                (Sample.invite " Erin@Example.COM " None) Sample.storeJoin)
      as [[resp | e] s'] eqn:Hrun; [| vm_compute in Hrun; discriminate].
    destruct (Hcreate resp s' eq_refl) as (row & Hinv & Hem & _).
    exists resp, s', row. split; [reflexivity |]. split; [exact Hinv | exact Hem].
  - destruct (Tenants.inviteMember (H := Sample.hex24) Sample.env0
                (Sample.invite " Erin@Example.COM " None) Sample.storeJoin)
      as [[resp | e] s'] eqn:Hrun; [| vm_compute in Hrun; discriminate].
    destruct (Hinvite resp s' eq_refl) as (row & Hinv & Hem & Hview & _).
    exists resp, s', row. split; [reflexivity |]. split; [exact Hinv |].
    split; [exact Hem | now rewrite Hview].
Defined.

(** ** From an invitation to a membership *)

(** X23.  An invitation made by [createInvitation] can be accepted by
    the user whose address, in lower case, is the one invited, from the
    instant it is made until its expiry, the expiry instant included:
    the join answers 201 and the caller holds the invited role, ACTIVE.
    After the expiry the same join is refused with 400 "Invitation is
    expired" and writes nothing.  The expiry is the requested number of
    days (7 by default, at least 1, at most 30) after the creation. *)
Theorem created_invitation_acceptance_window `{Bson} (env envj : Env)
  (req reqj : Request) (s s' : Store) (out : Invitation) (u : JwtUser)
  (tenant : Tenant) (usr : User) :
  TenantFeatures.createInvitation env req s = (Ok (201, out), s') ->
  (forall i, In i (invitations s) -> i_tenantId i = pathTenantId req ->
             i_token i <> randomUUID env) ->
  JoinContext reqj s u tenant usr ->
  NotBanned s (t_id tenant) (callerId u) ->
  t_id tenant = pathTenantId req ->
  inviteTokenOf reqj = randomUUID env -> randomUUID env <> "" ->
  toLowerCase (u_email usr) = emailOf req ->
  i_expiresAt out = now env + TenantFeatures.clampedTtl (body req) * dayMs
  /\ now env <= i_expiresAt out
  /\ (now envj <= i_expiresAt out ->
      exists resp s'',
        Tenants.joinTenantBySlug envj reqj s' = (Ok (201, resp), s'')
        /\ Tenants.v_role (Tenants.jr_membership resp) = i_role out
        /\ Tenants.v_status (Tenants.jr_membership resp) = ACTIVE)
  /\ (i_expiresAt out < now envj ->
      Tenants.joinTenantBySlug envj reqj s'
      = (Throw (ExnApp (mkAppError "Invitation is expired" 400
                                   "INVITATION_INVALID")), s')).
Proof.
  intros Hcreate Hfresh [Hju Hjs Hjv Hjt Hjusr] Hnb Hten Htok Hne Hmail.
  destruct (isValid (routeParam (p_tenantId (params req)))) eqn:Hp.
  2:{ unfold TenantFeatures.createInvitation in Hcreate.
      rewrite (bind_throw _ _ _ _ _ (castObjectId_throws _ s Hp)) in Hcreate.
      discriminate. }
  rewrite (createInvitation_run env req s Hp) in Hcreate.
  destruct (findOne _ (invitations s)); [discriminate |].
  destruct (user req) as [adm|]; [| discriminate].
  destruct (negb (isValid (sub adm))); [discriminate |].
  cbv zeta in Hcreate. injection Hcreate as <- <-.
  set (row := mkInvitation (newObjectId env 0) (pathTenantId req)
                (emailOf req) (trim (b_phone (body req)))
                (match b_role (body req) with Some r => r | None => MEMBER end)
                "SENT" (randomUUID env)
                (now env + TenantFeatures.clampedTtl (body req) * dayMs)
                (callerId adm) None None None None) in *.
  set (s' := set_invitations (insertDoc row (invitations s)) s).
  assert (Hctx' : JoinContext reqj s' u tenant usr) by (constructor; assumption).
  assert (Hnb' : NotBanned s' (t_id tenant) (callerId u)) by exact Hnb.
  assert (Htok' : inviteTokenOf reqj <> "") by now rewrite Htok.
  assert (Hfind : findOne (Tenants.invitationByToken (t_id tenant) (inviteTokenOf reqj))
                          (invitations s') = Some row).
  { simpl. apply findOne_insertDoc.
    - apply findOne_none_of_all. intros i Hi. unfold Tenants.invitationByToken.
      destruct (String.eqb_spec (i_tenantId i) (t_id tenant)) as [E | E];
        [| reflexivity].
      simpl. apply String.eqb_neq. rewrite Htok. apply Hfresh; [exact Hi |].
      now rewrite E.
    - unfold Tenants.invitationByToken. simpl. rewrite Htok.
      rewrite Hten, !String.eqb_refl. reflexivity. }
  pose proof (joinTenantBySlug_invite_run envj reqj s' u tenant usr row
                Hctx' Hnb' Htok' Hfind) as Hrun.
  assert (Hclamp : 1 <= TenantFeatures.clampedTtl (body req)).
  { unfold TenantFeatures.clampedTtl. lia. }
  split; [reflexivity |].
  split; [simpl; unfold dayMs; lia |].
  split.
  - intros Hin.
    assert (Hsent : normalizeInvitationStatus (i_status row) (i_expiresAt row)
                      (now envj) = "SENT").
    { apply derived_sent_iff. simpl. repeat split; try discriminate. exact Hin. }
    rewrite Hsent in Hrun. cbn [String.eqb Ascii.eqb Bool.eqb negb] in Hrun.
    replace (String.eqb (i_email row) (toLowerCase (u_email usr))) with true in Hrun
      by (symmetry; apply String.eqb_eq; simpl; now symmetry).
    cbn [negb] in Hrun. cbv zeta in Hrun.
    eexists. eexists. split; [exact Hrun |].
    destruct (upsert_membership_found (newObjectId envj 0) (t_id tenant) (callerId u)
                (i_role row) ACTIVE (memberships s')) as (_ & Hr & Hs & _).
    split; [exact Hr | exact Hs].
  - intros Hlate.
    assert (Hexp : normalizeInvitationStatus (i_status row) (i_expiresAt row)
                     (now envj) = "EXPIRED").
    { unfold normalizeInvitationStatus. simpl.
      replace (now env + TenantFeatures.clampedTtl (body req) * dayMs <? now envj)
        with true; [reflexivity |].
      symmetry. apply Z.ltb_lt. exact Hlate. }
    rewrite Hexp in Hrun. exact Hrun.
Qed.

Lemma created_invitation_acceptance_window_witness :
  exists out s' resp s'',
    TenantFeatures.createInvitation (H := Sample.hex24) Sample.env0
      (Sample.invite "Bob@Example.com" (Some 1)) Sample.storeA = (Ok (201, out), s')
    /\ Tenants.joinTenantBySlug (H := Sample.hex24) Sample.env0
         (Sample.joinWithToken Sample.bob "uuid-1") s' = (Ok (201, resp), s'')
    /\ Tenants.v_role (Tenants.jr_membership resp) = MODERATOR
    /\ Tenants.v_status (Tenants.jr_membership resp) = ACTIVE.
Proof.
  destruct (TenantFeatures.createInvitation (H := Sample.hex24) Sample.env0
              (Sample.invite "Bob@Example.com" (Some 1)) Sample.storeA)
    as [[[st out] | e] s'] eqn:Hrun; [| vm_compute in Hrun; discriminate].
  assert (Hout : st = 201 /\ i_role out = MODERATOR /\ i_expiresAt out = 86401000).
  { pose proof Hrun as Hc. vm_compute in Hc. injection Hc as <- <- _.
    repeat split. }
  destruct Hout as (-> & Hrole & Hexp).
  destruct (created_invitation_acceptance_window (H := Sample.hex24)
              Sample.env0 Sample.env0
              (Sample.invite "Bob@Example.com" (Some 1))
              (Sample.joinWithToken Sample.bob "uuid-1")
              Sample.storeA s' out (mkJwtUser Sample.bob USER) Sample.acme
              (mkUser Sample.bob "bob@example.com" "Bob" "2" USER) Hrun)
    as (_ & _ & Hok & _).
  - intros i [].
  - constructor; try reflexivity. discriminate.
  - intros m Hm. injection Hm as <-. discriminate.
  - reflexivity.
  - reflexivity.
  - discriminate.
  - reflexivity.
  - destruct Hok as (resp & s'' & Hjoin & Hr & Hs).
    + rewrite Hexp. simpl. lia.
    + exists out, s', resp, s''. split; [reflexivity |]. split; [exact Hjoin |].
      split; [now rewrite Hr | exact Hs].
Defined.

(** ** The other writers of memberships *)

Lemma NoDup_map_filter {A B : Type} (key : A -> B) (p : A -> bool) (l : list A) :
  NoDup (map key l) -> NoDup (map key (filter p l)).
Proof.
  induction l as [| a l IH]; intros Hnd; [constructor |].
  inversion Hnd as [| ? ? Hnotin Hnd']; subst. simpl.
  destruct (p a); [| now apply IH].
  simpl. constructor; [| now apply IH].
  intros Hin. apply Hnotin. apply in_map_iff in Hin. destruct Hin as (x & Hk & Hx).
  apply filter_In in Hx. rewrite <- Hk. apply in_map. exact (proj1 Hx).
Qed.

(** X24.  The role update and the tenant deletion keep at most one
    membership per (tenant, user) pair, whether they succeed or not.  The
    role update never adds or removes a membership, and the membership of
    every (tenant, user) pair other than the one the two path strings
    denote as ObjectIds is found as before. *)
Theorem role_update_and_delete_keep_one_per_pair `{Bson} (req : Request)
  (s : Store) :
  UniqueMemberships s ->
  UniqueMemberships (snd (TenantFeatures.updateMemberRole req s))
  /\ UniqueMemberships (snd (AdminMore.deleteTenant req s))
  /\ length (memberships (snd (TenantFeatures.updateMemberRole req s)))
     = length (memberships s)
  /\ (forall t u,
        (t, u) <> (pathTenantId req, pathUserId req) ->
        findOne (membershipOf t u)
                (memberships (snd (TenantFeatures.updateMemberRole req s)))
        = findOne (membershipOf t u) (memberships s)).
Proof.
  unfold UniqueMemberships. intros Huniq.
  assert (Hupd : memberships (snd (TenantFeatures.updateMemberRole req s))
                 = memberships s
                 \/ memberships (snd (TenantFeatures.updateMemberRole req s))
                    = updateFirst (membershipOf (pathTenantId req) (pathUserId req))
                                  (TenantFeatures.memberRoleUpdate (body req))
                                  (memberships s)).
  { unfold TenantFeatures.updateMemberRole, updateOneNew, castObjectId, pathTenantId,
      pathUserId, throwApp, throw, bind, ret.
    destruct (isValid (routeParam (p_tenantId _))); [| now left].
    destruct (isValid (routeParam (p_userId _))); [| now left].
    destruct (findOne _ (memberships s)); [now right | now left]. }
  split; [| split; [| split]].
  - destruct Hupd as [-> | ->]; [exact Huniq |].
    rewrite map_updateFirst; [exact Huniq | reflexivity].
  - unfold AdminMore.deleteTenant, castObjectId, requireUser, throw, bind, gets, ret,
      modify.
    destruct (isValid _); [| exact Huniq].
    destruct (findOne _ (tenants s)); [| exact Huniq].
    destruct (user req); simpl; now apply NoDup_map_filter.
  - destruct Hupd as [-> | ->]; [reflexivity | apply updateFirst_length].
  - intros t u Hne. destruct Hupd as [-> | ->]; [reflexivity |].
    apply findOne_updateFirst_frame. intros x Hx.
    apply membershipOf_true in Hx. destruct Hx as [Hxt Hxu].
    assert (Hoff : forall y, m_tenantId y = pathTenantId req ->
                             m_userId y = pathUserId req ->
                             membershipOf t u y = false).
    { intros y Hyt Hyu. destruct (membershipOf t u y) eqn:E; [| reflexivity].
      apply membershipOf_true in E. destruct E as [E1 E2].
      exfalso. apply Hne. congruence. }
    split; [now apply Hoff | now apply Hoff].
Qed.

Lemma role_update_and_delete_keep_one_per_pair_witness :
  UniqueMemberships
    (snd (TenantFeatures.updateMemberRole (H := Sample.hex24)
            (Sample.roleOnly Sample.alice Sample.dave MEMBER) Scenario.storeStaff))
  /\ UniqueMemberships
       (snd (AdminMore.deleteTenant (H := Sample.hex24) Scenario.deleteA
               Scenario.storeStaff))
  /\ findOne (membershipOf Sample.tenantA Sample.alice)
             (memberships
                (snd (TenantFeatures.updateMemberRole (H := Sample.hex24)
                        (Scenario.roleOnlyUpperA Sample.alice Sample.bob MODERATOR)
                        Sample.storeA)))
     = Some Sample.aliceAdminA.
Proof.
  assert (Huniq : UniqueMemberships Scenario.storeStaff).
  { repeat constructor; simpl; intuition discriminate. }
  assert (HuniqA : UniqueMemberships Sample.storeA).
  { repeat constructor; simpl; intuition discriminate. }
  split; [| split].
  - exact (proj1 (role_update_and_delete_keep_one_per_pair (H := Sample.hex24)
                    (Sample.roleOnly Sample.alice Sample.dave MEMBER)
                    Scenario.storeStaff Huniq)).
  - exact (proj1 (proj2 (role_update_and_delete_keep_one_per_pair (H := Sample.hex24)
                    Scenario.deleteA Scenario.storeStaff Huniq))).
  - rewrite (proj2 (proj2 (proj2 (role_update_and_delete_keep_one_per_pair
                    (H := Sample.hex24)
                    (Scenario.roleOnlyUpperA Sample.alice Sample.bob MODERATOR)
                    Sample.storeA HuniqA))) Sample.tenantA Sample.alice).
    + reflexivity.
    + discriminate.
Defined.
